(** * MediTrack: appointments, accounts and admin tools of MediTrackApp

    A shallow embedding of the booking, status-update and availability
    code of [MediTrackApp/forms.py], [MediTrackApp/models.py],
    [MediTrackApp/moldels2.py] and [MediTrackApp/views.py], of the account
    views (registration, login, user management), the announcement and
    report forms, the admin filter and two helpers, with the Python values
    these functions handle (dates, times, datetimes, JSON field values,
    exceptions).  Loops take a [fuel] bound and give [None] when it runs
    out.  The database is the list of the rows read and written; the
    activity log kept by [MediTrackApp/signals.py] is left out. *)

From Stdlib Require Import ZArith List String Ascii Bool Lia DecimalString.
Import ListNotations.
Open Scope string_scope.
Open Scope list_scope.
Open Scope Z_scope.

(** ** Python values *)

Module Py.

(** The exceptions the modelled code can raise.  [ValidationError] carries
    the message given by the form. *)
Inductive exn : Type :=
| ValueError
| TypeError
| OverflowError
| ValidationError (message : string).

(** The outcome of a call: a returned value or a raised exception. *)
Inductive result (A : Type) : Type :=
| Returns (a : A)
| Raises (e : exn).
Arguments Returns {A} a.
Arguments Raises {A} e.

Definition bind {A B : Type} (r : result A) (k : A -> result B) : result B :=
  match r with
  | Returns a => k a
  | Raises e => Raises e
  end.

(** *** JSON field values

    What a [models.JSONField] holds once decoded.  Numbers are the integral
    ones; strings are sequences of Latin-1 characters. *)
#[warnings="-register-all"]
Inductive json : Type :=
| JNull
| JBool (b : bool)
| JInt (n : Z)
| JStr (s : string)
| JArr (items : list json)
| JObj (members : list (string * json)).

(** Python truth value, as used by [x or default]. *)
Definition truthy (v : json) : bool :=
  match v with
  | JNull => false
  | JBool b => b
  | JInt n => negb (n =? 0)
  | JStr s => negb (s =? "")%string
  | JArr items => match items with [] => false | _ => true end
  | JObj members => match members with [] => false | _ => true end
  end.

(** [x or default]. *)
Definition py_or (x default : json) : json :=
  if truthy x then x else default.

(** [n == v] for an [int] n: equal integers, and [True == 1], [False == 0]. *)
Definition int_eq (n : Z) (v : json) : bool :=
  match v with
  | JInt m => n =? m
  | JBool b => n =? (if b then 1 else 0)
  | _ => false
  end.

(** [n in container] for an [int] n.  A list is searched with [==]; a dict
    is searched among its keys, which are strings; a string accepts only a
    string on the left; the other values are not containers. *)
Definition int_in (n : Z) (container : json) : result bool :=
  match container with
  | JArr items => Returns (existsb (int_eq n) items)
  | JObj _ => Returns false
  | _ => Raises TypeError
  end.

Definition chars (s : string) : list ascii := list_ascii_of_string s.

(** What [for x in v] iterates over: the items of a list, the keys of a
    dict, the characters of a string. *)
Definition iterate (v : json) : result (list json) :=
  match v with
  | JArr items => Returns items
  | JObj members => Returns (map (fun kv => JStr (fst kv)) members)
  | JStr s => Returns (map (fun c => JStr (String c EmptyString)) (chars s))
  | _ => Raises TypeError
  end.

(** *** Dates

    A [datetime.date] is its proleptic Gregorian ordinal ([toordinal()]),
    from 1 (0001-01-01) to [MAXORDINAL] (9999-12-31). *)
Definition date : Type := Z.

Definition MAXORDINAL : Z := 3652059.

Definition date_valid (d : date) : Prop := 1 <= d <= MAXORDINAL.

(** [date.weekday()]: Monday is 0, Sunday is 6. *)
Definition weekday (d : date) : Z := (d + 6) mod 7.

(** [d + timedelta(days=n)]. *)
Definition date_add_days (d : date) (n : Z) : result date :=
  let o := d + n in
  if (0 <? o) && (o <=? MAXORDINAL) then Returns o else Raises OverflowError.

Definition is_leap (y : Z) : bool :=
  (y mod 4 =? 0) && (negb (y mod 100 =? 0) || (y mod 400 =? 0)).

Definition days_before_year (y : Z) : Z :=
  let p := y - 1 in p * 365 + p / 4 - p / 100 + p / 400.

Definition days_in_month (y m : Z) : Z :=
  if m =? 2 then (if is_leap y then 29 else 28)
  else if (m =? 4) || (m =? 6) || (m =? 9) || (m =? 11) then 30 else 31.

Fixpoint days_before_month (y : Z) (m : nat) : Z :=
  match m with
  | O => 0
  | S m' => days_before_month y m' + days_in_month y (Z.of_nat m)
  end.

(** [date(y, m, d).toordinal()]. *)
Definition ymd (y m d : Z) : date :=
  days_before_year y + days_before_month y (Z.to_nat (m - 1)) + d.

(** *** Times of day *)

Record time : Type := mk_time {
  hour : Z;
  minute : Z;
  second : Z;
  microsecond : Z
}.

Definition time_wf (t : time) : Prop :=
  0 <= hour t < 24 /\ 0 <= minute t < 60 /\
  0 <= second t < 60 /\ 0 <= microsecond t < 1000000.

Definition time_eqb (a b : time) : bool :=
  (hour a =? hour b) && (minute a =? minute b) &&
  (second a =? second b) && (microsecond a =? microsecond b).

(** [a < b] on naive times: the tuples (hour, minute, second, microsecond)
    are compared lexicographically. *)
Definition time_ltb (a b : time) : bool :=
  if hour a =? hour b then
    if minute a =? minute b then
      if second a =? second b then microsecond a <? microsecond b
      else second a <? second b
    else minute a <? minute b
  else hour a <? hour b.

Definition US_PER_SECOND : Z := 1000000.
Definition US_PER_MINUTE : Z := 60 * US_PER_SECOND.
Definition US_PER_DAY : Z := 86400 * US_PER_SECOND.

(** Microseconds since midnight. *)
Definition time_us (t : time) : Z :=
  ((hour t * 60 + minute t) * 60 + second t) * US_PER_SECOND + microsecond t.

(** The time of day [u] microseconds after midnight, split the way
    [datetime.__add__] does: seconds and microseconds first, then
    [divmod(seconds, 3600)] and [divmod(rem, 60)]. *)
Definition time_of_us (u : Z) : time :=
  let seconds := u / US_PER_SECOND in
  let rem := seconds mod 3600 in
  {| hour := seconds / 3600;
     minute := rem / 60;
     second := rem mod 60;
     microsecond := u mod US_PER_SECOND |}.

(** *** Datetimes and timedeltas *)

Record datetime : Type := mk_datetime {
  dt_date : date;
  dt_time : time
}.

(** [datetime.combine(d, t)]. *)
Definition combine (d : date) (t : time) : datetime :=
  {| dt_date := d; dt_time := t |}.

(** Microseconds since the start of day 0. *)
Definition datetime_us (dt : datetime) : Z :=
  dt_date dt * US_PER_DAY + time_us (dt_time dt).

(** A [timedelta] is its length in microseconds. *)
Definition timedelta : Type := Z.

Definition MAX_DELTA_DAYS : Z := 999999999.

(** [timedelta(minutes=n)]: the number of days must stay within
    [-999999999, 999999999]. *)
Definition timedelta_minutes (n : Z) : result timedelta :=
  let us := n * US_PER_MINUTE in
  let days := us / US_PER_DAY in
  if (- MAX_DELTA_DAYS <=? days) && (days <=? MAX_DELTA_DAYS)
  then Returns us else Raises OverflowError.

(** [dt + delta]: the sum is renormalised into days and time of day, and
    the day must be a valid ordinal. *)
Definition datetime_add (dt : datetime) (delta : timedelta) : result datetime :=
  let total := datetime_us dt + delta in
  let days := total / US_PER_DAY in
  if (0 <? days) && (days <=? MAXORDINAL)
  then Returns {| dt_date := days; dt_time := time_of_us (total mod US_PER_DAY) |}
  else Raises OverflowError.

(** *** Formatting and parsing times *)

Definition digit_char (d : Z) : ascii := ascii_of_nat (48 + Z.to_nat d).

(** [%02d] for a number below 100. *)
Definition two_digits (n : Z) : string :=
  String (digit_char (n / 10)) (String (digit_char (n mod 10)) EmptyString).

(** [dt.strftime("%H:%M")]. *)
Definition strftime_HM (dt : datetime) : string :=
  (two_digits (hour (dt_time dt)) ++ ":" ++ two_digits (minute (dt_time dt)))%string.

Definition is_digit (c : ascii) : bool :=
  let n := nat_of_ascii c in (48 <=? n)%nat && (n <=? 57)%nat.

Definition digit_val (c : ascii) : Z := Z.of_nat (nat_of_ascii c) - 48.

Definition digit_upto (c : ascii) (k : Z) : bool :=
  is_digit c && (digit_val c <=? k).

(** The two-digit alternatives of the directives of [_strptime]:
    [%H] is [2[0-3]|[0-1]\d|\d], [%M] is [[0-5]\d|\d] and
    [%S] is [6[0-1]|[0-5]\d|\d]. *)
Definition hour2 (c1 c2 : ascii) : bool :=
  ((digit_val c1 =? 2) && digit_upto c2 3) || (digit_upto c1 1 && is_digit c2).
Definition minute2 (c1 c2 : ascii) : bool :=
  digit_upto c1 5 && is_digit c2.
Definition second2 (c1 c2 : ascii) : bool :=
  ((digit_val c1 =? 6) && digit_upto c2 1) || (digit_upto c1 5 && is_digit c2).

(** One numeric directive: the two-digit alternatives are tried first, then
    the single digit.  The directive is followed by a colon or by the end
    of the pattern, so falling back to a shorter alternative after a longer
    one matched never makes the rest match. *)
Definition directive (two : ascii -> ascii -> bool) (l : list ascii)
  : option (Z * list ascii) :=
  match l with
  | c1 :: c2 :: rest =>
      if two c1 c2
      then Some (10 * digit_val c1 + digit_val c2, rest)
      else if is_digit c1 then Some (digit_val c1, c2 :: rest) else None
  | [c1] => if is_digit c1 then Some (digit_val c1, []) else None
  | [] => None
  end.

Definition colon (l : list ascii) : option (list ascii) :=
  match l with
  | c :: rest => if Ascii.eqb c ":"%char then Some rest else None
  | [] => None
  end.

(** [datetime.strptime(s, "%H:%M:%S").time()]: the pattern must match a
    prefix of [s], nothing may remain after it, and the seconds must be
    below 60 for the datetime to be built.  Every failure is a
    [ValueError]. *)
Definition strptime_HMS (s : string) : result time :=
  match directive hour2 (chars s) with
  | None => Raises ValueError
  | Some (h, l1) =>
    match colon l1 with
    | None => Raises ValueError
    | Some l2 =>
      match directive minute2 l2 with
      | None => Raises ValueError
      | Some (m, l3) =>
        match colon l3 with
        | None => Raises ValueError
        | Some l4 =>
          match directive second2 l4 with
          | None => Raises ValueError
          | Some (sec, l5) =>
            match l5 with
            | [] => if sec <=? 59 then Returns (mk_time h m sec 0)
                    else Raises ValueError
            | _ :: _ => Raises ValueError
            end
          end
        end
      end
    end
  end.

(** [datetime.strptime(v, "%H:%M:%S").time()] on a JSON value: the first
    argument must be a [str]. *)
Definition strptime_value (v : json) : result time :=
  match v with
  | JStr s => strptime_HMS s
  | _ => Raises TypeError
  end.

End Py.

Import Py.

(** ** models.py *)

Module Models.

(** [Appointment.STATUS_CHOICES]: stored value and label. *)
Definition STATUS_CHOICES : list (string * string) :=
  [("pending", "Pending"); ("confirmed", "Confirmed");
   ("cancelled", "Cancelled"); ("completed", "Completed")].

(** [DoctorProfile]: the two availability fields, both [JSONField]s. *)
Record DoctorProfile : Type := mk_DoctorProfile {
  available_days : json;
  available_time_slots : json
}.

(** [Appointment]: the fields the booking and status forms read or write.
    [patient] and [doctor] are the keys of the profiles they point to;
    [date_] and [time_] are the fields [date] and [time]. *)
Record Appointment : Type := mk_Appointment {
  patient : Z;
  doctor : Z;
  date_ : date;
  time_ : time;
  status : string;
  symptoms : string;
  reason : string;
  other_reason : string;
  end_time : option time
}.

(** Two rows on the same (doctor, date, time). *)
Definition same_slot (a b : Appointment) : bool :=
  (doctor a =? doctor b) && (date_ a =? date_ b) && time_eqb (time_ a) (time_ b).

(** [Appointment.Meta.constraints]:
    [UniqueConstraint(fields=["doctor", "date", "time"], name="unique_doctor_slot")].
    The status is not among the fields. *)
Fixpoint unique_doctor_slot (rows : list Appointment) : bool :=
  match rows with
  | [] => true
  | a :: rest => negb (existsb (same_slot a) rest) && unique_doctor_slot rest
  end.

End Models.

Import Models.

(** ** moldels2.py

    The second models file of the application, which no module imports. *)

Module Moldels2.

Definition PAST_DATE_MESSAGE : string :=
  "Appointment date cannot be in the past.".
Definition END_TIME_MESSAGE : string :=
  "End time must be after start time.".

(** [end_time <= time] on naive times. *)
Definition time_leb (a b : time) : bool := negb (time_ltb b a).

(** [Appointment.clean] of this file, on an appointment whose date and
    time are set; [today] is [timezone.now().date()]. *)
Definition clean (today : date) (self : Appointment) : result unit :=
  if date_ self <? today then Raises (ValidationError PAST_DATE_MESSAGE)
  else
    match end_time self with
    | Some e =>
        if time_leb e (time_ self) then Raises (ValidationError END_TIME_MESSAGE)
        else Returns tt
    | None => Returns tt
    end.

End Moldels2.

(** ** forms.py *)

Module Forms.

(** The [cleaned_data] of [AppointmentBookingForm]: a field that did not
    validate is absent ([cleaned.get] gives [None]). *)
Record BookingData : Type := mk_BookingData {
  cd_patient : option Z;
  cd_doctor : option Z;
  cd_date : option date;
  cd_time : option time;
  cd_symptoms : string;
  cd_reason : string;
  cd_other_reason : string
}.

Definition PAST_DATE_MESSAGE : string :=
  "You cannot book an appointment in the past.".
Definition SLOT_BOOKED_MESSAGE : string :=
  "This time slot is already booked.".

(** [Appointment.objects.filter(doctor=doctor, date=date, time=time).exists()]
    over the stored rows [objects]. *)
Definition slot_exists (objects : list Appointment)
    (doctor_id : Z) (d : date) (t : time) : bool :=
  existsb (fun a => (doctor a =? doctor_id) && (date_ a =? d) && time_eqb (time_ a) t)
          objects.

(** [AppointmentBookingForm.clean]; [today] is [timezone.now().date()]. *)
Definition clean (today : date) (objects : list Appointment)
    (cleaned : BookingData) : result BookingData :=
  let past :=
    match cd_date cleaned with
    | Some d => d <? today
    | None => false
    end in
  if past then Raises (ValidationError PAST_DATE_MESSAGE)
  else
    let booked :=
      match cd_doctor cleaned, cd_date cleaned, cd_time cleaned with
      | Some doctor_id, Some d, Some t => slot_exists objects doctor_id d t
      | _, _, _ => false
      end in
    if booked then Raises (ValidationError SLOT_BOOKED_MESSAGE)
    else Returns cleaned.

(** The data posted to [AppointmentStatusForm]: the raw [status] choice
    and the optional [end_time], [None] when left blank. *)
Record StatusData : Type := mk_StatusData {
  sd_status : string;
  sd_end_time : option time
}.

(** The [status] field of the model form: required, and one of the stored
    values of [STATUS_CHOICES]. *)
Definition clean_status (value : string) : result string :=
  if (value =? "")%string then Raises (ValidationError "This field is required.")
  else if existsb (String.eqb value) (map fst STATUS_CHOICES) then Returns value
  else Raises (ValidationError
         ("Select a valid choice. " ++ value ++
          " is not one of the available choices.")%string).

(** [AppointmentStatusForm]: validation of the two fields ([status],
    [end_time]); the form defines no [clean] of its own. *)
Definition status_form_clean (data : StatusData) : result StatusData :=
  bind (clean_status (sd_status data)) (fun s =>
  Returns {| sd_status := s; sd_end_time := sd_end_time data |}).

(** [form.save()] on the instance: the two form fields are written. *)
Definition status_form_save (instance : Appointment) (cleaned : StatusData)
  : Appointment :=
  {| patient := patient instance;
     doctor := doctor instance;
     date_ := date_ instance;
     time_ := time_ instance;
     status := sd_status cleaned;
     symptoms := symptoms instance;
     reason := reason instance;
     other_reason := other_reason instance;
     end_time := sd_end_time cleaned |}.

End Forms.

Import Forms.

(** ** views.py *)

Module Views.

(** [appointment_update_status], POST branch: the appointment as saved
    when the form is valid, the validation error otherwise. *)
Definition appointment_update_status (appointment : Appointment)
    (post : StatusData) : result Appointment :=
  bind (status_form_clean post) (fun cleaned =>
  Returns (status_form_save appointment cleaned)).

(** [slot_str not in booked_slots] on a list of strings. *)
Definition str_in (s : string) (l : list string) : bool :=
  existsb (String.eqb s) l.

(** The [while] loop of [get_available_time_slots].  [None] when [fuel]
    iterations did not reach the end of the loop. *)
Fixpoint slots_loop (fuel : nat) (end_time : time) (slot_duration : Z)
    (booked_slots : list string) (current_time : datetime)
    (slots : list string) : option (result (list string)) :=
  match fuel with
  | O => None
  | S fuel' =>
    if time_ltb (dt_time current_time) end_time then
      let slot_str := strftime_HM current_time in
      let slots' :=
        if negb (str_in slot_str booked_slots) then slots ++ [slot_str]
        else slots in
      match bind (timedelta_minutes slot_duration) (datetime_add current_time) with
      | Raises e => Some (Raises e)
      | Returns next =>
          slots_loop fuel' end_time slot_duration booked_slots next slots'
      end
    else Some (Returns slots)
  end.

(** [get_available_time_slots(start_time, end_time, slot_duration,
    booked_slots)]; [today] is [datetime.today()]'s date. *)
Definition get_available_time_slots (fuel : nat) (today : date)
    (start_time end_time : time) (slot_duration : Z)
    (booked_slots : list string) : option (result (list string)) :=
  slots_loop fuel end_time slot_duration booked_slots
             (combine today start_time) [].

(** The first [while] loop of [calculate_available_slots]: business days
    from [current_date] to [end_date]. *)
Fixpoint count_business_days (fuel : nat) (available_days : json)
    (end_date current_date : date) (business_days : Z)
  : option (result Z) :=
  match fuel with
  | O => None
  | S fuel' =>
    if current_date <=? end_date then
      match int_in (weekday current_date) available_days with
      | Raises e => Some (Raises e)
      | Returns member =>
        let business_days' :=
          if member then business_days + 1 else business_days in
        match date_add_days current_date 1 with
        | Raises e => Some (Raises e)
        | Returns next =>
            count_business_days fuel' available_days end_date next business_days'
        end
      end
    else Some (Returns business_days)
  end.

(** The [for slot in available_slots] loop: each slot is parsed, then
    counted as four appointments per business day. *)
Fixpoint count_slots (business_days : Z) (available_slots : list json)
    (total_slots : Z) : result Z :=
  match available_slots with
  | [] => Returns total_slots
  | slot :: rest =>
    match strptime_value slot with
    | Raises e => Raises e
    | Returns _ => count_slots business_days rest (total_slots + 4 * business_days)
    end
  end.

Definition DEFAULT_DAYS : json := JArr [JInt 1; JInt 2; JInt 3; JInt 4; JInt 5].
Definition DEFAULT_SLOTS : json := JArr [JStr "09:00:00"].

(** The anchor list the function works on: a [str] field is decoded with
    [json.loads], any exception giving the default; another value is used
    as it is unless it is falsy. *)
Definition resolve_slots (json_loads : string -> result json)
    (slots_raw : json) : json :=
  match slots_raw with
  | JStr s =>
    match json_loads s with
    | Returns v => v
    | Raises _ => DEFAULT_SLOTS
    end
  | _ => py_or slots_raw DEFAULT_SLOTS
  end.

(** [calculate_available_slots(doctor_profile, start_date, end_date)];
    [json_loads] is the [json.loads] of the standard library. *)
Definition calculate_available_slots (json_loads : string -> result json)
    (fuel : nat) (doctor_profile : DoctorProfile)
    (start_date end_date : date) : option (result Z) :=
  let days := py_or (available_days doctor_profile) DEFAULT_DAYS in
  let available_slots :=
    resolve_slots json_loads (available_time_slots doctor_profile) in
  match count_business_days fuel days end_date start_date 0 with
  | None => None
  | Some (Raises e) => Some (Raises e)
  | Some (Returns business_days) =>
      Some (bind (iterate available_slots) (fun l =>
            count_slots business_days l 0))
  end.

End Views.

Import Views.

(** ** What the specification words say, for comparison with the code *)

Module Spec.


(** An existing non-cancelled appointment on (doctor, date, time). *)
Definition occupied_non_cancelled (objects : list Appointment)
    (doctor_id : Z) (d : date) (t : time) : bool :=
  existsb (fun a => (doctor a =? doctor_id) && (date_ a =? d) &&
                    time_eqb (time_ a) t && negb (status a =? "cancelled")%string)
          objects.

(** The dates of the inclusive range [start_date, end_date]. *)
Definition dates_between (start_date end_date : date) : list date :=
  map (fun k => start_date + Z.of_nat k)
      (seq 0 (Z.to_nat (end_date - start_date + 1))).

(** Business days: the dates of the range whose weekday is among [days]. *)
Definition business_days (days : list json) (start_date end_date : date) : Z :=
  Z.of_nat (List.length (filter (fun d => existsb (int_eq (weekday d)) days)
                           (dates_between start_date end_date))).

(** The number of candidate start times [start + k * step] that lie
    strictly before [stop] (all in microseconds since midnight). *)
Definition candidate_count (start stop step : Z) : nat :=
  if start <? stop then Z.to_nat ((stop - start + step - 1) / step) else O.

(** The candidate start times, in increasing order of [k]. *)
Definition candidate_times (start_time end_time : time) (slot_duration : Z)
  : list time :=
  let step := slot_duration * US_PER_MINUTE in
  map (fun k => time_of_us (time_us start_time + Z.of_nat k * step))
      (seq 0 (candidate_count (time_us start_time) (time_us end_time) step)).

(** [%H:%M] of a time of day. *)
Definition format_HM (t : time) : string :=
  (two_digits (hour t) ++ ":" ++ two_digits (minute t))%string.

(** The bookable start times: the formatted candidates that are not booked. *)
Definition bookable (start_time end_time : time) (slot_duration : Z)
    (booked_slots : list string) : list string :=
  filter (fun s => negb (str_in s booked_slots))
         (map format_HM (candidate_times start_time end_time slot_duration)).

(** Whether an anchor entry parses as HH:MM:SS. *)
Definition parses (slot : json) : bool :=
  match strptime_value slot with
  | Returns _ => true
  | Raises _ => false
  end.

(** The valid entries of an anchor list. *)
Definition valid_anchors (slots : list json) : list json :=
  filter parses slots.

End Spec.

Import Spec.

(** ** Sample data used by the examples *)

Module Sample.

Definition june (day : Z) : date := ymd 2025 6 day.

Definition at_ (h m : Z) : time := mk_time h m 0 0.

(** An appointment of patient 7 with doctor 1. *)
Definition appointment (d : date) (t : time) (st : string) : Appointment :=
  {| patient := 7; doctor := 1; date_ := d; time_ := t; status := st;
     symptoms := ""; reason := "CONSULT"; other_reason := "";
     end_time := None |}.

(** A booking request of patient 8 with doctor 1. *)
Definition request (d : date) (t : time) : BookingData :=
  {| cd_patient := Some 8; cd_doctor := Some 1; cd_date := Some d;
     cd_time := Some t; cd_symptoms := ""; cd_reason := "CONSULT";
     cd_other_reason := "" |}.

(** Monday to Friday in the numbering of [weekday]. *)
Definition weekdays : json := JArr [JInt 0; JInt 1; JInt 2; JInt 3; JInt 4].

(** A doctor available on [weekdays] at the given anchors. *)
Definition profile (slots : list string) : DoctorProfile :=
  {| available_days := weekdays; available_time_slots := JArr (map JStr slots) |}.

(** A [json.loads] that accepts nothing; the sample profiles hold lists,
    which are not decoded. *)
Definition no_loads (_ : string) : result json := Raises ValueError.

End Sample.

(** ** views.py, the callers of the slot count *)

Module Schedule.

(** [available_slots_week] of [doctor_schedule]:
    [calculate_available_slots(doctor_profile, today, today + timedelta(days=7))]. *)
Definition available_slots_week (json_loads : string -> result json)
    (fuel : nat) (doctor_profile : DoctorProfile) (today : date)
  : option (result Z) :=
  match date_add_days today 7 with
  | Raises e => Some (Raises e)
  | Returns week_end =>
      calculate_available_slots json_loads fuel doctor_profile today week_end
  end.

(** The weekdays of a week, in the numbering of [weekday]. *)
Definition WEEK : list Z := [0; 1; 2; 3; 4; 5; 6].

(** How many weekdays of a week are among [days]. *)
Definition days_per_week (days : list json) : Z :=
  Z.of_nat (List.length (filter (fun w => existsb (int_eq w) days) WEEK)).

End Schedule.

Import Schedule.

(** ** views.py, booking and status update on the stored appointments *)

Module Http.

(** What a view answers: a redirect to a named URL, a rendered template,
    or one of the two exceptions that Django turns into the 404 and 403
    pages. *)
Inductive response : Type :=
| Redirect (to : string)
| Render (template : string)
| Http404
| PermissionDenied.

End Http.

Import Http.

Module Stored.

(** [form.save()] of [AppointmentBookingForm]: a new row from the cleaned
    data, with the defaults of the model for [status] and [end_time]. *)
Definition booking_form_save (patient_id doctor_id : Z) (d : date) (t : time)
    (cleaned : BookingData) : Appointment :=
  {| patient := patient_id;
     doctor := doctor_id;
     date_ := d;
     time_ := t;
     status := "pending";
     symptoms := cd_symptoms cleaned;
     reason := cd_reason cleaned;
     other_reason := cd_other_reason cleaned;
     end_time := None |}.

(** [book_appointment], POST branch, on the stored rows [objects].  The
    form is valid when its required fields patient, doctor, date and time
    validated and [clean] raises nothing; the row is then saved and the
    patient sent to the dashboard.  Otherwise nothing is stored and the
    form is shown again. *)
Definition book_appointment (today : date) (objects : list Appointment)
    (cleaned : BookingData) : list Appointment * response :=
  match clean today objects cleaned with
  | Raises _ => (objects, Render "book_appointment.html")
  | Returns c =>
    match cd_patient c, cd_doctor c, cd_date c, cd_time c with
    | Some patient_id, Some doctor_id, Some d, Some t =>
        (objects ++ [booking_form_save patient_id doctor_id d t c],
         Redirect "patient_dashboard")
    | _, _, _, _ => (objects, Render "book_appointment.html")
    end
  end.

(** The appointments with their primary keys. *)
Definition Table : Type := list (Z * Appointment).

(** [get_object_or_404(Appointment, id=appointment_id,
    doctor=request.user.doctor_profile)]: [None] for [Http404]. *)
Definition get_object_or_404 (table : Table) (appointment_id doctor_profile : Z)
  : option Appointment :=
  option_map snd
    (find (fun row => (fst row =? appointment_id)
                      && (doctor (snd row) =? doctor_profile)) table).

(** [save()] of an instance that has a primary key: its row is replaced. *)
Definition save (table : Table) (pk : Z) (instance : Appointment) : Table :=
  map (fun row => if fst row =? pk then (pk, instance) else row) table.

(** [appointment_update_status] for the doctor [doctor_profile]; [post] is
    the posted data, [None] for a GET request. *)
Definition appointment_update_status_view (table : Table)
    (doctor_profile appointment_id : Z) (post : option StatusData)
  : Table * response :=
  match get_object_or_404 table appointment_id doctor_profile with
  | None => (table, Http404)
  | Some appointment =>
    match post with
    | None => (table, Render "appointment_status.html")
    | Some data =>
      match appointment_update_status appointment data with
      | Returns saved =>
          (save table appointment_id saved, Redirect "doctor_dashboard")
      | Raises _ => (table, Render "appointment_status.html")
      end
    end
  end.

(** The slot of a row: doctor, date and time. *)
Definition slot (a : Appointment) : Z * date * time :=
  (doctor a, date_ a, time_ a).

End Stored.

Import Stored.

(** ** Form fields *)

Module Fields.

(** The outcome of cleaning one form field: a value, the empty value, or a
    field error. *)
Inductive field (A : Type) : Type :=
| Value (a : A)
| Empty
| Invalid.
Arguments Value {A} a.
Arguments Empty {A}.
Arguments Invalid {A}.

(** [cleaned_data.get(name)]: [None] for the empty value of a date or
    model choice field and for a key that is not there. *)
Definition cleaned_get {A : Type} (f : field A) : option A :=
  match f with
  | Value a => Some a
  | Empty | Invalid => None
  end.

(** Whether the field validated, [required] or not. *)
Definition field_ok {A : Type} (required : bool) (f : field A) : bool :=
  match f with
  | Value _ => true
  | Empty => negb required
  | Invalid => false
  end.

End Fields.

Import Fields.

(** ** models.py, forms.py and views.py: the user accounts *)

Module Accounts.

(** A [User] row, as far as [User.clean], [User.save] and the two views
    below read it.  [fields_valid] is the outcome of the checks that
    [full_clean] makes on the columns left out here (username, password,
    e-mail, phone number, ...). *)
Record User : Type := mk_User {
  role : string;
  date_of_birth : option date;
  is_active : bool;
  fields_valid : bool
}.

(** The profile rows, each with the primary key of its user. *)
Record DoctorRow : Type := mk_DoctorRow {
  dr_user : Z;
  dr_specialization : string;
  dr_city : string;
  dr_license_number : option string
}.

Record PatientRow : Type := mk_PatientRow {
  pr_user : Z;
  pr_blood_group : string;
  pr_emergency_contact : string
}.

Record DB : Type := mk_DB {
  users : list (Z * User);
  admin_profiles : list (Z * string);
  doctor_profiles : list DoctorRow;
  patient_profiles : list PatientRow
}.

Definition set_users (db : DB) (rows : list (Z * User)) : DB :=
  {| users := rows;
     admin_profiles := admin_profiles db;
     doctor_profiles := doctor_profiles db;
     patient_profiles := patient_profiles db |}.

(** [hasattr(self, 'admin_profile')]: the reverse one-to-one accessor
    raises for an instance without primary key or without a row. *)
Definition has_admin_profile (db : DB) (pk : option Z) : bool :=
  match pk with
  | None => false
  | Some k => existsb (fun p => fst p =? k) (admin_profiles db)
  end.

Definition FUTURE_BIRTH_MESSAGE : string :=
  "Date of birth cannot be in the future".
Definition ADMIN_CODE_MESSAGE : string :=
  "Admin users must have an admin code".

(** [User.clean]. *)
Definition User_clean (today : date) (db : DB) (pk : option Z) (self : User)
  : result unit :=
  if match date_of_birth self with
     | Some d => today <? d
     | None => false
     end
  then Raises (ValidationError FUTURE_BIRTH_MESSAGE)
  else if (role self =? "admin")%string && negb (has_admin_profile db pk)
  then Raises (ValidationError ADMIN_CODE_MESSAGE)
  else Returns tt.

(** [full_clean] passes when the field checks and [clean] both pass. *)
Definition full_clean (today : date) (db : DB) (pk : option Z) (self : User)
  : bool :=
  fields_valid self
  && match User_clean today db pk self with
     | Returns _ => true
     | Raises _ => false
     end.

(** [User.save]: [None] when [full_clean] raises.  A row with the primary
    key of the instance is replaced; an instance without primary key, or
    whose key has no row, is inserted, [new_id] being the key the database
    gives to a new row. *)
Definition User_save (today : date) (new_id : Z) (db : DB) (pk : option Z)
    (self : User) : option DB :=
  if full_clean today db pk self then
    Some (set_users db
      match pk with
      | Some k =>
          if existsb (fun row => fst row =? k) (users db)
          then map (fun row => if fst row =? k then (k, self) else row) (users db)
          else users db ++ [(k, self)]
      | None => users db ++ [(new_id, self)]
      end)
  else None.

(** [get_object_or_404(User, pk=id)]. *)
Definition get_user_or_404 (db : DB) (id : Z) : option User :=
  option_map snd (find (fun row => fst row =? id) (users db)).

(** The message a view leaves for the next page. *)
Inductive notice : Type :=
| OwnAccount      (* You cannot block your own account! *)
| Activated       (* Successfully activated user: ... *)
| Blocked         (* User ... has been blocked. Notification sent. *)
| UserNotFound.   (* User not found. *)

Definition with_is_active (user : User) (b : bool) : User :=
  {| role := role user;
     date_of_birth := date_of_birth user;
     is_active := b;
     fields_valid := fields_valid user |}.

(** [toggle_user_status] for the admin [request_user].  [outbox] lists the
    users for which [send_email_status] was called.  The [except
    Exception] branch takes the [Http404] of the lookup as well as the
    [ValidationError] of [save]. *)
Definition toggle_user_status (today : date) (db : DB) (outbox : list Z)
    (request_user id : Z) : DB * list Z * notice * response :=
  match get_user_or_404 db id with
  | None => (db, outbox, UserNotFound, Redirect "user_management")
  | Some user =>
    if request_user =? id
    then (db, outbox, OwnAccount, Redirect "user_management")
    else
      let old_status := is_active user in
      let new_status := negb old_status in
      match User_save today id db (Some id) (with_is_active user new_status) with
      | None => (db, outbox, UserNotFound, Redirect "user_management")
      | Some db' =>
          (db',
           if negb new_status then outbox ++ [id] else outbox,
           if new_status then Activated else Blocked,
           Redirect "view_user")
      end
  end.

Definition db_of (r : DB * list Z * notice * response) : DB :=
  fst (fst (fst r)).
Definition outbox_of (r : DB * list Z * notice * response) : list Z :=
  snd (fst (fst r)).

(** *** [AddUserForm] and [add_user] *)

(** The posted role and the cleaned values of the optional text fields
    ([None] when the field did not validate, the stripped text
    otherwise).  [other_fields_valid] is the outcome of the remaining
    fields and of the password checks of [UserCreationForm];
    [instance_valid] that of the field checks of [full_clean] on the
    instance the form builds. *)
Record AddUserData : Type := mk_AddUserData {
  raw_role : string;
  cd_date_of_birth : option date;
  cd_admin_code : option string;
  cd_specialization : option string;
  cd_license_number : option string;
  cd_blood_group : option string;
  other_fields_valid : bool;
  instance_valid : bool
}.

Definition ROLE_CHOICES : list string := ["doctor"; "patient"; "admin"].

(** The [role] choice field: the posted value when it is one of the
    choices, a field error otherwise (also for the empty value). *)
Definition role_field (raw : string) : option string :=
  if str_in raw ROLE_CHOICES then Some raw else None.

(** [not cleaned_data.get(key)] on a text field. *)
Definition blank (v : option string) : bool :=
  match v with
  | Some s => (s =? "")%string
  | None => true
  end.

Definition role_is (r : option string) (name : string) : bool :=
  match r with
  | Some s => (s =? name)%string
  | None => false
  end.

(** [AddUserForm.clean]: the cleaned data and the errors added.
    [add_error] on a field also removes its key from the cleaned data. *)
Definition AddUserForm_clean (cleaned_data : AddUserData)
  : AddUserData * list (string * string) :=
  let role := role_field (raw_role cleaned_data) in
  let admin_code := cd_admin_code cleaned_data in
  let '(c1, e1) :=
    if role_is role "admin" && blank admin_code
    then ({| raw_role := raw_role cleaned_data;
             cd_date_of_birth := cd_date_of_birth cleaned_data;
             cd_admin_code := None;
             cd_specialization := cd_specialization cleaned_data;
             cd_license_number := cd_license_number cleaned_data;
             cd_blood_group := cd_blood_group cleaned_data;
             other_fields_valid := other_fields_valid cleaned_data;
             instance_valid := instance_valid cleaned_data |},
          [("admin_code", "Admin code is required for admin users")])
    else (cleaned_data, []) in
  let '(c2, e2) :=
    if role_is role "doctor" && blank (cd_specialization c1)
    then ({| raw_role := raw_role c1;
             cd_date_of_birth := cd_date_of_birth c1;
             cd_admin_code := cd_admin_code c1;
             cd_specialization := None;
             cd_license_number := cd_license_number c1;
             cd_blood_group := cd_blood_group c1;
             other_fields_valid := other_fields_valid c1;
             instance_valid := instance_valid c1 |},
          e1 ++ [("specialization", "Specialization is required for doctors")])
    else (c1, e1) in
  if role_is role "doctor" && blank (cd_license_number c2)
  then ({| raw_role := raw_role c2;
           cd_date_of_birth := cd_date_of_birth c2;
           cd_admin_code := cd_admin_code c2;
           cd_specialization := cd_specialization c2;
           cd_license_number := None;
           cd_blood_group := cd_blood_group c2;
           other_fields_valid := other_fields_valid c2;
           instance_valid := instance_valid c2 |},
        e2 ++ [("license_number", "License number is required for doctors")])
  else (c2, e2).

(** The instance built by the model form: the cleaned role and date of
    birth, [is_active] at its default; the role stays at the default of
    the model when its field did not validate. *)
Definition construct_instance (cleaned_data : AddUserData) : User :=
  {| role := match role_field (raw_role cleaned_data) with
             | Some r => r
             | None => "patient"
             end;
     date_of_birth := cd_date_of_birth cleaned_data;
     is_active := true;
     fields_valid := instance_valid cleaned_data |}.

Definition is_some {A : Type} (v : option A) : bool :=
  match v with
  | Some _ => true
  | None => false
  end.

(** [form.is_valid()]: every field validated, [clean] added no error, and
    [clean] of the instance, which the model form runs on the instance it
    builds, raised nothing. *)
Definition is_valid (today : date) (db : DB) (data : AddUserData) : bool :=
  other_fields_valid data
  && is_some (role_field (raw_role data))
  && is_some (cd_admin_code data)
  && is_some (cd_specialization data)
  && is_some (cd_license_number data)
  && is_some (cd_blood_group data)
  && match snd (AddUserForm_clean data) with
     | [] => true
     | _ :: _ => false
     end
  && match User_clean today db None (construct_instance data) with
     | Returns _ => true
     | Raises _ => false
     end.

(** [objects.create] on the three profile tables: [None] for the
    [IntegrityError] of a unique column.  The columns not given take the
    defaults of the model. *)
Definition DoctorProfile_create (db : DB) (user : Z)
    (specialization license_number : string) : option DB :=
  if existsb (fun p => dr_user p =? user) (doctor_profiles db)
     || existsb (fun p => match dr_license_number p with
                          | Some l => (l =? license_number)%string
                          | None => false
                          end) (doctor_profiles db)
  then None
  else Some {| users := users db;
               admin_profiles := admin_profiles db;
               doctor_profiles :=
                 doctor_profiles db
                 ++ [mk_DoctorRow user specialization "" (Some license_number)];
               patient_profiles := patient_profiles db |}.

Definition PatientProfile_create (db : DB) (user : Z) (blood_group : string)
  : option DB :=
  if existsb (fun p => pr_user p =? user) (patient_profiles db)
  then None
  else Some {| users := users db;
               admin_profiles := admin_profiles db;
               doctor_profiles := doctor_profiles db;
               patient_profiles :=
                 patient_profiles db ++ [mk_PatientRow user blood_group ""] |}.

Definition AdminProfile_create (db : DB) (user : Z) (admin_code : string)
  : option DB :=
  if existsb (fun p => fst p =? user) (admin_profiles db)
     || existsb (fun p => (snd p =? admin_code)%string) (admin_profiles db)
  then None
  else Some {| users := users db;
               admin_profiles := admin_profiles db ++ [(user, admin_code)];
               doctor_profiles := doctor_profiles db;
               patient_profiles := patient_profiles db |}.

Definition ADD_USER_TEMPLATE : string := "admin/add_user.html".

(** [add_user]; [post] is the posted data, [None] for a GET request.
    Everything from [form.save(commit=False)] on runs in
    [transaction.atomic()] inside the [try]: an exception leaves the
    database as it was and the form is shown again.  A subscript of the
    cleaned data on a missing key raises [KeyError]. *)
Definition add_user (today : date) (new_id : Z) (db : DB)
    (post : option AddUserData) : DB * response :=
  match post with
  | None => (db, Render ADD_USER_TEMPLATE)
  | Some data =>
    if is_valid today db data then
      let cleaned_data := fst (AddUserForm_clean data) in
      let user := construct_instance data in
      if (role user =? "admin")%string && blank (cd_admin_code cleaned_data)
      then (db, Render ADD_USER_TEMPLATE)
      else
        match User_save today new_id db None user with
        | None => (db, Render ADD_USER_TEMPLATE)
        | Some db1 =>
          if (role user =? "doctor")%string then
            match cd_specialization cleaned_data, cd_license_number cleaned_data with
            | Some specialization, Some license_number =>
              match DoctorProfile_create db1 new_id specialization license_number with
              | Some db2 => (db2, Redirect "user_management")
              | None => (db, Render ADD_USER_TEMPLATE)
              end
            | _, _ => (db, Render ADD_USER_TEMPLATE)
            end
          else if (role user =? "patient")%string then
            match PatientProfile_create db1 new_id
                    match cd_blood_group cleaned_data with
                    | Some blood_group => blood_group
                    | None => ""
                    end with
            | Some db2 => (db2, Redirect "user_management")
            | None => (db, Render ADD_USER_TEMPLATE)
            end
          else if (role user =? "admin")%string then
            match cd_admin_code cleaned_data with
            | Some admin_code =>
              match AdminProfile_create db1 new_id admin_code with
              | Some db2 => (db2, Redirect "user_management")
              | None => (db, Render ADD_USER_TEMPLATE)
              end
            | None => (db, Render ADD_USER_TEMPLATE)
            end
          else (db1, Redirect "user_management")
        end
    else (db, Render ADD_USER_TEMPLATE)
  end.

(** *** [UserRegistrationForm], [register_view] and [login_view] *)
















(** *** [edit_user] *)

(** What [edit_user] reads of the posted data: the role, [None] when it
    is not posted, whether [is_active] is [on], and the outcome of the
    field checks of [full_clean] on the other columns as edited. *)
Record EditData : Type := mk_EditData {
  ed_role : option string;
  ed_is_active_on : bool;
  ed_other_fields_valid : bool
}.

Definition USER_ROLE_CHOICES : list string := ["admin"; "patient"; "doctor"].

(** [edit_user] for the admin [request_user]; [is_superuser] is the
    column of that name, [post] the posted data, [None] for a GET request.
    [full_clean] refuses a role that is null or not one of the choices of
    the model.  The redirection is written after the [save] in the [try]
    block: the user is stored whatever becomes of it. *)
Definition edit_user (today : date) (is_superuser : Z -> bool) (db : DB)
    (request_user user_id : Z) (post : option EditData) : DB * response :=
  match get_user_or_404 db user_id with
  | None => (db, Http404)
  | Some user =>
    if is_superuser user_id && negb (is_superuser request_user)
    then (db, Redirect "user_management")
    else
      match post with
      | None => (db, Render "admin/edit_user.html")
      | Some data =>
        match ed_role data with
        | None => (db, Render "admin/edit_user.html")
        | Some r =>
          let edited :=
            {| role := r;
               date_of_birth := date_of_birth user;
               is_active := ed_is_active_on data;
               fields_valid :=
                 ed_other_fields_valid data && str_in r USER_ROLE_CHOICES |} in
          match User_save today user_id db (Some user_id) edited with
          | Some db' => (db', Redirect "view_user")
          | None => (db, Render "admin/edit_user.html")
          end
        end
      end
  end.

(** The licence numbers on record. *)
Fixpoint licences (rows : list DoctorRow) : list string :=
  match rows with
  | [] => []
  | row :: rest =>
      match dr_license_number row with
      | Some l => l :: licences rest
      | None => licences rest
      end
  end.

End Accounts.

Import Accounts.

(** ** forms.py and views.py: announcements, reports and the admin filter *)

Module Announcements.

(** An [Announcement] row, as far as the form and the views below read
    it. *)
Record Announcement : Type := mk_Announcement {
  an_start_date : date;
  an_end_date : option date;
  an_is_active : bool
}.

(** The fields of [AnnouncementForm]: [start_date] is required,
    [end_date] is not; [an_other_fields_valid] is the outcome of title,
    content, priority and target roles. *)
Record AnnouncementData : Type := mk_AnnouncementData {
  ad_start_date : field date;
  ad_end_date : field date;
  ad_is_active : bool;
  ad_other_fields_valid : bool
}.

Definition END_BEFORE_START : string := "End date cannot be before start date".

(** [AnnouncementForm.clean]: the cleaned data and the errors added.  The
    comparison of a date with [None] raises [TypeError]. *)
Definition AnnouncementForm_clean (cleaned_data : AnnouncementData)
  : result (AnnouncementData * list (string * string)) :=
  let start_date := cleaned_get (ad_start_date cleaned_data) in
  let end_date := cleaned_get (ad_end_date cleaned_data) in
  match end_date with
  | Some e =>
    match start_date with
    | Some s =>
        if e <? s
        then Returns ({| ad_start_date := ad_start_date cleaned_data;
                         ad_end_date := Invalid;
                         ad_is_active := ad_is_active cleaned_data;
                         ad_other_fields_valid := ad_other_fields_valid cleaned_data |},
                      [("end_date", END_BEFORE_START)])
        else Returns (cleaned_data, [])
    | None => Raises TypeError
    end
  | None => Returns (cleaned_data, [])
  end.

(** [form.is_valid()]: [clean] runs whatever the fields gave. *)
Definition announcement_is_valid (data : AnnouncementData) : result bool :=
  bind (AnnouncementForm_clean data) (fun r =>
  Returns (ad_other_fields_valid data
           && field_ok true (ad_start_date data)
           && field_ok false (ad_end_date data)
           && match snd r with
              | [] => true
              | _ :: _ => false
              end)).

(** The row [form.save()] writes. *)
Definition announcement_form_save (data : AnnouncementData) : option Announcement :=
  match cleaned_get (ad_start_date data) with
  | Some s => Some {| an_start_date := s;
                      an_end_date := cleaned_get (ad_end_date data);
                      an_is_active := ad_is_active data |}
  | None => None
  end.

Definition AnnouncementTable : Type := list (Z * Announcement).

(** The four views that write announcements.  [post] is the posted data,
    [None] for a GET request; [new_id] is the key the database gives to a
    new row. *)
Definition create_announcements (new_id : Z) (table : AnnouncementTable)
    (post : option AnnouncementData) : result (AnnouncementTable * response) :=
  match post with
  | None => Returns (table, Render "admin/create_announcements.html")
  | Some data =>
    bind (announcement_is_valid data) (fun valid =>
    match valid, announcement_form_save data with
    | true, Some row => Returns (table ++ [(new_id, row)], Redirect "announcements")
    | _, _ => Returns (table, Render "admin/create_announcements.html")
    end)
  end.

Definition edit_announcement (table : AnnouncementTable) (pk : Z)
    (post : option AnnouncementData) : result (AnnouncementTable * response) :=
  match find (fun row => fst row =? pk) table with
  | None => Returns (table, Http404)
  | Some _ =>
    match post with
    | None => Returns (table, Render "admin/edit_announcement.html")
    | Some data =>
      bind (announcement_is_valid data) (fun valid =>
      match valid, announcement_form_save data with
      | true, Some row =>
          Returns (map (fun r => if fst r =? pk then (pk, row) else r) table,
                   Redirect "announcements")
      | _, _ => Returns (table, Render "admin/edit_announcement.html")
      end)
    end
  end.

Definition toggle_announcement (table : AnnouncementTable) (pk : Z) (is_post : bool)
  : result (AnnouncementTable * response) :=
  match find (fun row => fst row =? pk) table with
  | None => Returns (table, Http404)
  | Some (_, announcement) =>
    if is_post
    then Returns (map (fun r =>
                         if fst r =? pk
                         then (pk, {| an_start_date := an_start_date announcement;
                                      an_end_date := an_end_date announcement;
                                      an_is_active := negb (an_is_active announcement) |})
                         else r) table,
                  Redirect "announcements")
    else Returns (table, Redirect "announcements")
  end.

Definition delete_announcement (table : AnnouncementTable) (pk : Z) (is_post : bool)
  : result (AnnouncementTable * response) :=
  match find (fun row => fst row =? pk) table with
  | None => Returns (table, Http404)
  | Some _ =>
    if is_post
    then Returns (filter (fun r => negb (fst r =? pk)) table, Redirect "announcements")
    else Returns (table, Redirect "announcements")
  end.

(** A request to one of the four views. *)
Inductive request : Type :=
| Create (new_id : Z) (post : option AnnouncementData)
| Edit (pk : Z) (post : option AnnouncementData)
| Toggle (pk : Z) (is_post : bool)
| Delete (pk : Z) (is_post : bool).

Definition handle (table : AnnouncementTable) (r : request) : result (AnnouncementTable * response) :=
  match r with
  | Create new_id post => create_announcements new_id table post
  | Edit pk post => edit_announcement table pk post
  | Toggle pk is_post => toggle_announcement table pk is_post
  | Delete pk is_post => delete_announcement table pk is_post
  end.

(** The table after a sequence of requests; a request whose view raises
    stores nothing. *)
Fixpoint serve (table : AnnouncementTable) (requests : list request) : AnnouncementTable :=
  match requests with
  | [] => table
  | r :: rest =>
      match handle table r with
      | Returns (table', _) => serve table' rest
      | Raises _ => serve table rest
      end
  end.

(** An announcement does not end before it starts. *)
Definition dates_ordered (a : Announcement) : bool :=
  match an_end_date a with
  | Some e => an_start_date a <=? e
  | None => true
  end.

End Announcements.

Import Announcements.

Module Reports.

(** The values of the cleaned data of [SystemReportForm]. *)
Inductive value : Type :=
| VNone
| VInt (n : Z)
| VStr (s : string)
| VDate (d : date)
| VObject (pk : Z).

(** [cleaned_data], a dict from field names to values, in insertion
    order. *)
Definition dict : Type := list (string * value).

(** [d.get(key)] and [d[key]]; [None] of the second is [KeyError]. *)
Definition dict_subscript (d : dict) (key : string) : option value :=
  option_map snd (find (fun kv => (fst kv =? key)%string) d).

Definition dict_get (d : dict) (key : string) : value :=
  match dict_subscript d key with
  | Some v => v
  | None => VNone
  end.

Definition value_truthy (v : value) : bool :=
  match v with
  | VNone => false
  | VInt n => negb (n =? 0)
  | VStr s => negb (s =? "")%string
  | VDate _ | VObject _ => true
  end.

(** [v == s] for a string [s]. *)
Definition value_eq_str (v : value) (s : string) : bool :=
  match v with
  | VStr s' => (s' =? s)%string
  | _ => false
  end.

(** [a > b]: defined on two numbers, two dates and two strings. *)
Definition value_gt (a b : value) : result bool :=
  match a, b with
  | VInt x, VInt y => Returns (y <? x)
  | VDate x, VDate y => Returns (y <? x)
  | VStr x, VStr y => Returns (String.ltb y x)
  | _, _ => Raises TypeError
  end.

(** [a == b]. *)
Definition value_eqb (a b : value) : bool :=
  match a, b with
  | VNone, VNone => true
  | VInt x, VInt y => x =? y
  | VStr x, VStr y => (x =? y)%string
  | VDate x, VDate y => x =? y
  | VObject x, VObject y => x =? y
  | _, _ => false
  end.

Definition REPORT_TYPES : list string :=
  ["users"; "appointments"; "prescriptions"; "financial"].
Definition FORMAT_CHOICES : list string := ["csv"; "pdf"; "excel"].

(** What was posted: the two choices as sent, the optional fields as
    cleaned. *)
Record ReportPost : Type := mk_ReportPost {
  post_Report_type : string;
  post_format : string;
  post_start_date : field date;
  post_end_date : field date;
  post_doctor : field Z;
  post_save_report : bool
}.

(** A required choice field. *)
Definition choice_field (choices : list string) (raw : string)
  : field string :=
  if (raw =? "")%string then Empty
  else if str_in raw choices then Value raw else Invalid.

(** The entry of one field in the cleaned data: none for a field error. *)
Definition entry {A : Type} (name : string) (inject : A -> value)
    (f : field A) : dict :=
  match f with
  | Value a => [(name, inject a)]
  | Empty => [(name, VNone)]
  | Invalid => []
  end.

(** The cleaned data after the fields, in the order of the form.  A
    required field that is empty is a field error as well. *)
Definition fields_clean (post : ReportPost) : dict :=
  match choice_field REPORT_TYPES (post_Report_type post) with
  | Value r => [("Report_type", VStr r)]
  | Empty | Invalid => []
  end
  ++ match choice_field FORMAT_CHOICES (post_format post) with
     | Value f => [("format", VStr f)]
     | Empty | Invalid => []
     end
  ++ entry "start_date" VDate (post_start_date post)
  ++ entry "end_date" VDate (post_end_date post)
  ++ entry "doctor" VObject (post_doctor post).

Definition report_fields_valid (post : ReportPost) : bool :=
  field_ok true (choice_field REPORT_TYPES (post_Report_type post))
  && field_ok true (choice_field FORMAT_CHOICES (post_format post))
  && field_ok false (post_start_date post)
  && field_ok false (post_end_date post)
  && field_ok false (post_doctor post).

(** The date range that [SystemReportForm.clean] refuses: both dates
    given, the start after the end. *)
Definition range_in_order (post : ReportPost) : bool :=
  match cleaned_get (post_start_date post), cleaned_get (post_end_date post) with
  | Some s, Some e => s <=? e
  | _, _ => true
  end.

Definition DATE_RANGE_REQUIRED : string :=
  "Date range is required for appointment reports".
Definition START_AFTER_END : string := "Start date cannot be after end date".

(** [SystemReportForm.clean]. *)
Definition SystemReportForm_clean (cleaned_data : dict) : result dict :=
  let report_type := dict_get cleaned_data "report_type" in
  let start_date := dict_get cleaned_data "start_date" in
  let end_date := dict_get cleaned_data "end_date" in
  if value_eq_str report_type "appointment"
     && (negb (value_truthy start_date) || negb (value_truthy end_date))
  then Raises (ValidationError DATE_RANGE_REQUIRED)
  else if value_truthy start_date && value_truthy end_date
  then bind (value_gt start_date end_date) (fun after =>
       if after then Raises (ValidationError START_AFTER_END)
       else Returns cleaned_data)
  else Returns cleaned_data.

(** [form.is_valid()]; a [ValidationError] of [clean] is a form error,
    another exception goes through. *)
Definition report_is_valid (post : ReportPost) : result bool :=
  match SystemReportForm_clean (fields_clean post) with
  | Returns _ => Returns (report_fields_valid post)
  | Raises (ValidationError _) => Returns false
  | Raises e => Raises e
  end.

Definition GENERATE_TEMPLATE : string := "admin/generate_report.html".

Section GenerateReport.

(** The answers of [ReportGenerator], and the [try] block of
    [generate_report] after its first statement: from the report type and
    the cleaned data to the messages and the answer, or to the text of the
    exception raised. *)
Variable download : Type.
Variable rest_of_try :
  value -> dict -> (list string * (response + download)) + string.

(** [generate_report]: the messages left and the answer.  [post] is the
    posted data, [None] for a GET request. *)
Definition generate_report (post : option ReportPost)
  : result (list string * (response + download)) :=
  match post with
  | None => Returns ([], inl (Render GENERATE_TEMPLATE))
  | Some data =>
    bind (report_is_valid data) (fun valid =>
    if valid then
      match
        match dict_subscript (fields_clean data) "report_type" with
        | None => inr "'report_type'"
        | Some report_type => rest_of_try report_type (fields_clean data)
        end
      with
      | inl answer => Returns answer
      | inr text =>
          Returns ([String.append "Error generating report: " text],
                   inl (Render GENERATE_TEMPLATE))
      end
    else Returns ([], inl (Render GENERATE_TEMPLATE)))
  end.

End GenerateReport.

End Reports.

Import Reports.

Module AdminAppointments.







End AdminAppointments.

Import AdminAppointments.

(** ** views.py: the medical records *)

Module Records.

(** A [MedicalRecord] row; [mr_uploaded_at] is the day of the upload. *)
Record MedicalRecord : Type := mk_MedicalRecord {
  mr_patient : Z;
  mr_file : string;
  mr_record_type : string;
  mr_uploaded_at : date;
  mr_notes : string
}.

(** An object as the attributes it has; [getattr] gives [None] for the
    [AttributeError] of a name that is not among them. *)
Definition object : Type := list (string * value).

Definition getattr (o : object) (name : string) : option value :=
  dict_subscript o name.

(** The attributes of a record: the columns of the model and the two
    names of the primary key. *)
Definition record_object (id : Z) (r : MedicalRecord) : object :=
  [("id", VInt id); ("pk", VInt id);
   ("patient", VObject (mr_patient r)); ("patient_id", VInt (mr_patient r));
   ("file", VStr (mr_file r)); ("record_type", VStr (mr_record_type r));
   ("uploaded_at", VDate (mr_uploaded_at r)); ("notes", VStr (mr_notes r))].

(** The user of a request: the primary key, the role, and the profiles
    that exist.  Of the attributes of a user, those the views read; the
    profiles go by the [related_name] of their one-to-one field, and the
    accessor of a profile that has no row raises. *)
Record RequestUser : Type := mk_RequestUser {
  ru_id : Z;
  ru_role : string;
  ru_admin_profile : option Z;
  ru_doctor_profile : option Z;
  ru_patient_profile : option Z
}.

Definition related (name : string) (profile : option Z) : object :=
  match profile with
  | Some pk => [(name, VObject pk)]
  | None => []
  end.

Definition user_object (u : RequestUser) : object :=
  [("id", VInt (ru_id u)); ("pk", VInt (ru_id u)); ("role", VStr (ru_role u))]
  ++ related "admin_profile" (ru_admin_profile u)
  ++ related "doctor_profile" (ru_doctor_profile u)
  ++ related "patient_profile" (ru_patient_profile u).

(** What a view gives: an answer, or the [AttributeError] that goes
    through it. *)
Inductive outcome : Type :=
| Answer (r : response)
| AttributeError (name : string).

(** The instance built by [MedicalRecordForm] and whether the form is
    valid. *)
Record MedicalRecordData : Type := mk_MedicalRecordData {
  md_file : string;
  md_record_type : string;
  md_notes : string;
  md_valid : bool
}.

Definition RecordTable : Type := list (Z * MedicalRecord).

Definition form_record (today : date) (patient : Z) (data : MedicalRecordData)
  : MedicalRecord :=
  {| mr_patient := patient;
     mr_file := md_file data;
     mr_record_type := md_record_type data;
     mr_uploaded_at := today;
     mr_notes := md_notes data |}.

(** [upload_medical_record], for a patient. *)
Definition upload_medical_record (today : date) (new_id : Z)
    (records : RecordTable) (user : RequestUser)
    (post : option MedicalRecordData) : RecordTable * outcome :=
  match post with
  | None => (records, Answer (Render "upload_medical_record.html"))
  | Some data =>
    if md_valid data then
      match getattr (user_object user) "patient_profile" with
      | Some (VObject patient) =>
          (records ++ [(new_id, form_record today patient data)],
           Answer (Redirect "patient_dashboard"))
      | _ => (records, AttributeError "patient_profile")
      end
    else (records, Answer (Render "upload_medical_record.html"))
  end.

Definition RECORD_TEMPLATE : string := "doctor/doctor_patient_record.html".

(** [add_medical_record], for a doctor; [patients] are the primary keys
    of the patient profiles.  The attribute read in the [try] block is
    [doctorprofile]; an exception there gives the page again. *)
Definition add_medical_record (today : date) (new_id : Z) (patients : list Z)
    (records : RecordTable) (user : RequestUser) (patient_id : Z)
    (post : option MedicalRecordData) : RecordTable * outcome :=
  if existsb (Z.eqb patient_id) patients then
    match post with
    | None => (records, Answer (Render RECORD_TEMPLATE))
    | Some data =>
      if md_valid data then
        match getattr (user_object user) "doctorprofile" with
        | Some _ =>
            (records ++ [(new_id, form_record today patient_id data)],
             Answer (Redirect "doctor_patient_record"))
        | None => (records, Answer (Render RECORD_TEMPLATE))
        end
      else (records, Answer (Render RECORD_TEMPLATE))
    end
  else (records, Answer Http404).

(** [delete_medical_record], for a doctor. *)
Definition delete_medical_record (records : RecordTable) (user : RequestUser)
    (record_id : Z) (is_post : bool) : RecordTable * outcome :=
  match find (fun row => fst row =? record_id) records with
  | None => (records, Answer Http404)
  | Some (id, record) =>
    match getattr (record_object id record) "doctor" with
    | None => (records, AttributeError "doctor")
    | Some doctor =>
      match getattr (user_object user) "doctorprofile" with
      | None => (records, AttributeError "doctorprofile")
      | Some profile =>
        if negb (value_eqb doctor profile)
        then (records, Answer (Redirect "doctor_patient_record"))
        else if is_post
        then (filter (fun row => negb (fst row =? record_id)) records,
              Answer (Redirect "doctor_patient_record"))
        else (records, Answer (Redirect "doctor_patient_record"))
      end
    end
  end.

End Records.

Import Records.

(** ** views.py: [format_timespan] *)

Module Timespan.

(** [str(n)] for an [int]. *)
Definition str_int (n : Z) : string := NilZero.string_of_int (Z.to_int n).

Definition intervals : list (string * Z) :=
  [("weeks", 604800); ("days", 86400); ("hours", 3600); ("minutes", 60);
   ("seconds", 1)].

(** The [for] loop of [format_timespan] on an integer number of seconds. *)
Fixpoint timespan_loop (todo : list (string * Z)) (seconds : Z)
    (result : list string) : list string :=
  match todo with
  | [] => result
  | (name, count) :: rest =>
      let value := seconds / count in
      if value =? 0 then timespan_loop rest seconds result
      else timespan_loop rest (seconds - value * count)
             (result ++ [String.append (str_int value) (String.append " " name)])
  end.

Definition format_timespan (seconds : Z) : string :=
  match timespan_loop intervals seconds [] with
  | [] => "0 seconds"
  | result => String.concat ", " (firstn 2 result)
  end.

(** The text of the units [parts], those at 0 left out, as
    [format_timespan] writes it. *)
Definition two_largest (parts : list (Z * string)) : string :=
  match filter (fun p => negb (fst p =? 0)) parts with
  | [] => "0 seconds"
  | shown =>
      String.concat ", "
        (map (fun p => String.append (str_int (fst p)) (String.append " " (snd p)))
           (firstn 2 shown))
  end.

End Timespan.

Import Timespan.

(** ** models.py: [validate_file_extension] *)

Module Files.

(** A file name as the list of its characters. *)
Definition name_of (s : string) : list ascii := list_ascii_of_string s.

(** [p.rfind(c)]: the highest index of [c] in [p], [-1] when there is
    none. *)
Fixpoint rfind_from (c : ascii) (p : list ascii) (i last : Z) : Z :=
  match p with
  | [] => last
  | a :: rest => rfind_from c rest (i + 1) (if Ascii.eqb a c then i else last)
  end.

Definition rfind (p : list ascii) (c : ascii) : Z := rfind_from c p 0 (-1).

(** The slices [p[:n]], [p[n:]] and [p[n:n+1]] for [0 <= n]. *)
Definition slice_to (p : list ascii) (n : Z) : list ascii :=
  firstn (Z.to_nat n) p.
Definition slice_from (p : list ascii) (n : Z) : list ascii :=
  skipn (Z.to_nat n) p.
Definition slice_one (p : list ascii) (n : Z) : list ascii :=
  firstn 1 (skipn (Z.to_nat n) p).

Definition is_dot (s : list ascii) : bool :=
  match s with
  | [c] => Ascii.eqb c "."
  | _ => false
  end.

(** The [while] loop of [genericpath._splitext], which skips the leading
    dots of the file name: [true] when it returns the split, [false] when
    it runs to [dotIndex]; [n] is [dotIndex - filenameIndex]. *)
Fixpoint skip_leading_dots (n : nat) (p : list ascii) (filenameIndex : Z) : bool :=
  match n with
  | O => false
  | S n' =>
      if negb (is_dot (slice_one p filenameIndex)) then true
      else skip_leading_dots n' p (filenameIndex + 1)
  end.

(** [os.path.splitext] of [posixpath]. *)
Definition splitext (p : list ascii) : list ascii * list ascii :=
  let sepIndex := rfind p "/" in
  let dotIndex := rfind p "." in
  if (sepIndex <? dotIndex)
     && skip_leading_dots (Z.to_nat (dotIndex - (sepIndex + 1))) p (sepIndex + 1)
  then (slice_to p dotIndex, slice_from p dotIndex)
  else (p, []).

(** [str.lower] on the letters A to Z; the other characters of an
    extension that is accepted are not changed by it. *)
Definition lower_char (a : ascii) : ascii :=
  let n := N_of_ascii a in
  if ((65 <=? n) && (n <=? 90))%N then ascii_of_N (n + 32) else a.

Definition lower (s : list ascii) : list ascii := map lower_char s.

Definition valid_extensions : list (list ascii) :=
  [name_of ".jpg"; name_of ".jpeg"; name_of ".png"].

Definition chars_eqb (s t : list ascii) : bool :=
  if list_eq_dec ascii_dec s t then true else false.

Definition UNSUPPORTED_EXTENSION : string :=
  "Unsupported file extension. Only JPG, JPEG, PNG allowed.".

(** [validate_file_extension] on the name of the file. *)
Definition validate_file_extension (name : list ascii) : result unit :=
  let ext := snd (splitext name) in
  if negb (existsb (chars_eqb (lower ext)) valid_extensions)
  then Raises (ValidationError UNSUPPORTED_EXTENSION)
  else Returns tt.

(** A path whose last component has a character that is not a dot. *)
Definition names_a_file (root : list ascii) : Prop :=
  exists a c b,
    root = a ++ c :: b /\ c <> "."%char /\ c <> "/"%char /\ ~ In "/"%char b.

End Files.

Import Files.

(** ** Sample accounts used by the examples *)

Module SampleAccounts.

(** An admin with a profile, an active patient, a user with the admin role
    and no admin profile, and a doctor. *)
Definition accounts : DB :=
  {| users := [(1, mk_User "admin" None true true);
               (2, mk_User "patient" (Some (Sample.june 1)) true true);
               (3, mk_User "admin" None true true);
               (4, mk_User "doctor" None true true)];
     admin_profiles := [(1, "ROOT-1")];
     doctor_profiles := [mk_DoctorRow 4 "Cardiology" "Lahore" (Some "PMC-1001")];
     patient_profiles := [mk_PatientRow 2 "A+" "+923001234567"] |}.

(** The data posted to add a doctor. *)
Definition new_doctor (license_number : string) : AddUserData :=
  {| raw_role := "doctor";
     cd_date_of_birth := None;
     cd_admin_code := Some "";
     cd_specialization := Some "Neurology";
     cd_license_number := Some license_number;
     cd_blood_group := Some "";
     other_fields_valid := true;
     instance_valid := true |}.


End SampleAccounts.

(** ** Dates, parsing and formatting on sample values *)

Example ymd_2025_06_10 : ymd 2025 6 10 = 739412 /\ weekday (ymd 2025 6 10) = 1.
Proof. split; reflexivity. Qed.

Example ymd_last_day : ymd 9999 12 31 = MAXORDINAL.
Proof. reflexivity. Qed.

Example strptime_ok : strptime_HMS "09:00:00" = Returns (mk_time 9 0 0 0).
Proof. reflexivity. Qed.

Example strptime_single_digits : strptime_HMS "9:5:7" = Returns (mk_time 9 5 7 0).
Proof. reflexivity. Qed.

Example strptime_bad : strptime_HMS "not-a-time" = Raises ValueError.
Proof. reflexivity. Qed.

Example strptime_hour_24 : strptime_HMS "24:00:00" = Raises ValueError.
Proof. reflexivity. Qed.

Example strptime_trailing : strptime_HMS "09:00:000" = Raises ValueError.
Proof. reflexivity. Qed.

Example strftime_ok : strftime_HM (combine 739412 (mk_time 9 30 0 0)) = "09:30".
Proof. reflexivity. Qed.

(** ** Times of day as microsecond counts *)

Lemma time_eqb_eq (a b : time) : time_eqb a b = true <-> a = b.
Proof.
  unfold time_eqb. destruct a as [h1 m1 s1 u1], b as [h2 m2 s2 u2]; simpl.
  rewrite !andb_true_iff, !Z.eqb_eq. split.
  - intros [[[-> ->] ->] ->]. reflexivity.
  - intros H. injection H as -> -> -> ->. auto.
Qed.

Lemma time_eqb_refl (a : time) : time_eqb a a = true.
Proof. apply time_eqb_eq. reflexivity. Qed.

Lemma time_us_range (t : time) : time_wf t -> 0 <= time_us t < US_PER_DAY.
Proof.
  unfold time_wf, time_us, US_PER_DAY, US_PER_SECOND. lia.
Qed.

Lemma time_of_us_wf (u : Z) : 0 <= u < US_PER_DAY -> time_wf (time_of_us u).
Proof.
  unfold time_wf, time_of_us, US_PER_DAY, US_PER_SECOND; simpl. intros H.
  Z.div_mod_to_equations. lia.
Qed.

Lemma time_us_of_us (u : Z) : 0 <= u < US_PER_DAY -> time_us (time_of_us u) = u.
Proof.
  unfold time_us, time_of_us, US_PER_DAY, US_PER_SECOND; simpl. intros H.
  set (s := u / 1000000).
  pose proof (Z.div_mod u 1000000 ltac:(lia)) as Hu.
  pose proof (Z.div_mod s 3600 ltac:(lia)) as Hs.
  pose proof (Z.div_mod (s mod 3600) 60 ltac:(lia)) as Hr.
  fold s in Hu. lia.
Qed.

Lemma time_of_us_us (t : time) : time_wf t -> time_of_us (time_us t) = t.
Proof.
  destruct t as [h m s u]. unfold time_wf, time_of_us, time_us, US_PER_SECOND; simpl.
  intros (Hh & Hm & Hs & Hu).
  assert (E1 : (((h * 60 + m) * 60 + s) * 1000000 + u) / 1000000 = (h * 60 + m) * 60 + s).
  { symmetry. apply (Z.div_unique _ _ _ u); lia. }
  assert (E2 : (((h * 60 + m) * 60 + s) * 1000000 + u) mod 1000000 = u).
  { symmetry. apply (Z.mod_unique _ _ ((h * 60 + m) * 60 + s) u); lia. }
  assert (E3 : ((h * 60 + m) * 60 + s) / 3600 = h).
  { symmetry. apply (Z.div_unique _ _ _ (m * 60 + s)); lia. }
  assert (E4 : ((h * 60 + m) * 60 + s) mod 3600 = m * 60 + s).
  { symmetry. apply (Z.mod_unique _ _ h (m * 60 + s)); lia. }
  assert (E5 : (m * 60 + s) / 60 = m).
  { symmetry. apply (Z.div_unique _ _ _ s); lia. }
  assert (E6 : (m * 60 + s) mod 60 = s).
  { symmetry. apply (Z.mod_unique _ _ m s); lia. }
  rewrite E1, E2, E3, E4, E5, E6. reflexivity.
Qed.

Lemma time_ltb_us (a b : time) :
  time_wf a -> time_wf b -> time_ltb a b = (time_us a <? time_us b).
Proof.
  destruct a as [h1 m1 s1 u1], b as [h2 m2 s2 u2].
  unfold time_wf, time_ltb, time_us, US_PER_SECOND; simpl.
  intros (Hh1 & Hm1 & Hs1 & Hu1) (Hh2 & Hm2 & Hs2 & Hu2).
  destruct (Z.eqb_spec h1 h2) as [->|Hh];
    [destruct (Z.eqb_spec m1 m2) as [->|Hm];
      [destruct (Z.eqb_spec s1 s2) as [->|Hs]|]|];
    match goal with
    | |- (?x <? ?y) = (?p <? ?q) =>
        destruct (Z.ltb_spec x y), (Z.ltb_spec p q); try reflexivity; lia
    end.
Qed.

(** ** Booking validation ([AppointmentBookingForm.clean]) *)

Section Booking.

Variable today : date.
Variable objects : list Appointment.

Lemma slot_exists_iff (doctor_id : Z) (d : date) (t : time) :
  slot_exists objects doctor_id d t = true <->
  exists a, In a objects /\ doctor a = doctor_id /\ date_ a = d /\ time_ a = t.
Proof.
  unfold slot_exists. rewrite existsb_exists. split.
  - intros (a & Hin & H). exists a.
    rewrite !andb_true_iff, !Z.eqb_eq, time_eqb_eq in H. tauto.
  - intros (a & Hin & H1 & H2 & H3). exists a. split; [assumption|].
    rewrite !andb_true_iff, !Z.eqb_eq, time_eqb_eq. tauto.
Qed.

Lemma clean_past (cleaned : BookingData) (d : date) :
  cd_date cleaned = Some d -> d < today ->
  clean today objects cleaned = Raises (ValidationError PAST_DATE_MESSAGE).
Proof.
  intros Hd Hlt. unfold clean. rewrite Hd.
  destruct (Z.ltb_spec d today); [reflexivity | lia].
Qed.

Lemma clean_not_past (cleaned : BookingData) (doctor_id : Z) (d : date) (t : time) :
  cd_doctor cleaned = Some doctor_id -> cd_date cleaned = Some d ->
  cd_time cleaned = Some t -> today <= d ->
  clean today objects cleaned =
  if slot_exists objects doctor_id d t
  then Raises (ValidationError SLOT_BOOKED_MESSAGE) else Returns cleaned.
Proof.
  intros Hdoc Hd Ht Hle. unfold clean. rewrite Hdoc, Hd, Ht.
  destruct (Z.ltb_spec d today); [lia | reflexivity].
Qed.

End Booking.

(** C1, as the code has it: with doctor, date and time present, a date
    before today's is refused as a past date whatever the stored
    appointments; otherwise the request is refused as already booked when a
    stored appointment of any status, cancelled ones included, has the same
    (doctor, date, time); otherwise the cleaned data is returned. *)
Theorem clean_checks_in_order (today : date) (objects : list Appointment)
    (cleaned : BookingData) (doctor_id : Z) (d : date) (t : time) :
  cd_doctor cleaned = Some doctor_id ->
  cd_date cleaned = Some d ->
  cd_time cleaned = Some t ->
  (d < today ->
   clean today objects cleaned = Raises (ValidationError PAST_DATE_MESSAGE)) /\
  (today <= d ->
   (exists a, In a objects /\ doctor a = doctor_id /\ date_ a = d /\ time_ a = t) ->
   clean today objects cleaned = Raises (ValidationError SLOT_BOOKED_MESSAGE)) /\
  (today <= d ->
   (forall a, In a objects ->
              ~ (doctor a = doctor_id /\ date_ a = d /\ time_ a = t)) ->
   clean today objects cleaned = Returns cleaned).
Proof.
  intros Hdoc Hd Ht. repeat split.
  - intros Hlt. eapply clean_past; eassumption.
  - intros Hle Hex.
    rewrite (clean_not_past today objects cleaned doctor_id d t) by assumption.
    apply slot_exists_iff in Hex. rewrite Hex. reflexivity.
  - intros Hle Hfree.
    rewrite (clean_not_past today objects cleaned doctor_id d t) by assumption.
    destruct (slot_exists objects doctor_id d t) eqn:E; [|reflexivity].
    apply slot_exists_iff in E. destruct E as (a & Hin & H).
    exfalso. exact (Hfree a Hin H).
Qed.

(** The three cases of [clean_checks_in_order] on 10 June 2025: a request
    for the day before, a request for a slot held by a confirmed
    appointment, and a request for a free slot. *)
Lemma clean_checks_in_order_witness :
  let objects := [Sample.appointment (Sample.june 12) (Sample.at_ 10 0) "confirmed"] in
  clean (Sample.june 10) objects (Sample.request (Sample.june 9) (Sample.at_ 10 0))
    = Raises (ValidationError PAST_DATE_MESSAGE) /\
  clean (Sample.june 10) objects (Sample.request (Sample.june 12) (Sample.at_ 10 0))
    = Raises (ValidationError SLOT_BOOKED_MESSAGE) /\
  clean (Sample.june 10) objects (Sample.request (Sample.june 12) (Sample.at_ 11 0))
    = Returns (Sample.request (Sample.june 12) (Sample.at_ 11 0)).
Proof.
  intros objects. split; [|split].
  - apply (proj1 (clean_checks_in_order (Sample.june 10) objects
             (Sample.request (Sample.june 9) (Sample.at_ 10 0))
             1 (Sample.june 9) (Sample.at_ 10 0) eq_refl eq_refl eq_refl)).
    vm_compute. reflexivity.
  - apply (proj1 (proj2 (clean_checks_in_order (Sample.june 10) objects
             (Sample.request (Sample.june 12) (Sample.at_ 10 0))
             1 (Sample.june 12) (Sample.at_ 10 0) eq_refl eq_refl eq_refl))).
    + vm_compute. discriminate.
    + exists (Sample.appointment (Sample.june 12) (Sample.at_ 10 0) "confirmed").
      repeat split. left. reflexivity.
  - apply (proj2 (proj2 (clean_checks_in_order (Sample.june 10) objects
             (Sample.request (Sample.june 12) (Sample.at_ 11 0))
             1 (Sample.june 12) (Sample.at_ 11 0) eq_refl eq_refl eq_refl))).
    + vm_compute. discriminate.
    + intros a [<-|[]] (_ & _ & H). discriminate H.
Defined.

(** C1, counterexample: on 10 June 2025 the only stored appointment of
    doctor 1 on 12 June at 10:00 is cancelled, so no non-cancelled
    appointment holds the slot and the date is not past; the request is
    refused as already booked all the same. *)
Lemma clean_rejects_cancelled_slot :
  let objects := [Sample.appointment (Sample.june 12) (Sample.at_ 10 0) "cancelled"] in
  (Sample.june 12 <? Sample.june 10) = false /\
  occupied_non_cancelled objects 1 (Sample.june 12) (Sample.at_ 10 0) = false /\
  clean (Sample.june 10) objects (Sample.request (Sample.june 12) (Sample.at_ 10 0))
    = Raises (ValidationError SLOT_BOOKED_MESSAGE).
Proof. repeat split. Qed.





(** ** Status update ([AppointmentStatusForm], [appointment_update_status]) *)

Lemma clean_status_choice (value : string) :
  In value (map fst STATUS_CHOICES) -> clean_status value = Returns value.
Proof.
  simpl. intros [<-|[<-|[<-|[<-|[]]]]]; reflexivity.
Qed.


Lemma appointment_update_status_choice (appointment : Appointment)
    (requested : string) (e : option time) :
  In requested (map fst STATUS_CHOICES) ->
  appointment_update_status appointment
    {| sd_status := requested; sd_end_time := e |}
  = Returns (status_form_save appointment
               {| sd_status := requested; sd_end_time := e |}).
Proof.
  intros Hin. unfold appointment_update_status, status_form_clean. simpl.
  rewrite (clean_status_choice requested Hin). reflexivity.
Qed.




(** An update that sets an end time is accepted for every end time: the
    posted value is stored, the start time is left as it was, and the two
    are not compared. *)
Lemma status_update_stores_any_end_time (appointment : Appointment)
    (requested : string) (e : time) :
  In requested (map fst STATUS_CHOICES) ->
  exists saved,
    appointment_update_status appointment
      {| sd_status := requested; sd_end_time := Some e |} = Returns saved /\
    end_time saved = Some e /\ time_ saved = time_ appointment.
Proof.
  intros Hin. eexists. split; [|split].
  - apply appointment_update_status_choice. exact Hin.
  - reflexivity.
  - reflexivity.
Qed.

(** C9, at the failing input: a 10:00 appointment of 12 June 2025 is
    completed with an end time of 09:00.  The update is accepted and the
    saved appointment ends before it starts; [Appointment.clean] of
    moldels2.py, which the form does not run, refuses that appointment. *)
Theorem end_time_before_start_accepted :
  let saved :=
    status_form_save
      (Sample.appointment (Sample.june 12) (Sample.at_ 10 0) "confirmed")
      {| sd_status := "completed"; sd_end_time := Some (Sample.at_ 9 0) |} in
  appointment_update_status
    (Sample.appointment (Sample.june 12) (Sample.at_ 10 0) "confirmed")
    {| sd_status := "completed"; sd_end_time := Some (Sample.at_ 9 0) |}
  = Returns saved /\
  time_ saved = Sample.at_ 10 0 /\
  end_time saved = Some (Sample.at_ 9 0) /\
  time_ltb (Sample.at_ 10 0) (Sample.at_ 9 0) = false /\
  Moldels2.clean (Sample.june 10) saved
  = Raises (ValidationError Moldels2.END_TIME_MESSAGE).
Proof. repeat split. Qed.

(** ** Bookable start times ([get_available_time_slots]) *)

Lemma strftime_HM_format (dt : datetime) : strftime_HM dt = format_HM (dt_time dt).
Proof. reflexivity. Qed.

Lemma slots_loop_exit (fuel : nat) (end_time : time) (d : Z)
    (booked : list string) (current : datetime) (slots : list string) :
  time_ltb (dt_time current) end_time = false ->
  slots_loop (S fuel) end_time d booked current slots = Some (Returns slots).
Proof. intros H. simpl. rewrite H. reflexivity. Qed.

(** More fuel does not change an outcome. *)
Lemma slots_loop_more_fuel (end_time : time) (d : Z) (booked : list string)
    (fuel fuel' : nat) (current : datetime) (slots : list string)
    (r : result (list string)) :
  (fuel <= fuel')%nat ->
  slots_loop fuel end_time d booked current slots = Some r ->
  slots_loop fuel' end_time d booked current slots = Some r.
Proof.
  revert fuel' current slots.
  induction fuel as [|fuel IH]; intros fuel' current slots Hle H; [discriminate|].
  destruct fuel' as [|fuel']; [lia|].
  simpl in *. destruct (time_ltb (dt_time current) end_time); [|assumption].
  destruct (bind (timedelta_minutes d) (datetime_add current)); [|assumption].
  apply IH; [lia | assumption].
Qed.

(** The only exception the loop raises is [OverflowError]. *)
Lemma slots_loop_raises (end_time : time) (d : Z) (booked : list string)
    (fuel : nat) (current : datetime) (slots : list string) (e : exn) :
  slots_loop fuel end_time d booked current slots = Some (Raises e) ->
  e = OverflowError.
Proof.
  revert current slots.
  induction fuel as [|fuel IH]; intros current slots H; [discriminate|].
  simpl in H. destruct (time_ltb (dt_time current) end_time); [|discriminate].
  destruct (bind (timedelta_minutes d) (datetime_add current)) as [next|e'] eqn:E.
  - eapply IH. eassumption.
  - injection H as <-. unfold bind, timedelta_minutes, datetime_add in E.
    repeat match type of E with
           | context [if ?b then _ else _] => destruct b
           end; congruence.
Qed.

(** A datetime sum that is returned is the exact sum, and lies before the
    end of the last day. *)
Lemma datetime_add_us (dt next : datetime) (delta : timedelta) :
  datetime_add dt delta = Returns next ->
  datetime_us next = datetime_us dt + delta /\
  datetime_us next < (MAXORDINAL + 1) * US_PER_DAY /\
  dt_time next = time_of_us ((datetime_us dt + delta) mod US_PER_DAY).
Proof.
  unfold datetime_add.
  set (total := datetime_us dt + delta).
  destruct ((0 <? total / US_PER_DAY) && (total / US_PER_DAY <=? MAXORDINAL)) eqn:E;
    [|discriminate].
  intros H. injection H as <-.
  apply andb_true_iff in E. destruct E as [E1 E2].
  apply Z.ltb_lt in E1. apply Z.leb_le in E2.
  assert (HD : 0 < US_PER_DAY) by (unfold US_PER_DAY, US_PER_SECOND; lia).
  pose proof (Z.mod_pos_bound total US_PER_DAY HD) as Hm.
  pose proof (Z.div_mod total US_PER_DAY ltac:(lia)) as Hdm.
  unfold datetime_us at 1 2. simpl.
  rewrite (time_us_of_us _ Hm).
  unfold US_PER_DAY, US_PER_SECOND, MAXORDINAL in *.
  split; [lia | split; [lia | reflexivity]].
Qed.

(** Within a day, adding to a datetime adds to its time of day. *)
Lemma datetime_add_same_day (day : date) (t : time) (delta : Z) :
  date_valid day -> 0 <= time_us t + delta < US_PER_DAY ->
  datetime_add (combine day t) delta
  = Returns (combine day (time_of_us (time_us t + delta))).
Proof.
  unfold date_valid, datetime_add, datetime_us, combine. simpl. intros Hday Hr.
  assert (HD : 0 < US_PER_DAY) by (unfold US_PER_DAY, US_PER_SECOND; lia).
  assert (E1 : (day * US_PER_DAY + time_us t + delta) / US_PER_DAY = day).
  { symmetry. apply (Z.div_unique _ _ _ (time_us t + delta)); lia. }
  assert (E2 : (day * US_PER_DAY + time_us t + delta) mod US_PER_DAY
               = time_us t + delta).
  { symmetry. apply (Z.mod_unique _ _ day (time_us t + delta)); lia. }
  rewrite E1, E2.
  destruct (Z.ltb_spec 0 day); [|lia].
  destruct (Z.leb_spec day MAXORDINAL); [|lia].
  reflexivity.
Qed.

Lemma timedelta_minutes_small (d : Z) :
  0 <= d * US_PER_MINUTE <= US_PER_DAY ->
  timedelta_minutes d = Returns (d * US_PER_MINUTE).
Proof.
  unfold timedelta_minutes. intros H.
  assert (HD : 0 < US_PER_DAY) by (unfold US_PER_DAY, US_PER_SECOND; lia).
  assert (Hq : 0 <= d * US_PER_MINUTE / US_PER_DAY <= 1).
  { split; [apply Z.div_pos; lia|].
    apply Z.div_le_upper_bound; lia. }
  assert (E1 : (- MAX_DELTA_DAYS <=? d * US_PER_MINUTE / US_PER_DAY) = true)
    by (apply Z.leb_le; unfold MAX_DELTA_DAYS; lia).
  assert (E2 : (d * US_PER_MINUTE / US_PER_DAY <=? MAX_DELTA_DAYS) = true)
    by (apply Z.leb_le; unfold MAX_DELTA_DAYS; lia).
  rewrite E1, E2. reflexivity.
Qed.

(** The count covers exactly the candidates strictly before the end. *)
Lemma candidate_count_spec (start stop step : Z) (k : nat) :
  0 < step ->
  (k < candidate_count start stop step)%nat <-> start + Z.of_nat k * step < stop.
Proof.
  intros Hstep. unfold candidate_count.
  destruct (Z.ltb_spec start stop) as [Hlt|Hge].
  - pose proof (Z.div_mod (stop - start + step - 1) step ltac:(lia)) as Hdm.
    pose proof (Z.mod_pos_bound (stop - start + step - 1) step Hstep) as Hm.
    set (q := (stop - start + step - 1) / step) in *.
    assert (0 <= q) by (apply Z.div_pos; lia).
    split; intros H'; nia.
  - split; [lia|]. intros H'. nia.
Qed.

Lemma candidate_count_step (start stop step : Z) :
  0 < step -> start < stop ->
  candidate_count start stop step = S (candidate_count (start + step) stop step).
Proof.
  intros Hstep Hlt. unfold candidate_count.
  destruct (Z.ltb_spec start stop); [|lia].
  destruct (Z.ltb_spec (start + step) stop) as [Hn|Hn].
  - replace (stop - start + step - 1) with (stop - (start + step) + step - 1 + 1 * step) by lia.
    rewrite Z.div_add by lia.
    rewrite Z2Nat.inj_add; [|apply Z.div_pos; lia|lia].
    simpl. lia.
  - replace ((stop - start + step - 1) / step) with 1; [reflexivity|].
    apply (Z.div_unique _ _ _ (stop - start - 1)); lia.
Qed.

Lemma candidate_count_stop (start stop step : Z) :
  stop <= start -> candidate_count start stop step = O.
Proof.
  intros H. unfold candidate_count. destruct (Z.ltb_spec start stop); [lia|reflexivity].
Qed.

Section SameDay.

Variable day : date.
Variable end_time : time.
Variable d : Z.
Variable booked : list string.

Hypothesis day_valid : date_valid day.
Hypothesis end_wf : time_wf end_time.
Hypothesis d_pos : 0 < d.

Let step : Z := d * US_PER_MINUTE.
Let stop : Z := time_us end_time.

Lemma step_pos : 0 < step.
Proof. unfold step, US_PER_MINUTE, US_PER_SECOND. lia. Qed.

Lemma time_ltb_of_us (c : Z) :
  0 <= c < US_PER_DAY -> time_ltb (time_of_us c) end_time = (c <? stop).
Proof.
  intros Hc. rewrite time_ltb_us by (auto using time_of_us_wf).
  rewrite time_us_of_us by assumption. reflexivity.
Qed.

Lemma candidates_shift (c : Z) (n : nat) :
  map (fun k => time_of_us (c + Z.of_nat k * step)) (seq 1 n)
  = map (fun k => time_of_us (c + step + Z.of_nat k * step)) (seq 0 n).
Proof.
  rewrite <- seq_shift, map_map. apply map_ext. intros k.
  f_equal. lia.
Qed.

(** When a step from a time at or after [stop - step] stays within the
    day, the first candidate that is not before [stop] lies before
    midnight. *)
Lemma same_day_when_no_wrap (c : Z) :
  0 <= c < US_PER_DAY -> stop + step <= US_PER_DAY ->
  c + Z.of_nat (candidate_count c stop step) * step < US_PER_DAY.
Proof.
  pose proof step_pos as Hstep. intros Hc Hwrap.
  destruct (candidate_count c stop step) as [|n] eqn:E; [lia|].
  assert (H : (n < candidate_count c stop step)%nat) by lia.
  apply candidate_count_spec in H; [|assumption]. lia.
Qed.

(** The loop started at [c] microseconds after midnight appends the
    unbooked candidates [c + k * step] below [stop], in this order, when
    the first candidate that is not below [stop] lies before midnight. *)
Lemma slots_loop_run (n : nat) :
  forall (c : Z) (fuel : nat) (slots : list string),
    0 <= c ->
    candidate_count c stop step = n ->
    c + Z.of_nat n * step < US_PER_DAY ->
    (n < fuel)%nat ->
    slots_loop fuel end_time d booked (combine day (time_of_us c)) slots
    = Some (Returns
        (slots ++
         filter (fun s => negb (str_in s booked))
           (map format_HM
              (map (fun k => time_of_us (c + Z.of_nat k * step)) (seq 0 n))))).
Proof.
  pose proof step_pos as Hstep.
  pose proof (time_us_range end_time end_wf) as Hstop. fold stop in Hstop.
  induction n as [|n IH]; intros c fuel slots Hc Hcount Hday Hfuel.
  - destruct fuel as [|fuel]; [lia|].
    assert (Hge : stop <= c).
    { destruct (Z.lt_ge_cases c stop) as [Hlt|]; [|assumption].
      rewrite (candidate_count_step c stop step Hstep Hlt) in Hcount. discriminate. }
    rewrite slots_loop_exit.
    + simpl. rewrite app_nil_r. reflexivity.
    + simpl. rewrite time_ltb_of_us by lia. apply Z.ltb_ge. assumption.
  - destruct fuel as [|fuel]; [lia|].
    assert (Hlt : c < stop).
    { destruct (Z.lt_ge_cases c stop) as [|Hge]; [assumption|].
      rewrite (candidate_count_stop c stop step Hge) in Hcount. discriminate. }
    rewrite (candidate_count_step c stop step Hstep Hlt) in Hcount.
    injection Hcount as Hcount.
    assert (Hnext : 0 <= c + step < US_PER_DAY) by lia.
    assert (Hcur : 0 <= c < US_PER_DAY) by lia.
    cbn [slots_loop]. cbn [dt_time combine].
    rewrite time_ltb_of_us by assumption.
    destruct (Z.ltb_spec c stop); [|lia].
    rewrite timedelta_minutes_small by (fold step; lia).
    cbn [bind]. fold step.
    rewrite datetime_add_same_day;
      [|assumption|rewrite time_us_of_us by assumption; assumption].
    rewrite time_us_of_us by assumption.
    rewrite (IH (c + step) fuel) by lia.
    rewrite strftime_HM_format. cbn [dt_time combine].
    cbn [seq map]. rewrite candidates_shift.
    replace (c + Z.of_nat 0 * step) with c by lia.
    cbn [filter].
    destruct (negb (str_in (format_HM (time_of_us c)) booked)).
    + rewrite <- app_assoc. reflexivity.
    + reflexivity.
Qed.

(** The call returns the bookable start times of the specification. *)
Lemma get_available_time_slots_run (start_time : time) (fuel : nat) :
  time_wf start_time ->
  time_us start_time
    + Z.of_nat (candidate_count (time_us start_time) stop step) * step
    < US_PER_DAY ->
  (candidate_count (time_us start_time) stop step < fuel)%nat ->
  get_available_time_slots fuel day start_time end_time d booked
  = Some (Returns (bookable start_time end_time d booked)).
Proof.
  intros Hwf Hday Hfuel. unfold get_available_time_slots.
  rewrite <- (time_of_us_us start_time Hwf) at 1.
  pose proof (time_us_range _ Hwf) as Hr.
  rewrite (slots_loop_run _ (time_us start_time) fuel [] ltac:(lia) eq_refl Hday Hfuel).
  reflexivity.
Qed.

End SameDay.

(** The candidates are the times [start + k * step] for the [k] below the
    count, in this order, and within a day their microsecond counts are
    these sums: they increase with [k]. *)
Lemma candidate_times_nth (start_time end_time : time) (d : Z) (k : nat) :
  (k < candidate_count (time_us start_time) (time_us end_time)
         (d * US_PER_MINUTE))%nat ->
  nth_error (candidate_times start_time end_time d) k
  = Some (time_of_us (time_us start_time + Z.of_nat k * (d * US_PER_MINUTE))).
Proof.
  intros Hk. unfold candidate_times. rewrite nth_error_map, nth_error_seq.
  apply Nat.ltb_lt in Hk. rewrite Hk. reflexivity.
Qed.

(** C5, as the code has it: with a positive duration, when the first
    candidate that is not before the end time still lies before midnight,
    the call returns, in increasing order of k, the candidates
    start + k * duration that are strictly before the end time, formatted
    as HH:MM, and leaves out those whose HH:MM text is among the booked
    ones.  From 09:00 to 11:00 by 30 minutes it returns 09:00, 09:30,
    10:00, 10:30, and 09:00, 10:00, 10:30 when 09:30 is booked.  The
    condition holds whenever the end time plus the duration does not pass
    midnight. *)
Theorem get_available_time_slots_bookable :
  (forall (fuel : nat) (today : date) (start_time end_time : time) (d : Z)
          (booked : list string),
     date_valid today -> time_wf start_time -> time_wf end_time ->
     0 < d ->
     time_us start_time
       + Z.of_nat (candidate_count (time_us start_time) (time_us end_time)
                     (d * US_PER_MINUTE)) * (d * US_PER_MINUTE)
       < US_PER_DAY ->
     (candidate_count (time_us start_time) (time_us end_time)
        (d * US_PER_MINUTE) < fuel)%nat ->
     get_available_time_slots fuel today start_time end_time d booked
     = Some (Returns (bookable start_time end_time d booked)) /\
     forall k : nat,
       time_us start_time + Z.of_nat k * (d * US_PER_MINUTE) < time_us end_time ->
       nth_error (candidate_times start_time end_time d) k
       = Some (time_of_us (time_us start_time + Z.of_nat k * (d * US_PER_MINUTE))) /\
       time_us (time_of_us (time_us start_time + Z.of_nat k * (d * US_PER_MINUTE)))
       = time_us start_time + Z.of_nat k * (d * US_PER_MINUTE)) /\
  (forall (fuel : nat) (today : date),
     date_valid today -> (4 < fuel)%nat ->
     get_available_time_slots fuel today (Sample.at_ 9 0) (Sample.at_ 11 0) 30 []
     = Some (Returns ["09:00"; "09:30"; "10:00"; "10:30"]) /\
     get_available_time_slots fuel today (Sample.at_ 9 0) (Sample.at_ 11 0) 30 ["09:30"]
     = Some (Returns ["09:00"; "10:00"; "10:30"])) /\
  (forall (start_time end_time : time) (d : Z),
     time_wf start_time -> 0 < d ->
     time_us end_time + d * US_PER_MINUTE <= US_PER_DAY ->
     time_us start_time
       + Z.of_nat (candidate_count (time_us start_time) (time_us end_time)
                     (d * US_PER_MINUTE)) * (d * US_PER_MINUTE)
       < US_PER_DAY).
Proof.
  split; [|split].
  - intros fuel today start_time end_time d booked Htoday Hs He Hd Hday Hfuel.
    split.
    + apply get_available_time_slots_run; assumption.
    + intros k Hk.
      assert (Hstep : 0 < d * US_PER_MINUTE)
        by (unfold US_PER_MINUTE, US_PER_SECOND; lia).
      split.
      * apply candidate_times_nth. apply candidate_count_spec; assumption.
      * apply time_us_of_us.
        pose proof (time_us_range start_time Hs).
        pose proof (time_us_range end_time He). nia.
  - intros fuel today Htoday Hfuel.
    assert (Hs : time_wf (Sample.at_ 9 0)) by (vm_compute; intuition discriminate).
    assert (He : time_wf (Sample.at_ 11 0)) by (vm_compute; intuition discriminate).
    split.
    + rewrite (get_available_time_slots_run today (Sample.at_ 11 0) 30 []);
        try assumption; reflexivity.
    + rewrite (get_available_time_slots_run today (Sample.at_ 11 0) 30 ["09:30"]);
        try assumption; reflexivity.
  - intros start_time end_time d Hs Hd Hwrap.
    apply same_day_when_no_wrap; [assumption | | assumption].
    apply time_us_range. assumption.
Qed.

(** [get_available_time_slots_bookable] on 10 June 2025 from 09:00 to
    11:00 by 30 minutes, nothing booked. *)
Lemma get_available_time_slots_bookable_witness :
  get_available_time_slots 5 (Sample.june 10) (Sample.at_ 9 0) (Sample.at_ 11 0) 30 []
  = Some (Returns (bookable (Sample.at_ 9 0) (Sample.at_ 11 0) 30 [])).
Proof.
  apply (proj1 get_available_time_slots_bookable 5%nat (Sample.june 10)
           (Sample.at_ 9 0) (Sample.at_ 11 0) 30 []).
  - vm_compute. split; discriminate.
  - vm_compute. intuition discriminate.
  - vm_compute. intuition discriminate.
  - lia.
  - vm_compute. reflexivity.
  - vm_compute. lia.
Defined.

(** C5, counterexample: from 09:00 to 11:00 by 30 minutes the call returns
    HH:MM texts, not HH:MM:SS ones, and a booked "09:30:00" removes
    nothing. *)
Lemma slots_are_formatted_HM :
  get_available_time_slots 5 (Sample.june 10) (Sample.at_ 9 0) (Sample.at_ 11 0) 30 []
  = Some (Returns ["09:00"; "09:30"; "10:00"; "10:30"]) /\
  get_available_time_slots 5 (Sample.june 10) (Sample.at_ 9 0) (Sample.at_ 11 0) 30 []
  <> Some (Returns ["09:00:00"; "09:30:00"; "10:00:00"; "10:30:00"]) /\
  get_available_time_slots 5 (Sample.june 10) (Sample.at_ 9 0) (Sample.at_ 11 0) 30
    ["09:30:00"]
  = Some (Returns ["09:00"; "09:30"; "10:00"; "10:30"]) /\
  get_available_time_slots 5 (Sample.june 10) (Sample.at_ 9 0) (Sample.at_ 11 0) 30
    ["09:30:00"]
  <> Some (Returns ["09:00:00"; "10:00:00"; "10:30:00"]).
Proof.
  split; [reflexivity|]. split; [vm_compute; discriminate|].
  split; [reflexivity|]. vm_compute. discriminate.
Qed.

(** *** Termination *)

Lemma timedelta_minutes_value (d : Z) (delta : timedelta) :
  timedelta_minutes d = Returns delta -> delta = d * US_PER_MINUTE.
Proof.
  unfold timedelta_minutes.
  destruct ((- MAX_DELTA_DAYS <=? d * US_PER_MINUTE / US_PER_DAY) &&
            (d * US_PER_MINUTE / US_PER_DAY <=? MAX_DELTA_DAYS));
    congruence.
Qed.

(** With a positive duration the loop ends from every datetime: each step
    moves the datetime forward, and no datetime lies after the last day. *)
Lemma slots_loop_ends (end_time : time) (d : Z) (booked : list string) :
  0 < d ->
  forall (current : datetime) (slots : list string),
  exists fuel r, slots_loop fuel end_time d booked current slots = Some r.
Proof.
  intros Hd current.
  remember (Z.to_nat ((MAXORDINAL + 1) * US_PER_DAY - datetime_us current)) as n eqn:Hn.
  revert current Hn.
  induction n as [n IH] using lt_wf_ind. intros current Hn slots.
  destruct (time_ltb (dt_time current) end_time) eqn:Hlt.
  - destruct (bind (timedelta_minutes d) (datetime_add current)) as [next|e] eqn:E.
    + unfold bind in E.
      destruct (timedelta_minutes d) as [delta|] eqn:Hdelta; [|discriminate].
      pose proof (timedelta_minutes_value _ _ Hdelta) as Hval.
      destruct (datetime_add_us _ _ _ E) as (Hsum & Hmax & _).
      assert (Hpos : 0 < delta)
        by (subst delta; unfold US_PER_MINUTE, US_PER_SECOND; lia).
      destruct (IH (Z.to_nat ((MAXORDINAL + 1) * US_PER_DAY - datetime_us next)))
        with (current := next)
             (slots := if negb (str_in (strftime_HM current) booked)
                       then slots ++ [strftime_HM current] else slots)
        as (fuel & r & Hrun); [lia | reflexivity |].
      exists (S fuel), r. simpl. rewrite Hlt.
      unfold bind. rewrite Hdelta, E. exact Hrun.
    + exists 1%nat, (Raises e). simpl. rewrite Hlt, E. reflexivity.
  - exists 1%nat, (Returns slots). simpl. rewrite Hlt. reflexivity.
Qed.

(** A property of the time of day that every step keeps, and that holds
    only before the end time, keeps the loop from returning. *)
Lemma slots_loop_never_returns (end_time : time) (d : Z) (booked : list string)
    (I : Z -> Prop) :
  time_wf end_time ->
  (forall c, 0 <= c < US_PER_DAY -> I c ->
     c < time_us end_time /\ I ((c + d * US_PER_MINUTE) mod US_PER_DAY)) ->
  forall (fuel : nat) (current : datetime) (slots l : list string),
    time_wf (dt_time current) -> I (time_us (dt_time current)) ->
    slots_loop fuel end_time d booked current slots <> Some (Returns l).
Proof.
  intros Hend Hkeep.
  induction fuel as [|fuel IH]; intros current slots l Hwf HI; [discriminate|].
  pose proof (time_us_range _ Hwf) as Hr.
  destruct (Hkeep _ Hr HI) as [Hlt Hnext].
  cbn [slots_loop]. rewrite (time_ltb_us _ _ Hwf Hend).
  destruct (Z.ltb_spec (time_us (dt_time current)) (time_us end_time)); [|lia].
  destruct (bind (timedelta_minutes d) (datetime_add current)) as [next|e] eqn:E;
    [|discriminate].
  unfold bind in E.
  destruct (timedelta_minutes d) as [delta|] eqn:Hdelta; [|discriminate].
  apply timedelta_minutes_value in Hdelta. subst delta.
  destruct (datetime_add_us _ _ _ E) as (_ & _ & Htime).
  assert (HD : 0 < US_PER_DAY) by (unfold US_PER_DAY, US_PER_SECOND; lia).
  assert (Hmod : (datetime_us current + d * US_PER_MINUTE) mod US_PER_DAY
                 = (time_us (dt_time current) + d * US_PER_MINUTE) mod US_PER_DAY).
  { unfold datetime_us.
    replace (dt_date current * US_PER_DAY + time_us (dt_time current)
             + d * US_PER_MINUTE)
      with (time_us (dt_time current) + d * US_PER_MINUTE
            + dt_date current * US_PER_DAY) by lia.
    apply Z_mod_plus_full. }
  rewrite Hmod in Htime.
  pose proof (Z.mod_pos_bound (time_us (dt_time current) + d * US_PER_MINUTE)
                US_PER_DAY HD) as Hbound.
  apply IH; rewrite Htime.
  - apply time_of_us_wf. assumption.
  - rewrite time_us_of_us by assumption. assumption.
Qed.

(** With a duration of zero the datetime never changes, so a loop that
    starts before the end time never ends. *)
Lemma slots_loop_zero (day : date) (end_time t : time) (booked : list string) :
  date_valid day -> time_wf t -> time_ltb t end_time = true ->
  forall (fuel : nat) (slots : list string),
    slots_loop fuel end_time 0 booked (combine day t) slots = None.
Proof.
  intros Hday Hwf Hlt. induction fuel as [|fuel IH]; intros slots; [reflexivity|].
  cbn [slots_loop dt_time combine]. rewrite Hlt.
  change (timedelta_minutes 0) with (Returns (A := timedelta) 0). cbn [bind].
  pose proof (time_us_range t Hwf) as Hr.
  rewrite (datetime_add_same_day day t 0 Hday) by lia.
  rewrite Z.add_0_r, (time_of_us_us t Hwf). apply IH.
Qed.

(** With a positive duration the loop always ends, with the same outcome
    for every larger fuel: a sequence or an [OverflowError].  It ends with
    the finite sequence of bookable times when the first candidate that is
    not before the end time still lies before midnight. *)
Theorem slots_loop_terminates (today : date) (start_time end_time : time)
    (d : Z) (booked : list string) :
  0 < d ->
  (exists fuel r,
     ((exists slots, r = Returns slots) \/ r = Raises OverflowError) /\
     forall fuel', (fuel <= fuel')%nat ->
       get_available_time_slots fuel' today start_time end_time d booked = Some r) /\
  (date_valid today -> time_wf start_time -> time_wf end_time ->
   time_us start_time
     + Z.of_nat (candidate_count (time_us start_time) (time_us end_time)
                   (d * US_PER_MINUTE)) * (d * US_PER_MINUTE)
     < US_PER_DAY ->
   exists fuel,
     forall fuel', (fuel <= fuel')%nat ->
       get_available_time_slots fuel' today start_time end_time d booked
       = Some (Returns (bookable start_time end_time d booked))).
Proof.
  intros Hd. split.
  - destruct (slots_loop_ends end_time d booked Hd (combine today start_time) [])
      as (fuel & r & Hrun).
    exists fuel, r. split.
    + destruct r as [l|e].
      * left. exists l. reflexivity.
      * right. f_equal. eapply slots_loop_raises. exact Hrun.
    + intros fuel' Hle. unfold get_available_time_slots.
      eapply slots_loop_more_fuel; eassumption.
  - intros Htoday Hs He Hwrap.
    exists (S (candidate_count (time_us start_time) (time_us end_time)
                 (d * US_PER_MINUTE))).
    intros fuel' Hle. apply get_available_time_slots_run; assumption.
Qed.

(** [slots_loop_terminates] on 10 June 2025 from 09:00 to 11:00 by 30
    minutes. *)
Lemma slots_loop_terminates_witness :
  (exists fuel r,
     ((exists slots, r = Returns slots) \/ r = Raises OverflowError) /\
     forall fuel', (fuel <= fuel')%nat ->
       get_available_time_slots fuel' (Sample.june 10) (Sample.at_ 9 0)
         (Sample.at_ 11 0) 30 [] = Some r) /\
  exists fuel,
    forall fuel', (fuel <= fuel')%nat ->
      get_available_time_slots fuel' (Sample.june 10) (Sample.at_ 9 0)
        (Sample.at_ 11 0) 30 []
      = Some (Returns (bookable (Sample.at_ 9 0) (Sample.at_ 11 0) 30 [])).
Proof.
  destruct (slots_loop_terminates (Sample.june 10) (Sample.at_ 9 0)
              (Sample.at_ 11 0) 30 [] ltac:(lia)) as [H1 H2].
  split; [exact H1|]. apply H2.
  - vm_compute. split; discriminate.
  - vm_compute. intuition discriminate.
  - vm_compute. intuition discriminate.
  - vm_compute. reflexivity.
Defined.

(** C6, at the failing input: from 22:00 to 23:30 by 60 minutes every
    candidate falls on a full hour, of that day or of a later one, and so
    before 23:30: whatever the fuel the loop returns no sequence, and it
    ends with an [OverflowError] once the date passes the last day. *)
Theorem hourly_slots_past_midnight :
  0 < 60 /\
  (forall fuel slots,
     get_available_time_slots fuel (Sample.june 10) (Sample.at_ 22 0)
       (Sample.at_ 23 30) 60 [] <> Some (Returns slots)) /\
  (exists fuel,
     get_available_time_slots fuel (Sample.june 10) (Sample.at_ 22 0)
       (Sample.at_ 23 30) 60 [] = Some (Raises OverflowError)).
Proof.
  split; [lia|].
  assert (Hnever : forall fuel slots,
     get_available_time_slots fuel (Sample.june 10) (Sample.at_ 22 0)
       (Sample.at_ 23 30) 60 [] <> Some (Returns slots)).
  { intros fuel slots. unfold get_available_time_slots.
    apply (slots_loop_never_returns (Sample.at_ 23 30) 60 []
             (fun c => c mod 3600000000 = 0)).
    - vm_compute. intuition discriminate.
    - intros c Hc Hhour.
      change (time_us (Sample.at_ 23 30)) with 84600000000.
      change (60 * US_PER_MINUTE) with 3600000000.
      unfold US_PER_DAY, US_PER_SECOND in *.
      split; Z.div_mod_to_equations; lia.
    - vm_compute. intuition discriminate.
    - reflexivity. }
  split; [exact Hnever|].
  destruct (slots_loop_ends (Sample.at_ 23 30) 60 [] ltac:(lia)
              (combine (Sample.june 10) (Sample.at_ 22 0)) [])
    as (fuel & r & Hrun).
  exists fuel. unfold get_available_time_slots. rewrite Hrun.
  destruct r as [l|e].
  - exfalso. exact (Hnever fuel l Hrun).
  - f_equal. f_equal. eapply slots_loop_raises. exact Hrun.
Qed.




(** ** Available slot count ([calculate_available_slots]) *)

Lemma dates_between_empty (start_date end_date : date) :
  end_date < start_date -> dates_between start_date end_date = [].
Proof.
  intros H. unfold dates_between.
  replace (Z.to_nat (end_date - start_date + 1)) with O by lia. reflexivity.
Qed.

Lemma dates_between_cons (start_date end_date : date) :
  start_date <= end_date ->
  dates_between start_date end_date
  = start_date :: dates_between (start_date + 1) end_date.
Proof.
  intros H. unfold dates_between.
  replace (Z.to_nat (end_date - start_date + 1))
    with (S (Z.to_nat (end_date - (start_date + 1) + 1))) by lia.
  cbn [seq map Z.of_nat]. rewrite Z.add_0_r. apply f_equal.
  rewrite <- seq_shift, map_map. apply map_ext. intros k. lia.
Qed.

Lemma business_days_empty (days : list json) (start_date end_date : date) :
  end_date < start_date -> business_days days start_date end_date = 0.
Proof.
  intros H. unfold business_days. rewrite dates_between_empty by assumption.
  reflexivity.
Qed.

Lemma business_days_cons (days : list json) (start_date end_date : date) :
  start_date <= end_date ->
  business_days days start_date end_date
  = (if existsb (int_eq (weekday start_date)) days then 1 else 0)
    + business_days days (start_date + 1) end_date.
Proof.
  intros H. unfold business_days. rewrite dates_between_cons by assumption.
  cbn [filter]. destruct (existsb (int_eq (weekday start_date)) days).
  - cbn [List.length]. lia.
  - lia.
Qed.

Lemma business_days_nonneg (days : list json) (start_date end_date : date) :
  0 <= business_days days start_date end_date.
Proof. unfold business_days. lia. Qed.

(** An empty range leaves the loop at once, whatever the weekday field. *)
Lemma count_business_days_empty (fuel : nat) (days : json)
    (end_date start_date : date) (n : Z) :
  end_date < start_date ->
  count_business_days (S fuel) days end_date start_date n = Some (Returns n).
Proof.
  intros H. simpl. destruct (Z.leb_spec start_date end_date); [lia|reflexivity].
Qed.

(** The day loop on a list of weekdays: it adds the business days from the
    current date to the end date, given a date to step to after the last. *)
Lemma count_business_days_run (days : list json) (end_date : date) (k : nat) :
  forall (fuel : nat) (current : date) (n : Z),
    1 <= current -> end_date < MAXORDINAL ->
    Z.to_nat (end_date - current + 1) = k ->
    (k < fuel)%nat ->
    count_business_days fuel (JArr days) end_date current n
    = Some (Returns (n + business_days days current end_date)).
Proof.
  induction k as [|k IH]; intros fuel current n Hlo Hhi Hk Hfuel;
    (destruct fuel as [|fuel]; [lia|]).
  - rewrite count_business_days_empty by lia.
    rewrite business_days_empty by lia. f_equal. f_equal. lia.
  - assert (Hle : current <= end_date) by lia.
    cbn [count_business_days int_in].
    destruct (Z.leb_spec current end_date); [|lia].
    unfold date_add_days.
    destruct (Z.ltb_spec 0 (current + 1)); [|lia].
    destruct (Z.leb_spec (current + 1) MAXORDINAL); [|lia].
    cbn [andb].
    rewrite (IH fuel (current + 1)) by lia.
    rewrite (business_days_cons days current end_date Hle).
    destruct (existsb (int_eq (weekday current)) days); f_equal; f_equal; lia.
Qed.

(** The anchor loop when every entry parses. *)
Lemma count_slots_all_parse (business : Z) (slots : list json) :
  forallb parses slots = true ->
  forall total,
    count_slots business slots total
    = Returns (total + 4 * business * Z.of_nat (List.length slots)).
Proof.
  induction slots as [|slot rest IH]; intros Hall total.
  - simpl. f_equal. lia.
  - cbn [forallb] in Hall. apply andb_true_iff in Hall. destruct Hall as [Hslot Hrest].
    cbn [count_slots]. unfold parses in Hslot.
    destruct (strptime_value slot); [|discriminate].
    rewrite (IH Hrest). f_equal. cbn [List.length]. lia.
Qed.

(** The anchor loop when an entry does not parse: it raises. *)
Lemma count_slots_some_fail (business : Z) (slots : list json) :
  forallb parses slots = false ->
  forall total, exists e, count_slots business slots total = Raises e.
Proof.
  induction slots as [|slot rest IH]; intros Hsome total; [discriminate|].
  cbn [forallb] in Hsome. cbn [count_slots]. unfold parses in Hsome.
  destruct (strptime_value slot) as [t|e]; [|exists e; reflexivity].
  apply IH. exact Hsome.
Qed.

Lemma calculate_available_slots_run (json_loads : string -> result json)
    (fuel : nat) (doctor_profile : DoctorProfile) (start_date end_date : date)
    (days anchors : list json) :
  py_or (available_days doctor_profile) DEFAULT_DAYS = JArr days ->
  iterate (resolve_slots json_loads (available_time_slots doctor_profile))
    = Returns anchors ->
  forallb parses anchors = true ->
  1 <= start_date -> end_date < MAXORDINAL ->
  (Z.to_nat (end_date - start_date + 1) < fuel)%nat ->
  calculate_available_slots json_loads fuel doctor_profile start_date end_date
  = Some (Returns (4 * business_days days start_date end_date
                     * Z.of_nat (List.length anchors))).
Proof.
  intros Hdays Hiter Hall Hlo Hhi Hfuel.
  unfold calculate_available_slots. rewrite Hdays, Hiter.
  rewrite (count_business_days_run days end_date _ fuel start_date 0 Hlo Hhi eq_refl Hfuel).
  cbn [bind]. rewrite (count_slots_all_parse _ anchors Hall). do 2 apply f_equal. lia.
Qed.

(** The count on a configuration whose weekday field is a list and whose
    anchors all parse, over a range that starts on a date and ends before
    the last one: four slots per business day and anchor. *)
Lemma calculate_available_slots_formula (json_loads : string -> result json)
    (fuel : nat) (doctor_profile : DoctorProfile) (start_date end_date : date)
    (days anchors : list json) :
  py_or (available_days doctor_profile) DEFAULT_DAYS = JArr days ->
  iterate (resolve_slots json_loads (available_time_slots doctor_profile))
    = Returns anchors ->
  forallb parses anchors = true ->
  1 <= start_date -> start_date <= end_date -> end_date < MAXORDINAL ->
  (Z.to_nat (end_date - start_date + 1) < fuel)%nat ->
  calculate_available_slots json_loads fuel doctor_profile start_date end_date
  = Some (Returns (4 * business_days days start_date end_date
                     * Z.of_nat (List.length (valid_anchors anchors)))) /\
  0 <= 4 * business_days days start_date end_date
         * Z.of_nat (List.length (valid_anchors anchors)).
Proof.
  intros Hdays Hiter Hall Hlo Hle Hhi Hfuel.
  assert (Hvalid : valid_anchors anchors = anchors).
  { unfold valid_anchors. clear Hiter. induction anchors as [|a rest IH]; [reflexivity|].
    cbn [forallb] in Hall. apply andb_true_iff in Hall. destruct Hall as [Ha Hr].
    cbn [filter]. rewrite Ha, (IH Hr). reflexivity. }
  rewrite Hvalid. split.
  - unfold calculate_available_slots. rewrite Hdays, Hiter.
    rewrite (count_business_days_run days end_date _ fuel start_date 0 Hlo Hhi eq_refl Hfuel).
    cbn [bind]. rewrite (count_slots_all_parse _ anchors Hall). do 2 apply f_equal. lia.
  - pose proof (business_days_nonneg days start_date end_date). nia.
Qed.

(** C7, as the code has it: when the start date is after the end date no
    error is raised; the day loop does not run, the business days are 0
    and, the anchors parsing, the count returned is 0. *)
Theorem reversed_range_counts_zero (json_loads : string -> result json)
    (fuel : nat) (doctor_profile : DoctorProfile) (start_date end_date : date)
    (anchors : list json) :
  end_date < start_date ->
  iterate (resolve_slots json_loads (available_time_slots doctor_profile))
    = Returns anchors ->
  forallb parses anchors = true ->
  calculate_available_slots json_loads (S fuel) doctor_profile start_date end_date
  = Some (Returns 0).
Proof.
  intros Hlt Hiter Hall. unfold calculate_available_slots.
  rewrite count_business_days_empty by assumption.
  rewrite Hiter. cbn [bind]. rewrite (count_slots_all_parse _ anchors Hall).
  reflexivity.
Qed.

(** [reversed_range_counts_zero] from 10 June 2025 back to 9 June, with
    the anchor 09:00:00. *)
Lemma reversed_range_counts_zero_witness :
  calculate_available_slots Sample.no_loads 1 (Sample.profile ["09:00:00"])
    (Sample.june 10) (Sample.june 9)
  = Some (Returns 0).
Proof.
  apply (reversed_range_counts_zero Sample.no_loads 0
           (Sample.profile ["09:00:00"]) (Sample.june 10) (Sample.june 9)
           [JStr "09:00:00"]).
  - vm_compute. reflexivity.
  - reflexivity.
  - reflexivity.
Defined.

(** C7, counterexample: from 10 June 2025 back to 9 June the call returns
    the count 0, it does not fail. *)
Lemma reversed_range_returns :
  Sample.june 9 < Sample.june 10 /\
  calculate_available_slots Sample.no_loads 1 (Sample.profile ["09:00:00"])
    (Sample.june 10) (Sample.june 9)
  = Some (Returns 0).
Proof. split; reflexivity. Qed.

(** C4, at the failing input: the anchor "not-a-time" does not parse, and
    the count over the anchors 09:00:00 and not-a-time raises [ValueError],
    for the week of 9 June 2025 as for every weekday field, range and fuel
    that let the day loop return: no count is returned. *)
Theorem malformed_anchor_raises :
  strptime_value (JStr "not-a-time") = Raises ValueError /\
  calculate_available_slots Sample.no_loads 6
    (Sample.profile ["09:00:00"; "not-a-time"]) (Sample.june 9) (Sample.june 13)
  = Some (Raises ValueError) /\
  (forall json_loads fuel days start_date end_date n,
     calculate_available_slots json_loads fuel
       {| available_days := days;
          available_time_slots := JArr [JStr "09:00:00"; JStr "not-a-time"] |}
       start_date end_date
     <> Some (Returns n)).
Proof.
  split; [reflexivity|]. split; [vm_compute; reflexivity|].
  intros json_loads fuel days start_date end_date n.
  unfold calculate_available_slots. cbn [available_days available_time_slots].
  destruct (count_business_days fuel (py_or days DEFAULT_DAYS) end_date start_date 0)
    as [[business|e]|]; [|discriminate..].
  change (resolve_slots json_loads (JArr [JStr "09:00:00"; JStr "not-a-time"]))
    with (JArr [JStr "09:00:00"; JStr "not-a-time"]).
  cbn [iterate bind count_slots].
  change (strptime_value (JStr "09:00:00")) with (Returns (mk_time 9 0 0 0)).
  change (strptime_value (JStr "not-a-time")) with (Raises (A := time) ValueError).
  discriminate.
Qed.

(** C3, at the failing input: over the week of 9 June 2025, Monday to
    Friday available, with the anchors 09:00:00 and not-a-time, there are
    5 business days and 1 valid anchor, so the count should be 20; the
    call raises [ValueError], and returns 20 once the malformed anchor is
    removed. *)
Theorem slot_count_with_malformed_anchor :
  business_days [JInt 0; JInt 1; JInt 2; JInt 3; JInt 4]
    (Sample.june 9) (Sample.june 13) = 5 /\
  valid_anchors [JStr "09:00:00"; JStr "not-a-time"] = [JStr "09:00:00"] /\
  calculate_available_slots Sample.no_loads 6
    (Sample.profile ["09:00:00"; "not-a-time"]) (Sample.june 9) (Sample.june 13)
  = Some (Raises ValueError) /\
  calculate_available_slots Sample.no_loads 6
    (Sample.profile ["09:00:00"]) (Sample.june 9) (Sample.june 13)
  = Some (Returns 20).
Proof. repeat split. Qed.

(** [calculate_available_slots_formula] over the week of 9 June 2025,
    Monday to Friday available, with the anchors 09:00:00 and 14:00:00:
    5 business days and 2 anchors. *)
Lemma calculate_available_slots_formula_witness :
  calculate_available_slots Sample.no_loads 6
    (Sample.profile ["09:00:00"; "14:00:00"]) (Sample.june 9) (Sample.june 13)
  = Some (Returns
      (4 * business_days [JInt 0; JInt 1; JInt 2; JInt 3; JInt 4]
             (Sample.june 9) (Sample.june 13)
         * Z.of_nat (List.length
                       (valid_anchors [JStr "09:00:00"; JStr "14:00:00"])))) /\
  0 <= 4 * business_days [JInt 0; JInt 1; JInt 2; JInt 3; JInt 4]
             (Sample.june 9) (Sample.june 13)
         * Z.of_nat (List.length
                       (valid_anchors [JStr "09:00:00"; JStr "14:00:00"])).
Proof.
  apply (calculate_available_slots_formula Sample.no_loads 6
           (Sample.profile ["09:00:00"; "14:00:00"]) (Sample.june 9) (Sample.june 13)
           [JInt 0; JInt 1; JInt 2; JInt 3; JInt 4]
           [JStr "09:00:00"; JStr "14:00:00"]).
  - reflexivity.
  - reflexivity.
  - reflexivity.
  - vm_compute. discriminate.
  - vm_compute. discriminate.
  - vm_compute. reflexivity.
  - vm_compute. lia.
Defined.

(** A start time that is not before the end time gives the empty
    sequence, whatever the duration and the booked times. *)
Lemma empty_time_range_returns_nothing (fuel : nat) (today : date)
    (start_time end_time : time) (d : Z) (booked : list string) :
  time_ltb start_time end_time = false ->
  get_available_time_slots (S fuel) today start_time end_time d booked
  = Some (Returns []).
Proof.
  intros H. unfold get_available_time_slots. apply slots_loop_exit. exact H.
Qed.

(** [empty_time_range_returns_nothing] from 10:00 to 10:00 by 15 minutes. *)
Lemma empty_time_range_returns_nothing_witness :
  get_available_time_slots 1 (Sample.june 10) (Sample.at_ 10 0) (Sample.at_ 10 0) 15 []
  = Some (Returns []).
Proof.
  apply (empty_time_range_returns_nothing 0 (Sample.june 10)
           (Sample.at_ 10 0) (Sample.at_ 10 0) 15 []).
  reflexivity.
Defined.

(** ** More on the bookable start times *)

(** The loop only appends times that are not booked. *)
Lemma slots_loop_not_booked (end_time : time) (d : Z) (booked : list string) :
  forall (fuel : nat) (current : datetime) (slots l : list string),
    (forall s, In s slots -> str_in s booked = false) ->
    slots_loop fuel end_time d booked current slots = Some (Returns l) ->
    forall s, In s l -> str_in s booked = false.
Proof.
  induction fuel as [|fuel IH]; intros current slots l Hslots Hrun; [discriminate|].
  cbn [slots_loop] in Hrun.
  destruct (time_ltb (dt_time current) end_time).
  - destruct (bind (timedelta_minutes d) (datetime_add current)) as [next|e];
      [|discriminate].
    refine (IH _ _ _ _ Hrun). intros s H.
    destruct (negb (str_in (strftime_HM current) booked)) eqn:E.
    + apply in_app_or in H. destruct H as [H|[<-|[]]].
      * apply Hslots. exact H.
      * apply negb_true_iff. exact E.
    + apply Hslots. exact H.
  - injection Hrun as <-. exact Hslots.
Qed.

(** A time that is booked is never among the times returned, whatever the
    bounds, the duration and the day. *)
Theorem booked_times_never_returned (fuel : nat) (today : date)
    (start_time end_time : time) (d : Z) (booked slots : list string)
    (s : string) :
  get_available_time_slots fuel today start_time end_time d booked
    = Some (Returns slots) ->
  In s slots -> str_in s booked = false.
Proof.
  intros Hrun Hin. unfold get_available_time_slots in Hrun.
  eapply slots_loop_not_booked; [|exact Hrun|exact Hin].
  intros s' [].
Qed.

(** [booked_times_never_returned] from 09:00 to 11:00 by 30 minutes with
    09:30 booked, for the returned 10:00. *)
Lemma booked_times_never_returned_witness :
  str_in "10:00" ["09:30"] = false.
Proof.
  apply (booked_times_never_returned 5 (Sample.june 10) (Sample.at_ 9 0)
           (Sample.at_ 11 0) 30 ["09:30"] ["09:00"; "10:00"; "10:30"] "10:00").
  - reflexivity.
  - right. left. reflexivity.
Defined.

Lemma digit_char_inj (a b : Z) :
  0 <= a <= 9 -> 0 <= b <= 9 -> digit_char a = digit_char b -> a = b.
Proof.
  intros Ha Hb H. unfold digit_char in H.
  apply (f_equal nat_of_ascii) in H.
  rewrite !nat_ascii_embedding in H by lia. lia.
Qed.

Lemma two_digits_inj (a b : Z) :
  0 <= a < 100 -> 0 <= b < 100 -> two_digits a = two_digits b -> a = b.
Proof.
  intros Ha Hb H. unfold two_digits in H. injection H as H1 H2.
  apply digit_char_inj in H1; [|Z.div_mod_to_equations; lia..].
  apply digit_char_inj in H2; [|Z.div_mod_to_equations; lia..].
  Z.div_mod_to_equations. lia.
Qed.

(** The HH:MM text of a time of day determines its hour and minute. *)
Lemma format_HM_inj (a b : time) :
  time_wf a -> time_wf b -> format_HM a = format_HM b ->
  hour a = hour b /\ minute a = minute b.
Proof.
  intros (Ha1 & Ha2 & _) (Hb1 & Hb2 & _) H.
  unfold format_HM, two_digits in H. cbn [String.append] in H.
  injection H as H1 H2 H3 H4.
  split; apply two_digits_inj; try lia; unfold two_digits; congruence.
Qed.

Lemma time_of_us_minutes (u : Z) :
  0 <= u < US_PER_DAY ->
  hour (time_of_us u) * 60 + minute (time_of_us u) = u / US_PER_MINUTE.
Proof.
  unfold time_of_us, US_PER_DAY, US_PER_MINUTE, US_PER_SECOND; simpl. intros H.
  Z.div_mod_to_equations. lia.
Qed.

Lemma NoDup_map_inj_on {A B : Type} (f : A -> B) (l : list A) :
  NoDup l ->
  (forall x y, In x l -> In y l -> f x = f y -> x = y) ->
  NoDup (map f l).
Proof.
  induction 1 as [|x l Hx Hl IH]; intros Hinj; [constructor|].
  cbn [map]. constructor.
  - intros Hin. apply in_map_iff in Hin. destruct Hin as (y & Hy & Hyl).
    apply Hx. rewrite (Hinj x y); [assumption|left; reflexivity|right; assumption|].
    symmetry. exact Hy.
  - apply IH. intros a b Ha Hb. apply Hinj; right; assumption.
Qed.

(** Within a day the candidates have pairwise different HH:MM texts. *)
Lemma bookable_NoDup (start_time end_time : time) (d : Z) (booked : list string) :
  time_wf start_time -> 0 < d ->
  time_us start_time
    + Z.of_nat (candidate_count (time_us start_time) (time_us end_time)
                  (d * US_PER_MINUTE)) * (d * US_PER_MINUTE)
    < US_PER_DAY ->
  NoDup (bookable start_time end_time d booked).
Proof.
  intros Hs Hd Hday. unfold bookable, candidate_times.
  apply NoDup_filter. rewrite map_map.
  set (n := candidate_count (time_us start_time) (time_us end_time)
              (d * US_PER_MINUTE)) in *.
  pose proof (time_us_range start_time Hs) as Hr.
  assert (Hmin : 0 < US_PER_MINUTE) by (unfold US_PER_MINUTE, US_PER_SECOND; lia).
  assert (Hrange : forall k, In k (seq 0 n) ->
            0 <= time_us start_time + Z.of_nat k * (d * US_PER_MINUTE) < US_PER_DAY).
  { intros k Hk. apply in_seq in Hk. nia. }
  apply NoDup_map_inj_on; [apply seq_NoDup|].
  intros x y Hx Hy Heq.
  pose proof (Hrange x Hx) as Hux. pose proof (Hrange y Hy) as Huy.
  apply format_HM_inj in Heq; try (apply time_of_us_wf; assumption).
  destruct Heq as [Hh Hm].
  pose proof (time_of_us_minutes _ Hux) as Ex.
  pose proof (time_of_us_minutes _ Huy) as Ey.
  rewrite Hh, Hm, Ey in Ex.
  replace (time_us start_time + Z.of_nat y * (d * US_PER_MINUTE))
    with (time_us start_time + Z.of_nat y * d * US_PER_MINUTE) in Ex by lia.
  replace (time_us start_time + Z.of_nat x * (d * US_PER_MINUTE))
    with (time_us start_time + Z.of_nat x * d * US_PER_MINUTE) in Ex by lia.
  rewrite !Z.div_add in Ex by lia. nia.
Qed.

(** When the first candidate that is not before the end time still lies
    before midnight, no time is returned twice. *)
Theorem returned_times_distinct (fuel : nat) (today : date)
    (start_time end_time : time) (d : Z) (booked slots : list string) :
  date_valid today -> time_wf start_time -> time_wf end_time -> 0 < d ->
  time_us start_time
    + Z.of_nat (candidate_count (time_us start_time) (time_us end_time)
                  (d * US_PER_MINUTE)) * (d * US_PER_MINUTE)
    < US_PER_DAY ->
  get_available_time_slots fuel today start_time end_time d booked
    = Some (Returns slots) ->
  NoDup slots.
Proof.
  intros Htoday Hs He Hd Hday Hrun.
  set (n := candidate_count (time_us start_time) (time_us end_time)
              (d * US_PER_MINUTE)) in *.
  assert (Hbig : get_available_time_slots (fuel + S n) today start_time end_time
                   d booked = Some (Returns slots)).
  { unfold get_available_time_slots in *.
    eapply slots_loop_more_fuel; [|exact Hrun]. lia. }
  rewrite (get_available_time_slots_run today end_time d booked Htoday He Hd
             start_time (fuel + S n) Hs Hday) in Hbig by (fold n; lia).
  injection Hbig as <-. apply bookable_NoDup; assumption.
Qed.

(** [returned_times_distinct] on 10 June 2025 from 09:00 to 11:00 by 30
    minutes. *)
Lemma returned_times_distinct_witness :
  NoDup ["09:00"; "09:30"; "10:00"; "10:30"].
Proof.
  apply (returned_times_distinct 5 (Sample.june 10) (Sample.at_ 9 0)
           (Sample.at_ 11 0) 30 [] ["09:00"; "09:30"; "10:00"; "10:30"]).
  - vm_compute. split; discriminate.
  - vm_compute. intuition discriminate.
  - vm_compute. intuition discriminate.
  - lia.
  - vm_compute. reflexivity.
  - reflexivity.
Defined.

(** ** More on the slot count *)

Lemma filter_map_length {A B : Type} (p : B -> bool) (f : A -> B) (l : list A) :
  List.length (filter (fun x => p (f x)) l) = List.length (filter p (map f l)).
Proof.
  induction l as [|x l IH]; [reflexivity|].
  cbn [map filter]. destruct (p (f x)); cbn [List.length]; rewrite IH; reflexivity.
Qed.

(** Seven days in a row hold every weekday once. *)
Lemma business_days_week (days : list json) (d : date) :
  business_days days d (d + 6) = days_per_week days.
Proof.
  unfold business_days, days_per_week, dates_between, WEEK.
  replace (Z.to_nat (d + 6 - d + 1)) with 7%nat by lia.
  set (p := fun w => existsb (int_eq w) days).
  change (fun d0 : date => existsb (int_eq (weekday d0)) days)
    with (fun d0 : date => p (weekday d0)).
  rewrite filter_map_length, map_map.
  assert (Hw : forall k, weekday (d + Z.of_nat k)
                         = ((d + 6) mod 7 + Z.of_nat k) mod 7).
  { intros k. unfold weekday. rewrite Zplus_mod_idemp_l. f_equal. lia. }
  rewrite (map_ext _ _ Hw).
  pose proof (Z.mod_pos_bound (d + 6) 7 ltac:(lia)) as Hr.
  assert (Hcases : (d + 6) mod 7 = 0 \/ (d + 6) mod 7 = 1 \/ (d + 6) mod 7 = 2 \/
                   (d + 6) mod 7 = 3 \/ (d + 6) mod 7 = 4 \/ (d + 6) mod 7 = 5 \/
                   (d + 6) mod 7 = 6) by lia.
  destruct Hcases as [E|[E|[E|[E|[E|[E|E]]]]]]; rewrite E;
    match goal with
    | |- context [map ?f (seq 0 7)] =>
        let l := eval vm_compute in (map f (seq 0 7)) in
        change (map f (seq 0 7)) with l
    end;
    cbn [filter];
    destruct (p 0), (p 1), (p 2), (p 3), (p 4), (p 5), (p 6); reflexivity.
Qed.

(** The week of [doctor_schedule] runs from today to today + 7, both
    included: eight days, so the weekday of today is counted twice. *)
Theorem available_slots_week_counts_eight_days
    (json_loads : string -> result json) (fuel : nat)
    (doctor_profile : DoctorProfile) (today : date) (days anchors : list json) :
  py_or (available_days doctor_profile) DEFAULT_DAYS = JArr days ->
  iterate (resolve_slots json_loads (available_time_slots doctor_profile))
    = Returns anchors ->
  forallb parses anchors = true ->
  1 <= today -> today + 7 < MAXORDINAL -> (8 < fuel)%nat ->
  available_slots_week json_loads fuel doctor_profile today
  = Some (Returns
      (4 * (days_per_week days
            + (if existsb (int_eq (weekday today)) days then 1 else 0))
         * Z.of_nat (List.length anchors))).
Proof.
  intros Hdays Hiter Hall Hlo Hhi Hfuel. unfold available_slots_week, date_add_days.
  destruct (Z.ltb_spec 0 (today + 7)); [|lia].
  destruct (Z.leb_spec (today + 7) MAXORDINAL); [|lia]. cbn [andb].
  rewrite (calculate_available_slots_run json_loads fuel doctor_profile
             today (today + 7) days anchors Hdays Hiter Hall Hlo Hhi)
    by lia.
  do 2 f_equal.
  rewrite (business_days_cons days today (today + 7)) by lia.
  replace (today + 7) with (today + 1 + 6) by lia.
  rewrite business_days_week. lia.
Qed.

(** [available_slots_week_counts_eight_days] on Tuesday 10 June 2025, for a
    doctor available Monday to Friday with one anchor: five weekdays and
    the Tuesday of the following week. *)
Lemma available_slots_week_counts_eight_days_witness :
  available_slots_week Sample.no_loads 9 (Sample.profile ["09:00:00"])
    (Sample.june 10)
  = Some (Returns
      (4 * (days_per_week [JInt 0; JInt 1; JInt 2; JInt 3; JInt 4]
            + (if existsb (int_eq (weekday (Sample.june 10)))
                    [JInt 0; JInt 1; JInt 2; JInt 3; JInt 4]
               then 1 else 0))
         * Z.of_nat (List.length [JStr "09:00:00"]))).
Proof.
  apply (available_slots_week_counts_eight_days Sample.no_loads 9
           (Sample.profile ["09:00:00"]) (Sample.june 10)).
  - reflexivity.
  - reflexivity.
  - reflexivity.
  - vm_compute. discriminate.
  - vm_compute. reflexivity.
  - lia.
Defined.

Example available_slots_week_sample :
  available_slots_week Sample.no_loads 9 (Sample.profile ["09:00:00"])
    (Sample.june 10) = Some (Returns 24).
Proof. reflexivity. Qed.

Lemma valid_anchors_all (anchors : list json) :
  forallb parses anchors = true -> valid_anchors anchors = anchors.
Proof.
  unfold valid_anchors. induction anchors as [|a rest IH]; intros Hall; [reflexivity|].
  cbn [forallb] in Hall. apply andb_true_iff in Hall. destruct Hall as [Ha Hr].
  cbn [filter]. rewrite Ha, (IH Hr). reflexivity.
Qed.

(** The default anchor 09:00:00 stands in for a field that is empty or
    that does not decode; a [str] field that decodes to an empty list
    leaves no anchor and a count of 0. *)
Theorem default_anchor_cases (json_loads : string -> result json) (fuel : nat)
    (doctor_profile : DoctorProfile) (start_date end_date : date)
    (days : list json) :
  py_or (available_days doctor_profile) DEFAULT_DAYS = JArr days ->
  1 <= start_date -> start_date <= end_date -> end_date < MAXORDINAL ->
  (Z.to_nat (end_date - start_date + 1) < fuel)%nat ->
  (truthy (available_time_slots doctor_profile) = false ->
   (forall s, available_time_slots doctor_profile <> JStr s) ->
   calculate_available_slots json_loads fuel doctor_profile start_date end_date
   = Some (Returns (4 * business_days days start_date end_date))) /\
  (forall s e,
     available_time_slots doctor_profile = JStr s -> json_loads s = Raises e ->
     calculate_available_slots json_loads fuel doctor_profile start_date end_date
     = Some (Returns (4 * business_days days start_date end_date))) /\
  (forall s,
     available_time_slots doctor_profile = JStr s ->
     json_loads s = Returns (JArr []) ->
     calculate_available_slots json_loads fuel doctor_profile start_date end_date
     = Some (Returns 0)).
Proof.
  intros Hdays Hlo Hle Hhi Hfuel.
  assert (Hdefault : forall anchors,
            iterate (resolve_slots json_loads (available_time_slots doctor_profile))
              = Returns anchors ->
            forallb parses anchors = true ->
            calculate_available_slots json_loads fuel doctor_profile
              start_date end_date
            = Some (Returns (4 * business_days days start_date end_date
                               * Z.of_nat (List.length anchors)))).
  { intros anchors Hiter Hall.
    exact (calculate_available_slots_run json_loads fuel doctor_profile
             start_date end_date days anchors Hdays Hiter Hall Hlo Hhi Hfuel). }
  split; [|split].
  - intros Hfalsy Hnot. rewrite (Hdefault [JStr "09:00:00"]).
    + do 2 f_equal. cbn [List.length Z.of_nat Pos.of_succ_nat]. lia.
    + unfold resolve_slots, py_or.
      destruct (available_time_slots doctor_profile) as [|b|n|s|items|members];
        try (rewrite Hfalsy; reflexivity).
      exfalso. exact (Hnot s eq_refl).
    + reflexivity.
  - intros s e Hs Hloads. rewrite (Hdefault [JStr "09:00:00"]).
    + do 2 f_equal. cbn [List.length Z.of_nat Pos.of_succ_nat]. lia.
    + unfold resolve_slots. rewrite Hs, Hloads. reflexivity.
    + reflexivity.
  - intros s Hs Hloads. rewrite (Hdefault []).
    + do 2 f_equal. cbn [List.length Z.of_nat]. lia.
    + unfold resolve_slots. rewrite Hs, Hloads. reflexivity.
    + reflexivity.
Qed.

(** [default_anchor_cases] over the week of 9 June 2025 for a doctor whose
    time slots are the empty list. *)
Lemma default_anchor_cases_witness :
  calculate_available_slots Sample.no_loads 6 (Sample.profile [])
    (Sample.june 9) (Sample.june 13)
  = Some (Returns
      (4 * business_days [JInt 0; JInt 1; JInt 2; JInt 3; JInt 4]
             (Sample.june 9) (Sample.june 13))).
Proof.
  apply (proj1 (default_anchor_cases Sample.no_loads 6 (Sample.profile [])
                  (Sample.june 9) (Sample.june 13)
                  [JInt 0; JInt 1; JInt 2; JInt 3; JInt 4]
                  eq_refl ltac:(vm_compute; discriminate)
                  ltac:(vm_compute; discriminate) ltac:(vm_compute; reflexivity)
                  ltac:(vm_compute; lia))).
  - reflexivity.
  - intros s H. discriminate H.
Defined.

(** With no available days set, the default list 1 to 5 is read with
    [weekday], whose 1 to 5 are Tuesday to Saturday: a Monday (0) or a
    Sunday (6) counts no slot, the other days four per anchor. *)
Theorem default_days_tuesday_to_saturday (json_loads : string -> result json)
    (fuel : nat) (doctor_profile : DoctorProfile) (d : date)
    (anchors : list json) :
  truthy (available_days doctor_profile) = false ->
  iterate (resolve_slots json_loads (available_time_slots doctor_profile))
    = Returns anchors ->
  forallb parses anchors = true ->
  1 <= d -> d < MAXORDINAL -> (1 < fuel)%nat ->
  calculate_available_slots json_loads fuel doctor_profile d d
  = Some (Returns
      (if (1 <=? weekday d) && (weekday d <=? 5)
       then 4 * Z.of_nat (List.length anchors) else 0)).
Proof.
  intros Hfalsy Hiter Hall Hlo Hhi Hfuel.
  assert (Hdays : py_or (available_days doctor_profile) DEFAULT_DAYS
                  = JArr [JInt 1; JInt 2; JInt 3; JInt 4; JInt 5]).
  { unfold py_or. rewrite Hfalsy. reflexivity. }
  rewrite (calculate_available_slots_run json_loads fuel doctor_profile
             d d _ anchors Hdays Hiter Hall Hlo Hhi) by lia.
  do 2 f_equal.
  rewrite (business_days_cons _ d d) by lia.
  rewrite business_days_empty by lia.
  pose proof (Z.mod_pos_bound (d + 6) 7 ltac:(lia)) as Hr. fold (weekday d) in Hr.
  assert (Hcases : weekday d = 0 \/ weekday d = 1 \/ weekday d = 2 \/
                   weekday d = 3 \/ weekday d = 4 \/ weekday d = 5 \/
                   weekday d = 6) by lia.
  destruct Hcases as [E|[E|[E|[E|[E|[E|E]]]]]]; rewrite E; cbn; lia.
Qed.

(** [default_days_tuesday_to_saturday] on Monday 9 June 2025. *)
Lemma default_days_tuesday_to_saturday_witness :
  calculate_available_slots Sample.no_loads 2
    {| available_days := JArr []; available_time_slots := JArr [JStr "09:00:00"] |}
    (Sample.june 9) (Sample.june 9)
  = Some (Returns
      (if (1 <=? weekday (Sample.june 9)) && (weekday (Sample.june 9) <=? 5)
       then 4 * Z.of_nat (List.length [JStr "09:00:00"]) else 0)).
Proof.
  apply (default_days_tuesday_to_saturday Sample.no_loads 2
           {| available_days := JArr [];
              available_time_slots := JArr [JStr "09:00:00"] |}
           (Sample.june 9) [JStr "09:00:00"]).
  - reflexivity.
  - reflexivity.
  - reflexivity.
  - vm_compute. discriminate.
  - vm_compute. reflexivity.
  - lia.
Defined.

Example default_days_monday_and_saturday :
  calculate_available_slots Sample.no_loads 2
    {| available_days := JArr []; available_time_slots := JArr [JStr "09:00:00"] |}
    (Sample.june 9) (Sample.june 9) = Some (Returns 0) /\
  calculate_available_slots Sample.no_loads 2
    {| available_days := JArr []; available_time_slots := JArr [JStr "09:00:00"] |}
    (Sample.june 14) (Sample.june 14) = Some (Returns 4).
Proof. split; reflexivity. Qed.

(** The day loop on a dict: its keys are strings, no weekday is among
    them, and no day is counted. *)
Lemma count_business_days_dict (members : list (string * json)) (end_date : date)
    (k : nat) :
  forall (fuel : nat) (current : date) (n : Z),
    1 <= current -> end_date < MAXORDINAL ->
    Z.to_nat (end_date - current + 1) = k ->
    (k < fuel)%nat ->
    count_business_days fuel (JObj members) end_date current n = Some (Returns n).
Proof.
  induction k as [|k IH]; intros fuel current n Hlo Hhi Hk Hfuel;
    (destruct fuel as [|fuel]; [lia|]).
  - apply count_business_days_empty. lia.
  - cbn [count_business_days int_in].
    destruct (Z.leb_spec current end_date); [|lia].
    unfold date_add_days.
    destruct (Z.ltb_spec 0 (current + 1)); [|lia].
    destruct (Z.leb_spec (current + 1) MAXORDINAL); [|lia].
    cbn [andb]. apply IH; lia.
Qed.

(** Available days that are not a list: a dict counts no day at all, and
    a string, a number or [true] raises [TypeError] on the first day of a
    range that has one. *)
Theorem available_days_not_a_list (json_loads : string -> result json)
    (fuel : nat) (doctor_profile : DoctorProfile) (start_date end_date : date) :
  (forall members anchors,
     py_or (available_days doctor_profile) DEFAULT_DAYS = JObj members ->
     iterate (resolve_slots json_loads (available_time_slots doctor_profile))
       = Returns anchors ->
     forallb parses anchors = true ->
     1 <= start_date -> end_date < MAXORDINAL ->
     (Z.to_nat (end_date - start_date + 1) < fuel)%nat ->
     calculate_available_slots json_loads fuel doctor_profile start_date end_date
     = Some (Returns 0)) /\
  (truthy (available_days doctor_profile) = true ->
   (forall items, available_days doctor_profile <> JArr items) ->
   (forall members, available_days doctor_profile <> JObj members) ->
   start_date <= end_date ->
   calculate_available_slots json_loads (S fuel) doctor_profile start_date end_date
   = Some (Raises TypeError)).
Proof.
  split.
  - intros members anchors Hdays Hiter Hall Hlo Hhi Hfuel.
    unfold calculate_available_slots. rewrite Hdays.
    rewrite (count_business_days_dict members end_date _ fuel start_date 0
               Hlo Hhi eq_refl Hfuel).
    rewrite Hiter. cbn [bind]. rewrite (count_slots_all_parse _ anchors Hall).
    reflexivity.
  - intros Htrue Hlist Hdict Hle. unfold calculate_available_slots, py_or.
    rewrite Htrue. cbn [count_business_days].
    destruct (Z.leb_spec start_date end_date); [|lia].
    destruct (available_days doctor_profile) as [|b|n|s|items|members];
      try reflexivity.
    + exfalso. exact (Hlist items eq_refl).
    + exfalso. exact (Hdict members eq_refl).
Qed.

(** [available_days_not_a_list] over the week of 9 June 2025, for available
    days stored as the string "weekdays". *)
Lemma available_days_not_a_list_witness :
  calculate_available_slots Sample.no_loads 1
    {| available_days := JStr "weekdays";
       available_time_slots := JArr [JStr "09:00:00"] |}
    (Sample.june 9) (Sample.june 13)
  = Some (Raises TypeError).
Proof.
  apply (proj2 (available_days_not_a_list Sample.no_loads 0
                  {| available_days := JStr "weekdays";
                     available_time_slots := JArr [JStr "09:00:00"] |}
                  (Sample.june 9) (Sample.june 13))).
  - reflexivity.
  - intros items H. discriminate H.
  - intros members H. discriminate H.
  - vm_compute. discriminate.
Defined.

(** ** Booking and status update on the stored appointments *)

Lemma slot_exists_same_slot (objects : list Appointment) (row : Appointment) :
  slot_exists objects (doctor row) (date_ row) (time_ row)
  = existsb (fun a => same_slot a row) objects.
Proof. reflexivity. Qed.

Lemma same_slot_sym (a b : Appointment) : same_slot a b = same_slot b a.
Proof.
  unfold same_slot.
  rewrite (Z.eqb_sym (doctor a)), (Z.eqb_sym (date_ a)). f_equal.
  destruct (time_eqb (time_ a) (time_ b)) eqn:E.
  - apply time_eqb_eq in E. rewrite E. symmetry. apply time_eqb_refl.
  - destruct (time_eqb (time_ b) (time_ a)) eqn:E'; [|reflexivity].
    apply time_eqb_eq in E'. rewrite E', time_eqb_refl in E. discriminate.
Qed.

(** A row on a slot that no stored row holds keeps the constraint. *)
Lemma unique_doctor_slot_app_true (objects : list Appointment) (row : Appointment) :
  unique_doctor_slot objects = true ->
  existsb (fun a => same_slot a row) objects = false ->
  unique_doctor_slot (objects ++ [row]) = true.
Proof.
  induction objects as [|a rest IH]; intros Huniq Hfree; [reflexivity|].
  cbn [unique_doctor_slot app existsb] in *.
  apply andb_true_iff in Huniq. destruct Huniq as [Ha Hrest].
  apply orb_false_iff in Hfree. destruct Hfree as [Har Hfree].
  rewrite existsb_app. cbn [existsb]. rewrite Har, orb_false_r.
  apply negb_true_iff in Ha. rewrite Ha. cbn [orb negb andb].
  apply IH; assumption.
Qed.

(** What an accepted booking is: the cleaned data hold the four required
    fields, the date is not past and the slot is free. *)
Lemma book_appointment_accepted (today : date) (objects objects' : list Appointment)
    (cleaned : BookingData) :
  book_appointment today objects cleaned = (objects', Redirect "patient_dashboard") ->
  exists patient_id doctor_id d t,
    cd_patient cleaned = Some patient_id /\ cd_doctor cleaned = Some doctor_id /\
    cd_date cleaned = Some d /\ cd_time cleaned = Some t /\
    today <= d /\ slot_exists objects doctor_id d t = false /\
    objects' = objects ++ [booking_form_save patient_id doctor_id d t cleaned].
Proof.
  unfold book_appointment. intros H.
  destruct (clean today objects cleaned) as [c|e] eqn:Hclean; [|discriminate].
  assert (Hc : c = cleaned).
  { unfold clean in Hclean.
    repeat match type of Hclean with
           | (if ?b then _ else _) = _ => destruct b
           | (let _ := _ in _) = _ => cbv zeta in Hclean
           end; congruence. }
  subst c.
  destruct (cd_patient cleaned) as [patient_id|] eqn:Hp; [|discriminate].
  destruct (cd_doctor cleaned) as [doctor_id|] eqn:Hdoc; [|discriminate].
  destruct (cd_date cleaned) as [d|] eqn:Hd; [|discriminate].
  destruct (cd_time cleaned) as [t|] eqn:Ht; [|discriminate].
  injection H as <-. exists patient_id, doctor_id, d, t.
  destruct (Z.lt_ge_cases d today) as [Hlt|Hge].
  - rewrite (clean_past today objects cleaned d Hd Hlt) in Hclean. discriminate.
  - rewrite (clean_not_past today objects cleaned doctor_id d t Hdoc Hd Ht) in Hclean
      by lia.
    destruct (slot_exists objects doctor_id d t); [discriminate|].
    repeat split; try reflexivity. lia.
Qed.

(** Booking keeps the [unique_doctor_slot] constraint of the stored rows:
    an accepted booking adds one pending row, on a date that is not past
    and a slot no stored row holds; a refused one stores nothing. *)
Theorem booking_keeps_slots_unique (today : date) (objects : list Appointment)
    (cleaned : BookingData) :
  unique_doctor_slot objects = true ->
  unique_doctor_slot (fst (book_appointment today objects cleaned)) = true /\
  ((exists row,
      book_appointment today objects cleaned
        = (objects ++ [row], Redirect "patient_dashboard") /\
      status row = "pending" /\ end_time row = None /\ today <= date_ row /\
      slot_exists objects (doctor row) (date_ row) (time_ row) = false) \/
   book_appointment today objects cleaned
     = (objects, Render "book_appointment.html")).
Proof.
  intros Huniq.
  destruct (book_appointment today objects cleaned) as [objects' r] eqn:Hbook.
  assert (Hcases : r = Redirect "patient_dashboard" \/
                   (objects' = objects /\ r = Render "book_appointment.html")).
  { unfold book_appointment in Hbook.
    destruct (clean today objects cleaned) as [c|e].
    - destruct (cd_patient c), (cd_doctor c), (cd_date c), (cd_time c);
        injection Hbook as <- <-; auto.
    - injection Hbook as <- <-. auto. }
  destruct Hcases as [->|[-> ->]].
  - destruct (book_appointment_accepted _ _ _ _ Hbook)
      as (patient_id & doctor_id & d & t & Hp & Hdoc & Hd & Ht & Hle & Hfree & ->).
    cbn [fst]. split.
    + apply unique_doctor_slot_app_true; [assumption|].
      rewrite <- slot_exists_same_slot. exact Hfree.
    + left. eexists. split; [reflexivity|]. cbn. auto.
  - cbn [fst]. split; [assumption|]. right. reflexivity.
Qed.

(** [booking_keeps_slots_unique] on 10 June 2025 with one stored
    appointment, for a request on a free slot. *)
Lemma booking_keeps_slots_unique_witness :
  unique_doctor_slot
    (fst (book_appointment (Sample.june 10)
            [Sample.appointment (Sample.june 12) (Sample.at_ 10 0) "confirmed"]
            (Sample.request (Sample.june 12) (Sample.at_ 11 0)))) = true.
Proof.
  apply (proj1 (booking_keeps_slots_unique (Sample.june 10)
                  [Sample.appointment (Sample.june 12) (Sample.at_ 10 0) "confirmed"]
                  (Sample.request (Sample.june 12) (Sample.at_ 11 0))
                  eq_refl)).
Defined.

(** Once a booking is accepted, a second request for the same doctor, date
    and time is refused and stores nothing, whoever asks and whenever. *)
Theorem second_booking_refused (today today' : date)
    (objects objects' : list Appointment) (cleaned cleaned' : BookingData) :
  book_appointment today objects cleaned = (objects', Redirect "patient_dashboard") ->
  cd_doctor cleaned' = cd_doctor cleaned ->
  cd_date cleaned' = cd_date cleaned ->
  cd_time cleaned' = cd_time cleaned ->
  book_appointment today' objects' cleaned'
  = (objects', Render "book_appointment.html").
Proof.
  intros Hbook Hdoc Hd Ht.
  destruct (book_appointment_accepted _ _ _ _ Hbook)
    as (patient_id & doctor_id & d & t & Hp & Hdoc0 & Hd0 & Ht0 & Hle & Hfree & ->).
  rewrite Hdoc0 in Hdoc. rewrite Hd0 in Hd. rewrite Ht0 in Ht.
  unfold book_appointment.
  destruct (Z.lt_ge_cases d today') as [Hlt|Hge].
  - rewrite (clean_past today' _ cleaned' d Hd Hlt). reflexivity.
  - rewrite (clean_not_past today' _ cleaned' doctor_id d t Hdoc Hd Ht) by lia.
    assert (E : slot_exists (objects ++ [booking_form_save patient_id doctor_id d t cleaned])
                  doctor_id d t = true).
    { unfold slot_exists. rewrite existsb_app. cbn [existsb booking_form_save
        doctor date_ time_].
      rewrite !Z.eqb_refl, time_eqb_refl. apply orb_true_r. }
    rewrite E. reflexivity.
Qed.

(** [second_booking_refused] on 10 June 2025: doctor 1 on 12 June at
    10:00, booked once, then asked again the day after. *)
Lemma second_booking_refused_witness :
  book_appointment (Sample.june 11)
    [booking_form_save 8 1 (Sample.june 12) (Sample.at_ 10 0)
       (Sample.request (Sample.june 12) (Sample.at_ 10 0))]
    (Sample.request (Sample.june 12) (Sample.at_ 10 0))
  = ([booking_form_save 8 1 (Sample.june 12) (Sample.at_ 10 0)
        (Sample.request (Sample.june 12) (Sample.at_ 10 0))],
     Render "book_appointment.html").
Proof.
  apply (second_booking_refused (Sample.june 10) (Sample.june 11) []
           _ (Sample.request (Sample.june 12) (Sample.at_ 10 0))
           (Sample.request (Sample.june 12) (Sample.at_ 10 0)));
    reflexivity.
Defined.



Lemma get_object_or_404_found (table : Table) (appointment_id doctor_profile : Z)
    (appointment : Appointment) :
  get_object_or_404 table appointment_id doctor_profile = Some appointment ->
  In (appointment_id, appointment) table /\ doctor appointment = doctor_profile.
Proof.
  unfold get_object_or_404. intros H.
  destruct (find _ table) as [[pk a]|] eqn:E; [|discriminate].
  cbn in H. injection H as ->. apply find_some in E. destruct E as [Hin Hrow].
  cbn [fst snd] in Hrow. apply andb_true_iff in Hrow. destruct Hrow as [Hpk Hdoc].
  apply Z.eqb_eq in Hpk. apply Z.eqb_eq in Hdoc. subst pk. auto.
Qed.


(** A doctor cannot reach the appointment of another doctor: the answer is
    the 404 page and nothing is stored, whatever is posted. *)
Theorem other_doctors_appointment_not_found (table : Table)
    (doctor_profile appointment_id : Z) (post : option StatusData) :
  (forall a, In (appointment_id, a) table -> doctor a <> doctor_profile) ->
  appointment_update_status_view table doctor_profile appointment_id post
  = (table, Http404).
Proof.
  intros Hother. unfold appointment_update_status_view.
  destruct (get_object_or_404 table appointment_id doctor_profile) as [a|] eqn:E;
    [|reflexivity].
  apply get_object_or_404_found in E. destruct E as [Hin Hdoc].
  exfalso. exact (Hother a Hin Hdoc).
Qed.

(** [other_doctors_appointment_not_found] for doctor 2 on the appointment
    5 of doctor 1. *)
Lemma other_doctors_appointment_not_found_witness :
  appointment_update_status_view
    [(5, Sample.appointment (Sample.june 12) (Sample.at_ 10 0) "pending")]
    2 5 (Some {| sd_status := "cancelled"; sd_end_time := None |})
  = ([(5, Sample.appointment (Sample.june 12) (Sample.at_ 10 0) "pending")],
     Http404).
Proof.
  apply other_doctors_appointment_not_found.
  intros a [H|[]]. injection H as <-. cbn. discriminate.
Defined.



(** ** User accounts ([User.clean], [toggle_user_status], [add_user]) *)

Lemma full_clean_with_is_active (today : date) (db : DB) (pk : option Z)
    (user : User) (b : bool) :
  full_clean today db pk (with_is_active user b) = full_clean today db pk user.
Proof. reflexivity. Qed.

Lemma with_is_active_twice (user : User) :
  with_is_active (with_is_active user (negb (is_active user)))
    (negb (negb (is_active user))) = user.
Proof.
  destruct user as [r d a f]. unfold with_is_active. cbn.
  rewrite negb_involutive. reflexivity.
Qed.

Lemma find_key_some (rows : list (Z * User)) (id : Z) (row : Z * User) :
  find (fun row => fst row =? id) rows = Some row ->
  fst row = id /\ In row rows /\
  existsb (fun row => fst row =? id) rows = true.
Proof.
  intros H. pose proof (find_some _ _ H) as [Hin Hk].
  apply Z.eqb_eq in Hk. split; [exact Hk|]. split; [exact Hin|].
  apply existsb_exists. exists row. split; [exact Hin|].
  apply Z.eqb_eq. exact Hk.
Qed.

Lemma get_user_or_404_some (db : DB) (id : Z) (user : User) :
  get_user_or_404 db id = Some user ->
  In (id, user) (users db) /\
  existsb (fun row => fst row =? id) (users db) = true.
Proof.
  unfold get_user_or_404. intros H.
  destruct (find (fun row => fst row =? id) (users db)) as [[k u]|] eqn:E;
    [|discriminate].
  injection H as ->. apply find_key_some in E. cbn [fst] in E.
  destruct E as (-> & Hin & Hex). split; assumption.
Qed.

Lemma find_key_replace (rows : list (Z * User)) (id : Z) (user user' : User) :
  find (fun row => fst row =? id) rows = Some (id, user) ->
  find (fun row => fst row =? id)
    (map (fun row => if fst row =? id then (id, user') else row) rows)
  = Some (id, user').
Proof.
  induction rows as [|[k u] rest IH]; intros H; [discriminate|].
  cbn [find map fst] in *. destruct (k =? id) eqn:E.
  - cbn [fst]. rewrite Z.eqb_refl. reflexivity.
  - cbn [fst]. rewrite E. apply IH. exact H.
Qed.

Lemma key_unique (rows : list (Z * User)) (k : Z) (u u' : User) :
  NoDup (map fst rows) -> In (k, u) rows -> In (k, u') rows -> u = u'.
Proof.
  induction rows as [|[k0 u0] rest IH]; intros Hnodup Hin Hrow; [destruct Hin|].
  cbn [map fst] in Hnodup. inversion Hnodup as [|? ? Hnot Hrest]; subst.
  destruct Hin as [Hin|Hin], Hrow as [Hrow|Hrow].
  - congruence.
  - injection Hin as -> ->. exfalso. apply Hnot.
    apply (in_map fst) in Hrow. exact Hrow.
  - injection Hrow as -> ->. exfalso. apply Hnot.
    apply (in_map fst) in Hin. exact Hin.
  - apply IH; assumption.
Qed.

Lemma replace_back (rows : list (Z * User)) (id : Z) (user user' : User) :
  NoDup (map fst rows) -> In (id, user) rows ->
  map (fun row => if fst row =? id then (id, user) else row)
    (map (fun row => if fst row =? id then (id, user') else row) rows)
  = rows.
Proof.
  intros Hnodup Hin. rewrite map_map.
  rewrite <- (map_id rows) at 2. apply map_ext_in.
  intros [k u] Hrow. cbn [fst]. destruct (k =? id) eqn:E.
  - cbn [fst]. rewrite Z.eqb_refl. apply Z.eqb_eq in E. subst k.
    f_equal. exact (key_unique rows id user u Hnodup Hin Hrow).
  - cbn [fst]. rewrite E. reflexivity.
Qed.

Lemma replace_keys (rows : list (Z * User)) (id : Z) (user' : User) :
  map fst (map (fun row => if fst row =? id then (id, user') else row) rows)
  = map fst rows.
Proof.
  rewrite map_map. apply map_ext. intros [k u]. cbn [fst].
  destruct (k =? id) eqn:E; [|reflexivity].
  apply Z.eqb_eq in E. cbn [fst]. congruence.
Qed.

(** What [toggle_user_status] does when it goes through: the row of the
    user is replaced by one with the other [is_active]. *)
Lemma toggle_user_status_saved (today : date) (db : DB) (outbox : list Z)
    (request_user id : Z) (user : User) :
  get_user_or_404 db id = Some user ->
  request_user <> id ->
  full_clean today db (Some id) user = true ->
  toggle_user_status today db outbox request_user id
  = (set_users db
       (map (fun row =>
               if fst row =? id
               then (id, with_is_active user (negb (is_active user)))
               else row) (users db)),
     if is_active user then outbox ++ [id] else outbox,
     if is_active user then Blocked else Activated,
     Redirect "view_user").
Proof.
  intros Hget Hother Hclean. unfold toggle_user_status. rewrite Hget.
  destruct (Z.eqb_spec request_user id) as [|_]; [contradiction|].
  unfold User_save. rewrite full_clean_with_is_active, Hclean.
  destruct (get_user_or_404_some db id user Hget) as [_ Hex]. rewrite Hex.
  destruct (is_active user); reflexivity.
Qed.

Lemma toggle_user_status_refused (today : date) (db : DB) (outbox : list Z)
    (request_user id : Z) (user : User) :
  get_user_or_404 db id = Some user ->
  request_user <> id ->
  full_clean today db (Some id) user = false ->
  toggle_user_status today db outbox request_user id
  = (db, outbox, UserNotFound, Redirect "user_management").
Proof.
  intros Hget Hother Hclean. unfold toggle_user_status. rewrite Hget.
  destruct (Z.eqb_spec request_user id) as [|_]; [contradiction|].
  unfold User_save. rewrite full_clean_with_is_active, Hclean. reflexivity.
Qed.

(** Toggling a user twice gives back the stored users and profiles as they
    were, whether the toggles went through or not. *)
Theorem toggle_twice_restores_users (today : date) (db : DB)
    (outbox : list Z) (request_user id : Z) :
  NoDup (map fst (users db)) ->
  db_of (toggle_user_status today
           (db_of (toggle_user_status today db outbox request_user id))
           (outbox_of (toggle_user_status today db outbox request_user id))
           request_user id)
  = db.
Proof.
  intros Hnodup.
  destruct (get_user_or_404 db id) as [user|] eqn:Hget.
  2:{ unfold toggle_user_status at 2 3. rewrite Hget. cbn [db_of outbox_of fst snd].
      unfold toggle_user_status. rewrite Hget. reflexivity. }
  destruct (Z.eq_dec request_user id) as [Hself|Hother].
  { unfold toggle_user_status at 2 3. rewrite Hget.
    destruct (Z.eqb_spec request_user id) as [_|]; [|contradiction].
    cbn [db_of outbox_of fst snd].
    unfold toggle_user_status. rewrite Hget.
    destruct (Z.eqb_spec request_user id) as [_|]; [|contradiction].
    reflexivity. }
  destruct (full_clean today db (Some id) user) eqn:Hclean.
  - rewrite (toggle_user_status_saved today db outbox request_user id user
               Hget Hother Hclean).
    cbn [db_of outbox_of fst snd].
    set (user' := with_is_active user (negb (is_active user))).
    set (db1 := set_users db _).
    assert (Hget1 : get_user_or_404 db1 id = Some user').
    { unfold get_user_or_404, db1. cbn [users set_users].
      unfold get_user_or_404 in Hget.
      destruct (find (fun row => fst row =? id) (users db)) as [[k u]|] eqn:E;
        [|discriminate].
      injection Hget as ->. pose proof (find_key_some _ _ _ E) as (Hk & _ & _).
      cbn [fst] in Hk. subst k.
      rewrite (find_key_replace _ _ _ user' E). reflexivity. }
    assert (Hclean1 : full_clean today db1 (Some id) user' = true).
    { unfold user'. rewrite full_clean_with_is_active. exact Hclean. }
    rewrite (toggle_user_status_saved today db1 _ request_user id user'
               Hget1 Hother Hclean1).
    cbn [db_of fst]. unfold db1, user'. cbn [users set_users is_active with_is_active].
    fold (with_is_active (with_is_active user (negb (is_active user)))
            (negb (negb (is_active user)))).
    rewrite with_is_active_twice.
    destruct (get_user_or_404_some db id user Hget) as [Hin _].
    rewrite (replace_back (users db) id user _ Hnodup Hin).
    destruct db; reflexivity.
  - rewrite (toggle_user_status_refused today db outbox request_user id user
               Hget Hother Hclean).
    cbn [db_of outbox_of fst snd].
    rewrite (toggle_user_status_refused today db outbox request_user id user
               Hget Hother Hclean).
    reflexivity.
Qed.

(** [toggle_twice_restores_users] on two users, the second one blocked and
    activated again by the first. *)
Lemma toggle_twice_restores_users_witness :
  db_of (toggle_user_status (Sample.june 10)
           (db_of (toggle_user_status (Sample.june 10) SampleAccounts.accounts [] 1 2))
           (outbox_of (toggle_user_status (Sample.june 10) SampleAccounts.accounts [] 1 2))
           1 2)
  = SampleAccounts.accounts.
Proof.
  apply toggle_twice_restores_users.
  repeat constructor; cbn; intuition discriminate.
Defined.

(** A user whose row does not pass [full_clean] can be neither blocked nor
    activated: [save] raises, nothing is stored, no mail is sent and the
    admin is told that the user was not found.  This is so for every user
    with the admin role and no admin profile, and for a date of birth in
    the future. *)
Theorem user_failing_validation_cannot_be_toggled (today : date) (db : DB)
    (outbox : list Z) (request_user id : Z) (user : User) :
  get_user_or_404 db id = Some user ->
  (role user = "admin" /\ has_admin_profile db (Some id) = false) \/
  (exists d, date_of_birth user = Some d /\ today < d) \/
  fields_valid user = false ->
  toggle_user_status today db outbox request_user id
  = (db, outbox,
     if request_user =? id then OwnAccount else UserNotFound,
     Redirect "user_management").
Proof.
  intros Hget Hbad.
  destruct (Z.eqb_spec request_user id) as [Hself|Hother].
  - unfold toggle_user_status. rewrite Hget.
    destruct (Z.eqb_spec request_user id); [reflexivity|contradiction].
  - apply (toggle_user_status_refused today db outbox request_user id user Hget Hother).
    unfold full_clean, User_clean.
    destruct Hbad as [[Hrole Hnone]|[(d & Hd & Hlt)|Hfields]].
    + rewrite Hrole, Hnone. cbn [String.eqb Ascii.eqb Bool.eqb andb negb].
      destruct (match date_of_birth user with Some d => today <? d | None => false end);
        apply andb_false_r.
    + rewrite Hd. destruct (Z.ltb_spec today d); [|lia]. apply andb_false_r.
    + rewrite Hfields. reflexivity.
Qed.

(** [user_failing_validation_cannot_be_toggled] on an active user with the
    admin role and no admin profile. *)
Lemma user_failing_validation_cannot_be_toggled_witness :
  toggle_user_status (Sample.june 10) SampleAccounts.accounts [] 1 3
  = (SampleAccounts.accounts, [], UserNotFound, Redirect "user_management").
Proof.
  apply (user_failing_validation_cannot_be_toggled (Sample.june 10)
           SampleAccounts.accounts [] 1 3 (mk_User "admin" None true true) eq_refl).
  left. split; reflexivity.
Defined.

(** The reach of [toggle_user_status]: the profiles, the primary keys and
    every column but [is_active] stay as they were, and so does every row
    with another primary key; on the account of the admin who asks,
    nothing changes at all; and a mail is sent only to a user who was
    active and is stored as blocked. *)
Theorem toggle_user_status_reach (today : date) (db : DB) (outbox : list Z)
    (request_user id : Z) :
  NoDup (map fst (users db)) ->
  let r := toggle_user_status today db outbox request_user id in
  admin_profiles (db_of r) = admin_profiles db /\
  doctor_profiles (db_of r) = doctor_profiles db /\
  patient_profiles (db_of r) = patient_profiles db /\
  map fst (users (db_of r)) = map fst (users db) /\
  map (fun row => (role (snd row), date_of_birth (snd row), fields_valid (snd row)))
      (users (db_of r))
  = map (fun row => (role (snd row), date_of_birth (snd row), fields_valid (snd row)))
      (users db) /\
  (forall row, In row (users db) -> fst row <> id -> In row (users (db_of r))) /\
  (request_user = id -> db_of r = db /\ outbox_of r = outbox) /\
  (outbox_of r = outbox \/
   exists user,
     outbox_of r = outbox ++ [id] /\
     get_user_or_404 db id = Some user /\ is_active user = true /\
     get_user_or_404 (db_of r) id = Some (with_is_active user false)).
Proof.
  intros Hnodup r. subst r.
  assert (Hsame : forall n to,
            let r := (db, outbox, n, Redirect to) in
            admin_profiles (db_of r) = admin_profiles db /\
            doctor_profiles (db_of r) = doctor_profiles db /\
            patient_profiles (db_of r) = patient_profiles db /\
            map fst (users (db_of r)) = map fst (users db) /\
            map (fun row => (role (snd row), date_of_birth (snd row),
                             fields_valid (snd row))) (users (db_of r))
            = map (fun row => (role (snd row), date_of_birth (snd row),
                               fields_valid (snd row))) (users db) /\
            (forall row, In row (users db) -> fst row <> id ->
               In row (users (db_of r))) /\
            (request_user = id -> db_of r = db /\ outbox_of r = outbox) /\
            (outbox_of r = outbox \/
             exists user,
               outbox_of r = outbox ++ [id] /\
               get_user_or_404 db id = Some user /\ is_active user = true /\
               get_user_or_404 (db_of r) id = Some (with_is_active user false))).
  { intros n to r. subst r. cbn [db_of outbox_of fst snd].
    repeat (split; [reflexivity|]). split; [auto|]. split; [auto|]. left. reflexivity. }
  destruct (get_user_or_404 db id) as [user|] eqn:Hget.
  2:{ unfold toggle_user_status. rewrite Hget. apply Hsame. }
  destruct (Z.eq_dec request_user id) as [Hself|Hother].
  { unfold toggle_user_status. rewrite Hget.
    destruct (Z.eqb_spec request_user id); [|contradiction]. apply Hsame. }
  destruct (full_clean today db (Some id) user) eqn:Hclean.
  2:{ rewrite (toggle_user_status_refused today db outbox request_user id user
                 Hget Hother Hclean). apply Hsame. }
  rewrite (toggle_user_status_saved today db outbox request_user id user
             Hget Hother Hclean).
  cbn [db_of outbox_of fst snd set_users admin_profiles doctor_profiles
       patient_profiles users].
  split; [reflexivity|]. split; [reflexivity|]. split; [reflexivity|].
  split; [apply replace_keys|].
  destruct (get_user_or_404_some db id user Hget) as [Hin _].
  split; [|split; [|split]].
  - rewrite map_map. apply map_ext_in. intros [k u] Hrow. cbn [fst snd].
    destruct (Z.eqb_spec k id) as [->|]; [|reflexivity].
    cbn [snd with_is_active role date_of_birth fields_valid].
    rewrite (key_unique (users db) id u user Hnodup Hrow Hin). reflexivity.
  - intros row Hrow Hne. apply in_map_iff. exists row. split; [|exact Hrow].
    destruct (Z.eqb_spec (fst row) id); [contradiction|reflexivity].
  - intros Heq. contradiction.
  - destruct (is_active user) eqn:Hactive; [right|left; reflexivity].
    exists user. split; [reflexivity|]. split; [reflexivity|]. split; [exact Hactive|].
    unfold get_user_or_404 in *. cbn [users].
    destruct (find (fun row => fst row =? id) (users db)) as [[k u]|] eqn:E;
      [|discriminate].
    injection Hget as ->. pose proof (find_key_some _ _ _ E) as (Hk & _ & _).
    cbn [fst] in Hk. subst k.
    cbn [users set_users].
    rewrite (find_key_replace _ _ _ (with_is_active user (negb true)) E).
    reflexivity.
Qed.

(** [toggle_user_status_reach] when the first user blocks the second. *)
Lemma toggle_user_status_reach_witness :
  outbox_of (toggle_user_status (Sample.june 10) SampleAccounts.accounts [] 1 2)
    = [2] /\
  map fst (users (db_of (toggle_user_status (Sample.june 10)
                           SampleAccounts.accounts [] 1 2)))
    = [1; 2; 3; 4].
Proof.
  pose proof (toggle_user_status_reach (Sample.june 10) SampleAccounts.accounts
                [] 1 2
                ltac:(repeat constructor; cbn; intuition discriminate))
    as (_ & _ & _ & Hkeys & _).
  split; [reflexivity|exact Hkeys].
Defined.

(** *** [add_user] *)

Lemma role_field_some (raw r : string) :
  role_field raw = Some r ->
  r = raw /\ (raw = "doctor" \/ raw = "patient" \/ raw = "admin").
Proof.
  unfold role_field, str_in, ROLE_CHOICES. cbn [existsb].
  destruct (String.eqb_spec raw "doctor") as [->|_].
  { intros H. injection H as <-. auto. }
  destruct (String.eqb_spec raw "patient") as [->|_].
  { intros H. injection H as <-. auto. }
  destruct (String.eqb_spec raw "admin") as [->|_].
  { intros H. injection H as <-. auto. }
  discriminate.
Qed.

Lemma blank_false (v : option string) :
  blank v = false -> exists s, v = Some s /\ s <> "".
Proof.
  destruct v as [s|]; [|discriminate]. cbn [blank].
  destruct (String.eqb_spec s ""); [discriminate|]. intros _. exists s. auto.
Qed.

Lemma existsb_licence (rows : list DoctorRow) (l : string) :
  existsb (fun p => match dr_license_number p with
                    | Some l' => (l' =? l)%string
                    | None => false
                    end) rows = false ->
  ~ In l (licences rows).
Proof.
  induction rows as [|row rest IH]; intros H; [intros []|].
  cbn [existsb] in H. apply orb_false_iff in H. destruct H as [Hrow Hrest].
  cbn [licences]. destruct (dr_license_number row) as [l'|].
  - intros [Heq|Hin]; [|exact (IH Hrest Hin)].
    subst l'. rewrite String.eqb_refl in Hrow. discriminate.
  - exact (IH Hrest).
Qed.

Lemma licences_app (rows rows' : list DoctorRow) :
  licences (rows ++ rows') = licences rows ++ licences rows'.
Proof.
  induction rows as [|row rest IH]; [reflexivity|].
  cbn [app licences]. destruct (dr_license_number row); rewrite IH; reflexivity.
Qed.

(** No admin can be added through [add_user]: with the admin role posted,
    whatever the admin code and the other fields, the form is shown again
    and nothing is stored, because [User.clean] asks for an admin profile
    that a user not yet saved cannot have. *)
Theorem add_user_never_creates_admin (today : date) (new_id : Z) (db : DB)
    (data : AddUserData) :
  raw_role data = "admin" ->
  add_user today new_id db (Some data) = (db, Render ADD_USER_TEMPLATE).
Proof.
  intros Hrole. unfold add_user.
  assert (Hinvalid : is_valid today db data = false).
  { unfold is_valid, User_clean, construct_instance.
    cbn [role date_of_birth has_admin_profile]. rewrite Hrole.
    change (role_field "admin") with (Some "admin").
    cbn [String.eqb Ascii.eqb Bool.eqb andb negb].
    destruct (match cd_date_of_birth data with
              | Some d => today <? d
              | None => false
              end); apply andb_false_r. }
  rewrite Hinvalid. reflexivity.
Qed.

(** [add_user_never_creates_admin] with an admin code of eight characters
    and every field valid. *)
Lemma add_user_never_creates_admin_witness :
  add_user (Sample.june 10) 5 SampleAccounts.accounts
    (Some {| raw_role := "admin";
             cd_date_of_birth := None;
             cd_admin_code := Some "ROOT-002";
             cd_specialization := Some "";
             cd_license_number := Some "";
             cd_blood_group := Some "";
             other_fields_valid := true;
             instance_valid := true |})
  = (SampleAccounts.accounts, Render ADD_USER_TEMPLATE).
Proof.
  apply add_user_never_creates_admin. reflexivity.
Defined.

Lemma is_valid_true (today : date) (db : DB) (data : AddUserData) :
  is_valid today db data = true ->
  (raw_role data = "doctor" \/ raw_role data = "patient") /\
  snd (AddUserForm_clean data) = [] /\
  User_clean today db None (construct_instance data) = Returns tt /\
  is_some (cd_blood_group data) = true.
Proof.
  unfold is_valid. intros H.
  repeat (apply andb_true_iff in H; destruct H as [H ?]).
  destruct (role_field (raw_role data)) as [r|] eqn:Hr; [|discriminate].
  destruct (role_field_some _ _ Hr) as [-> Hraw].
  destruct (snd (AddUserForm_clean data)) eqn:Herr; [|discriminate].
  destruct (User_clean today db None (construct_instance data)) as [[]|e] eqn:Hc;
    [|discriminate].
  repeat split; try assumption.
  destruct Hraw as [Hraw|[Hraw|Hraw]]; auto.
  exfalso. unfold User_clean, construct_instance in Hc.
  cbn [role date_of_birth has_admin_profile] in Hc. rewrite Hr, Hraw in Hc.
  cbn [String.eqb Ascii.eqb Bool.eqb andb negb] in Hc.
  destruct (match cd_date_of_birth data with
            | Some d => today <? d
            | None => false
            end); discriminate.
Qed.

Lemma AddUserForm_clean_no_error (data : AddUserData) :
  snd (AddUserForm_clean data) = [] ->
  AddUserForm_clean data = (data, []) /\
  (raw_role data = "doctor" ->
   blank (cd_specialization data) = false /\
   blank (cd_license_number data) = false).
Proof.
  unfold AddUserForm_clean.
  destruct (role_is (role_field (raw_role data)) "admin"
            && blank (cd_admin_code data)) eqn:E1;
    cbn [cd_specialization cd_license_number];
    destruct (role_is (role_field (raw_role data)) "doctor"
              && blank (cd_specialization data)) eqn:E2;
    cbn [cd_specialization cd_license_number];
    destruct (role_is (role_field (raw_role data)) "doctor"
              && blank (cd_license_number data)) eqn:E3;
    cbn [snd app]; intros H; try discriminate H.
  split; [reflexivity|]. intros Hraw. rewrite Hraw in E2, E3.
  change (role_field "doctor") with (Some "doctor") in E2, E3.
  cbn [role_is String.eqb Ascii.eqb Bool.eqb andb] in E2, E3. auto.
Qed.

Lemma User_clean_birth (today : date) (db : DB) (pk : option Z) (self : User) :
  User_clean today db pk self = Returns tt ->
  forall d, date_of_birth self = Some d -> d <= today.
Proof.
  unfold User_clean. intros H d Hd. rewrite Hd in H.
  destruct (Z.ltb_spec today d); [discriminate|lia].
Qed.

Lemma NoDup_snoc {A : Type} (l : list A) (x : A) :
  NoDup l -> ~ In x l -> NoDup (l ++ [x]).
Proof.
  induction l as [|a l IH]; intros Hl Hx.
  - constructor; [intros []|constructor].
  - inversion Hl as [|? ? Ha Hl']; subst. cbn [app]. constructor.
    + intros Hin. apply in_app_or in Hin. destruct Hin as [Hin|[Heq|[]]].
      * exact (Ha Hin).
      * apply Hx. left. symmetry. exact Heq.
    + apply IH; [exact Hl'|]. intros Hin. apply Hx. right. exact Hin.
Qed.

(** The three ways through [add_user]: the form shown again with nothing
    stored, a doctor stored with a profile, a patient stored with a
    profile. *)
Lemma add_user_cases (today : date) (new_id : Z) (db : DB)
    (post : option AddUserData) :
  add_user today new_id db post = (db, Render ADD_USER_TEMPLATE) \/
  (exists data specialization license_number,
     post = Some data /\ raw_role data = "doctor" /\
     cd_specialization data = Some specialization /\
     cd_license_number data = Some license_number /\
     specialization <> "" /\ license_number <> "" /\
     ~ In license_number (licences (doctor_profiles db)) /\
     ~ In new_id (map dr_user (doctor_profiles db)) /\
     User_clean today db None (construct_instance data) = Returns tt /\
     add_user today new_id db post
     = ({| users := users db ++ [(new_id, construct_instance data)];
           admin_profiles := admin_profiles db;
           doctor_profiles :=
             doctor_profiles db
             ++ [mk_DoctorRow new_id specialization "" (Some license_number)];
           patient_profiles := patient_profiles db |},
        Redirect "user_management")) \/
  (exists data blood_group,
     post = Some data /\ raw_role data = "patient" /\
     cd_blood_group data = Some blood_group /\
     ~ In new_id (map pr_user (patient_profiles db)) /\
     User_clean today db None (construct_instance data) = Returns tt /\
     add_user today new_id db post
     = ({| users := users db ++ [(new_id, construct_instance data)];
           admin_profiles := admin_profiles db;
           doctor_profiles := doctor_profiles db;
           patient_profiles := patient_profiles db ++ [mk_PatientRow new_id blood_group ""] |},
        Redirect "user_management")).
Proof.
  destruct post as [data|]; [|left; reflexivity].
  unfold add_user.
  destruct (is_valid today db data) eqn:Hvalid; [|left; reflexivity].
  destruct (is_valid_true today db data Hvalid) as (Hraw & Herr & Hclean & Hblood).
  unfold User_save, full_clean. rewrite Hclean.
  destruct (instance_valid data) eqn:Hinst;
    [|unfold construct_instance at 2; cbn [fields_valid]; rewrite Hinst;
      cbn [andb];
      destruct (_ && _); left; reflexivity].
  assert (Hfields : fields_valid (construct_instance data) = true) by exact Hinst.
  rewrite Hfields. cbn [andb].
  destruct (AddUserForm_clean_no_error data Herr) as [Hcleaned Hdoctor].
  rewrite Hcleaned. cbn [fst].
  destruct Hraw as [Hraw|Hraw].
  - assert (Hrole : role (construct_instance data) = "doctor").
    { unfold construct_instance. cbn [role]. rewrite Hraw. reflexivity. }
    rewrite Hrole. cbn [String.eqb Ascii.eqb Bool.eqb andb].
    destruct (Hdoctor Hraw) as [Hspec Hlic].
    destruct (blank_false _ Hspec) as (specialization & Hs' & Hs).
    destruct (blank_false _ Hlic) as (license_number & Hl' & Hl).
    rewrite Hs', Hl'.
    unfold DoctorProfile_create. cbn [doctor_profiles set_users].
    destruct (existsb (fun p => dr_user p =? new_id) (doctor_profiles db)) eqn:Huser;
      [left; reflexivity|].
    cbn [orb].
    match goal with
    | |- context [existsb ?f (doctor_profiles db)] =>
        destruct (existsb f (doctor_profiles db)) eqn:Hdup
    end; [left; reflexivity|].
    right. left. exists data, specialization, license_number.
    repeat (split; [first [reflexivity|assumption]|]).
    split; [exact (existsb_licence _ _ Hdup)|].
    split; [|split; [exact Hclean|reflexivity]].
    intros Hin. apply in_map_iff in Hin. destruct Hin as (p & Hp & Hin).
    assert (Hex : existsb (fun p => dr_user p =? new_id) (doctor_profiles db) = true).
    { apply existsb_exists. exists p. split; [exact Hin|]. apply Z.eqb_eq. exact Hp. }
    congruence.
  - assert (Hrole : role (construct_instance data) = "patient").
    { unfold construct_instance. cbn [role]. rewrite Hraw. reflexivity. }
    rewrite Hrole. cbn [String.eqb Ascii.eqb Bool.eqb andb].
    destruct (cd_blood_group data) as [blood_group|] eqn:Hb; [|discriminate Hblood].
    unfold PatientProfile_create. cbn [patient_profiles set_users].
    destruct (existsb (fun p => pr_user p =? new_id) (patient_profiles db)) eqn:Hdup;
      [left; reflexivity|].
    right. right. exists data, blood_group.
    repeat (split; [first [reflexivity|assumption]|]).
    split; [|split; [exact Hclean|reflexivity]].
    intros Hin. apply in_map_iff in Hin. destruct Hin as (p & Hp & Hin).
    assert (Hex : existsb (fun p => pr_user p =? new_id) (patient_profiles db) = true).
    { apply existsb_exists. exists p. split; [exact Hin|]. apply Z.eqb_eq. exact Hp. }
    congruence.
Qed.

(** What [add_user] stores.  Either nothing, the form being shown again;
    or one active user whose role is doctor or patient, whose date of
    birth is not in the future, together with the profile of that role and
    no other: for a doctor a profile with the specialization and the
    licence number posted, neither of them empty. *)
Theorem add_user_stores_user_with_profile (today : date) (new_id : Z)
    (db : DB) (post : option AddUserData) :
  add_user today new_id db post = (db, Render ADD_USER_TEMPLATE) \/
  exists data user db',
    post = Some data /\
    add_user today new_id db post = (db', Redirect "user_management") /\
    users db' = users db ++ [(new_id, user)] /\
    admin_profiles db' = admin_profiles db /\
    role user = raw_role data /\ is_active user = true /\
    (forall d, date_of_birth user = Some d -> d <= today) /\
    ((role user = "doctor" /\
      exists specialization license_number,
        cd_specialization data = Some specialization /\
        cd_license_number data = Some license_number /\
        specialization <> "" /\ license_number <> "" /\
        doctor_profiles db'
        = doctor_profiles db
          ++ [mk_DoctorRow new_id specialization "" (Some license_number)] /\
        patient_profiles db' = patient_profiles db) \/
     (role user = "patient" /\
      exists blood_group,
        cd_blood_group data = Some blood_group /\
        patient_profiles db' = patient_profiles db ++ [mk_PatientRow new_id blood_group ""] /\
        doctor_profiles db' = doctor_profiles db)).
Proof.
  destruct (add_user_cases today new_id db post)
    as [Hsame
       |[(data & s & l & Hpost & Hraw & Hs & Hl & Hs' & Hl' & _ & _ & Hclean & Hadd)
        |(data & b & Hpost & Hraw & Hb & _ & Hclean & Hadd)]];
    [left; exact Hsame| |];
    right; eexists data, (construct_instance data), _;
    (split; [exact Hpost|]); (split; [exact Hadd|]);
    cbn [users admin_profiles doctor_profiles patient_profiles];
    (split; [reflexivity|]); (split; [reflexivity|]);
    assert (Hrole : role (construct_instance data) = raw_role data)
      by (unfold construct_instance; cbn [role]; rewrite Hraw; reflexivity);
    (split; [exact Hrole|]); (split; [reflexivity|]);
    (split; [exact (User_clean_birth today db None _ Hclean)|]).
  - left. split; [congruence|]. exists s, l. repeat split; assumption.
  - right. split; [congruence|]. exists b. repeat split; assumption.
Qed.

(** Adding a doctor with a new licence number on the sample accounts. *)
Example add_user_doctor :
  add_user (Sample.june 10) 5 SampleAccounts.accounts
    (Some (SampleAccounts.new_doctor "PMC-2002"))
  = ({| users := users SampleAccounts.accounts
                 ++ [(5, mk_User "doctor" None true true)];
        admin_profiles := [(1, "ROOT-1")];
        doctor_profiles := [mk_DoctorRow 4 "Cardiology" "Lahore" (Some "PMC-1001");
                            mk_DoctorRow 5 "Neurology" "" (Some "PMC-2002")];
        patient_profiles := [mk_PatientRow 2 "A+" "+923001234567"] |},
     Redirect "user_management").
Proof. reflexivity. Qed.

(** [add_user] keeps the licence numbers on record distinct, and the
    patient profiles one per user: a doctor posted with a licence number
    that is on record is not added, and the user saved just before the
    profile is not kept either. *)
Theorem add_user_keeps_licences_unique (today : date) (new_id : Z) (db : DB)
    (post : option AddUserData) :
  NoDup (licences (doctor_profiles db)) ->
  NoDup (map pr_user (patient_profiles db)) ->
  NoDup (licences (doctor_profiles (fst (add_user today new_id db post)))) /\
  NoDup (map pr_user (patient_profiles (fst (add_user today new_id db post)))) /\
  (forall data license_number,
     post = Some data -> raw_role data = "doctor" ->
     cd_license_number data = Some license_number ->
     In license_number (licences (doctor_profiles db)) ->
     add_user today new_id db post = (db, Render ADD_USER_TEMPLATE)).
Proof.
  intros Hlic Hpat.
  destruct (add_user_cases today new_id db post)
    as [Hsame
       |[(data & s & l & Hpost & Hraw & Hs & Hl & _ & _ & Hnew & _ & _ & Hadd)
        |(data & b & Hpost & Hraw & Hb & Hnew & _ & Hadd)]].
  - rewrite Hsame. cbn [fst]. split; [exact Hlic|]. split; [exact Hpat|]. auto.
  - rewrite Hadd. cbn [fst doctor_profiles patient_profiles].
    split; [|split; [exact Hpat|]].
    + rewrite licences_app. cbn [licences dr_license_number].
      apply NoDup_snoc; assumption.
    + intros data' l' Hpost' _ Hl' Hin. subst post. injection Hpost' as <-.
      exfalso. apply Hnew. congruence.
  - rewrite Hadd. cbn [fst doctor_profiles patient_profiles].
    split; [exact Hlic|]. split.
    + rewrite map_app. cbn [map pr_user]. apply NoDup_snoc; assumption.
    + intros data' l' Hpost' Hdoc _ _. subst post. injection Hpost' as <-.
      rewrite Hraw in Hdoc. discriminate Hdoc.
Qed.

(** [add_user_keeps_licences_unique] on the sample accounts, for a doctor
    posted with the licence number of the doctor on record. *)
Lemma add_user_keeps_licences_unique_witness :
  add_user (Sample.june 10) 5 SampleAccounts.accounts
    (Some (SampleAccounts.new_doctor "PMC-1001"))
  = (SampleAccounts.accounts, Render ADD_USER_TEMPLATE).
Proof.
  apply (proj2 (proj2 (add_user_keeps_licences_unique (Sample.june 10) 5
                         SampleAccounts.accounts
                         (Some (SampleAccounts.new_doctor "PMC-1001"))
                         ltac:(repeat constructor; cbn; intuition discriminate)
                         ltac:(repeat constructor; cbn; intuition discriminate)))
           (SampleAccounts.new_doctor "PMC-1001") "PMC-1001"
           eq_refl eq_refl eq_refl).
  left. reflexivity.
Defined.

(** *** From the creation of a user to the first login *)









(** *** [edit_user] beside [toggle_user_status] *)

(** [edit_user] has no guard for the account of the admin who asks.  An
    admin who posts the edit form of the own account without [is_active]
    is stored as blocked, where [toggle_user_status] on the own account
    changes nothing; and, as there, the admin role cannot be given to a
    user who has no admin profile. *)
Theorem edit_user_blocks_own_account (today : date) (is_superuser : Z -> bool)
    (db : DB) (outbox : list Z) (me : Z) (user : User) (data : EditData) :
  get_user_or_404 db me = Some user ->
  full_clean today db (Some me) user = true ->
  In (role user) USER_ROLE_CHOICES ->
  ed_role data = Some (role user) ->
  ed_is_active_on data = false ->
  ed_other_fields_valid data = true ->
  get_user_or_404
    (fst (edit_user today is_superuser db me me (Some data))) me
  = Some (with_is_active user false) /\
  toggle_user_status today db outbox me me
  = (db, outbox, OwnAccount, Redirect "user_management") /\
  (forall other target data',
     get_user_or_404 db other = Some target ->
     ed_role data' = Some "admin" ->
     has_admin_profile db (Some other) = false ->
     fst (edit_user today is_superuser db me other (Some data')) = db).
Proof.
  intros Hget Hclean Hrole Hr Hoff Hvalid. split; [|split].
  - assert (Hin : str_in (role user) USER_ROLE_CHOICES = true).
    { apply existsb_exists. exists (role user). split; [exact Hrole|].
      apply String.eqb_refl. }
    assert (Hfields : fields_valid user = true).
    { unfold full_clean in Hclean. apply andb_true_iff in Hclean. tauto. }
    set (edited := {| role := role user;
                      date_of_birth := date_of_birth user;
                      is_active := ed_is_active_on data;
                      fields_valid :=
                        ed_other_fields_valid data
                        && str_in (role user) USER_ROLE_CHOICES |}).
    assert (Hedited : edited = with_is_active user false).
    { unfold edited, with_is_active. rewrite Hoff, Hvalid, Hin, Hfields. reflexivity. }
    assert (Hsaved : edit_user today is_superuser db me me (Some data)
                     = (set_users db
                          (map (fun row => if fst row =? me then (me, edited) else row)
                             (users db)),
                        Redirect "view_user")).
    { unfold edit_user. rewrite Hget.
      destruct (is_superuser me); cbn [negb andb]; rewrite Hr; fold edited;
        unfold User_save; rewrite Hedited, full_clean_with_is_active, Hclean;
        destruct (get_user_or_404_some db me user Hget) as [_ Hex]; rewrite Hex;
        reflexivity. }
    rewrite Hsaved. cbn [fst]. unfold get_user_or_404 in *. cbn [users set_users].
    destruct (find (fun row => fst row =? me) (users db)) as [[k u]|] eqn:E;
      [|discriminate Hget].
    cbn [option_map snd] in Hget. injection Hget as Hu.
    pose proof (find_key_some _ _ _ E) as (Hk & _ & _). cbn [fst] in Hk.
    rewrite Hk, Hu in E.
    rewrite (find_key_replace _ _ _ edited E). rewrite Hedited. reflexivity.
  - unfold toggle_user_status. rewrite Hget, Z.eqb_refl. reflexivity.
  - intros other target data' Hother Hadmin Hnone. unfold edit_user.
    rewrite Hother.
    destruct (is_superuser other && negb (is_superuser me)); [reflexivity|].
    rewrite Hadmin. unfold User_save, full_clean, User_clean.
    cbn [role date_of_birth fields_valid]. rewrite Hnone.
    cbn [String.eqb Ascii.eqb Bool.eqb andb negb].
    destruct (match date_of_birth target with
              | Some d => today <? d
              | None => false
              end); rewrite andb_false_r; reflexivity.
Qed.

(** [edit_user_blocks_own_account] for the first of the sample accounts. *)
Lemma edit_user_blocks_own_account_witness :
  get_user_or_404
    (fst (edit_user (Sample.june 10) (fun _ => false) SampleAccounts.accounts 1 1
            (Some (mk_EditData (Some "admin") false true)))) 1
  = Some (mk_User "admin" None false true).
Proof.
  apply (proj1 (edit_user_blocks_own_account (Sample.june 10) (fun _ => false)
                  SampleAccounts.accounts [] 1 (mk_User "admin" None true true)
                  (mk_EditData (Some "admin") false true)
                  eq_refl eq_refl ltac:(left; reflexivity) eq_refl eq_refl eq_refl)).
Defined.

(** ** Announcements ([AnnouncementForm], the announcement views) *)

Lemma announcement_is_valid_true (data : AnnouncementData) :
  announcement_is_valid data = Returns true ->
  exists s, cleaned_get (ad_start_date data) = Some s /\
    forall e, cleaned_get (ad_end_date data) = Some e -> s <= e.
Proof.
  unfold announcement_is_valid, AnnouncementForm_clean.
  destruct (ad_start_date data) as [s| |]; cbn [cleaned_get field_ok negb andb];
    destruct (ad_end_date data) as [e| |]; cbn [cleaned_get field_ok negb andb bind snd];
    try (rewrite ?andb_false_r; discriminate);
    try (intros _; exists s; split; [reflexivity|]; intros e' He'; discriminate He').
  destruct (Z.ltb_spec e s); cbn [bind snd].
  - rewrite andb_false_r. discriminate.
  - intros _. exists s. split; [reflexivity|]. intros e' He'. injection He' as <-. lia.
Qed.

Lemma announcement_form_save_ordered (data : AnnouncementData) (row : Announcement) :
  announcement_is_valid data = Returns true ->
  announcement_form_save data = Some row ->
  dates_ordered row = true.
Proof.
  intros Hvalid Hsave.
  destruct (announcement_is_valid_true data Hvalid) as (s & Hs & Hle).
  unfold announcement_form_save in Hsave. rewrite Hs in Hsave.
  injection Hsave as <-. unfold dates_ordered. cbn [an_end_date an_start_date].
  destruct (cleaned_get (ad_end_date data)) as [e|]; [|reflexivity].
  apply Z.leb_le. apply Hle. reflexivity.
Qed.

Lemma find_key_in (table : AnnouncementTable) (pk : Z) (row : Z * Announcement) :
  find (fun r => fst r =? pk) table = Some row -> In row table.
Proof. intros H. exact (proj1 (find_some _ _ H)). Qed.

Lemma handle_ordered (table table' : AnnouncementTable) (r : request)
    (answer : response) :
  Forall (fun row => dates_ordered (snd row) = true) table ->
  handle table r = Returns (table', answer) ->
  Forall (fun row => dates_ordered (snd row) = true) table'.
Proof.
  intros Hall Hret. destruct r as [new_id post|pk post|pk p|pk p];
    cbn [handle] in Hret.
  - unfold create_announcements in Hret.
    destruct post as [data|]; [|injection Hret as <- _; exact Hall].
    destruct (announcement_is_valid data) as [[|]|e] eqn:Hvalid; cbn [bind] in Hret;
      [|injection Hret as <- _; exact Hall|discriminate].
    destruct (announcement_form_save data) as [row|] eqn:Hsave;
      [|injection Hret as <- _; exact Hall].
    injection Hret as <- _. apply Forall_app. split; [exact Hall|].
    constructor; [|constructor].
    exact (announcement_form_save_ordered data row Hvalid Hsave).
  - unfold edit_announcement in Hret.
    destruct (find (fun row => fst row =? pk) table);
      [|injection Hret as <- _; exact Hall].
    destruct post as [data|]; [|injection Hret as <- _; exact Hall].
    destruct (announcement_is_valid data) as [[|]|e] eqn:Hvalid; cbn [bind] in Hret;
      [|injection Hret as <- _; exact Hall|discriminate].
    destruct (announcement_form_save data) as [row|] eqn:Hsave;
      [|injection Hret as <- _; exact Hall].
    injection Hret as <- _. apply Forall_forall. intros x Hx.
    apply in_map_iff in Hx. destruct Hx as (y & <- & Hy).
    destruct (fst y =? pk).
    + exact (announcement_form_save_ordered data row Hvalid Hsave).
    + exact (proj1 (Forall_forall _ _) Hall y Hy).
  - unfold toggle_announcement in Hret.
    destruct (find (fun row => fst row =? pk) table) as [[k a]|] eqn:Hfind;
      [|injection Hret as <- _; exact Hall].
    destruct p; injection Hret as <- _; [|exact Hall].
    apply Forall_forall. intros x Hx.
    apply in_map_iff in Hx. destruct Hx as (y & <- & Hy).
    destruct (fst y =? pk).
    + exact (proj1 (Forall_forall _ _) Hall _ (find_key_in _ _ _ Hfind)).
    + exact (proj1 (Forall_forall _ _) Hall y Hy).
  - unfold delete_announcement in Hret.
    destruct (find (fun row => fst row =? pk) table);
      [|injection Hret as <- _; exact Hall].
    destruct p; injection Hret as <- _; [|exact Hall].
    apply Forall_forall. intros x Hx. apply filter_In in Hx.
    exact (proj1 (Forall_forall _ _) Hall x (proj1 Hx)).
Qed.

(** Whatever the admins ask of the four announcement views, and in
    whatever order, no stored announcement ends before it starts, if none
    did at first. *)
Theorem announcement_dates_stay_ordered (table : AnnouncementTable)
    (requests : list request) :
  Forall (fun row => dates_ordered (snd row) = true) table ->
  Forall (fun row => dates_ordered (snd row) = true) (serve table requests).
Proof.
  revert table. induction requests as [|r rest IH]; intros table Hall; [exact Hall|].
  cbn [serve]. destruct (handle table r) as [[table' answer]|e] eqn:Hr.
  - apply IH. exact (handle_ordered table table' r answer Hall Hr).
  - apply IH. exact Hall.
Qed.

(** [announcement_dates_stay_ordered] on an empty table: an announcement
    from 10 to 12 June is created, one from 12 to 10 June is refused, and
    the first is edited to end on 9 June, which is refused as well. *)
Lemma announcement_dates_stay_ordered_witness :
  Forall (fun row => dates_ordered (snd row) = true)
    (serve []
       [Create 1 (Some (mk_AnnouncementData (Value (Sample.june 10))
                          (Value (Sample.june 12)) true true));
        Create 2 (Some (mk_AnnouncementData (Value (Sample.june 12))
                          (Value (Sample.june 10)) true true));
        Edit 1 (Some (mk_AnnouncementData (Value (Sample.june 10))
                        (Value (Sample.june 9)) true true))]).
Proof.
  apply announcement_dates_stay_ordered. constructor.
Defined.

Example announcements_served :
  serve []
    [Create 1 (Some (mk_AnnouncementData (Value (Sample.june 10))
                       (Value (Sample.june 12)) true true));
     Create 2 (Some (mk_AnnouncementData (Value (Sample.june 12))
                       (Value (Sample.june 10)) true true));
     Edit 1 (Some (mk_AnnouncementData (Value (Sample.june 10))
                     (Value (Sample.june 9)) true true))]
  = [(1, mk_Announcement (Sample.june 10) (Some (Sample.june 12)) true)].
Proof. reflexivity. Qed.

(** An end date posted with a start date that is missing or does not
    validate is not reported on the form: [clean] compares the end date
    with [None] and the view ends with [TypeError], on creation as on the
    edition of an announcement that exists. *)
Theorem end_date_without_start_date_raises (new_id pk : Z)
    (table : AnnouncementTable) (data : AnnouncementData) (e : date) :
  cleaned_get (ad_start_date data) = None ->
  ad_end_date data = Value e ->
  create_announcements new_id table (Some data) = Raises TypeError /\
  (In pk (map fst table) ->
   edit_announcement table pk (Some data) = Raises TypeError).
Proof.
  intros Hstart Hend.
  assert (Hvalid : announcement_is_valid data = Raises TypeError).
  { unfold announcement_is_valid, AnnouncementForm_clean.
    rewrite Hstart, Hend. reflexivity. }
  split.
  - unfold create_announcements. rewrite Hvalid. reflexivity.
  - intros Hin. unfold edit_announcement.
    destruct (find (fun row => fst row =? pk) table) eqn:Hfind.
    + rewrite Hvalid. reflexivity.
    + exfalso. apply in_map_iff in Hin. destruct Hin as (row & Hk & Hrow).
      pose proof (find_none _ _ Hfind row Hrow) as Hno. cbn beta in Hno.
      rewrite Hk, Z.eqb_refl in Hno. discriminate.
Qed.

(** [end_date_without_start_date_raises] with the start date left empty
    and the end date 12 June 2025. *)
Lemma end_date_without_start_date_raises_witness :
  create_announcements 1 []
    (Some (mk_AnnouncementData Empty (Value (Sample.june 12)) true true))
  = Raises TypeError.
Proof.
  apply (proj1 (end_date_without_start_date_raises 1 1 []
                  (mk_AnnouncementData Empty (Value (Sample.june 12)) true true)
                  (Sample.june 12) eq_refl eq_refl)).
Defined.

(** ** Reports ([SystemReportForm], [generate_report]) *)

Lemma fields_clean_lookup (post : ReportPost) :
  dict_get (fields_clean post) "report_type" = VNone /\
  dict_subscript (fields_clean post) "report_type" = None /\
  dict_get (fields_clean post) "start_date"
  = match cleaned_get (post_start_date post) with
    | Some d => VDate d
    | None => VNone
    end /\
  dict_get (fields_clean post) "end_date"
  = match cleaned_get (post_end_date post) with
    | Some d => VDate d
    | None => VNone
    end.
Proof.
  unfold fields_clean, dict_get, dict_subscript.
  destruct (choice_field REPORT_TYPES (post_Report_type post));
    destruct (choice_field FORMAT_CHOICES (post_format post));
    destruct (post_start_date post), (post_end_date post), (post_doctor post);
    repeat split; reflexivity.
Qed.

Lemma SystemReportForm_clean_cases (post : ReportPost) :
  SystemReportForm_clean (fields_clean post)
  = if range_in_order post then Returns (fields_clean post)
    else Raises (ValidationError START_AFTER_END).
Proof.
  destruct (fields_clean_lookup post) as (Htype & _ & Hstart & Hend).
  unfold SystemReportForm_clean, range_in_order.
  rewrite Htype, Hstart, Hend. cbn [value_eq_str andb].
  destruct (cleaned_get (post_start_date post)) as [s|];
    destruct (cleaned_get (post_end_date post)) as [e|];
    cbn [value_truthy andb value_gt bind]; try reflexivity.
  rewrite Z.leb_antisym. destruct (e <? s); reflexivity.
Qed.

Lemma report_is_valid_value (post : ReportPost) :
  report_is_valid post
  = Returns (report_fields_valid post && range_in_order post).
Proof.
  unfold report_is_valid. rewrite SystemReportForm_clean_cases.
  destruct (range_in_order post).
  - rewrite andb_true_r. reflexivity.
  - rewrite andb_false_r. reflexivity.
Qed.

(** [SystemReportForm] never asks for the date range of an appointment
    report: [clean] reads the key [report_type], which the form, whose
    field is [Report_type], does not have.  The only error of [clean] is
    that of a start date after the end date, and the form is valid as soon
    as its fields are and the dates, if both are given, are in order. *)
Theorem report_form_never_asks_for_dates (post : ReportPost) :
  SystemReportForm_clean (fields_clean post)
    <> Raises (ValidationError DATE_RANGE_REQUIRED) /\
  (range_in_order post = true ->
   SystemReportForm_clean (fields_clean post) = Returns (fields_clean post)) /\
  report_is_valid post
  = Returns (report_fields_valid post && range_in_order post).
Proof.
  split; [|split].
  - rewrite SystemReportForm_clean_cases.
    destruct (range_in_order post); discriminate.
  - intros Horder. rewrite SystemReportForm_clean_cases, Horder. reflexivity.
  - apply report_is_valid_value.
Qed.

(** An appointments report asked without any date is valid. *)
Example appointments_report_without_dates :
  report_is_valid (mk_ReportPost "appointments" "csv" Empty Empty Empty false)
  = Returns true.
Proof. reflexivity. Qed.

(** [generate_report] never generates a report.  A valid form has no key
    [report_type], so the first statement of the [try] block raises
    [KeyError]; whatever the rest of the block would do, the answer is the
    form again, with the error message for a valid form and without it
    otherwise. *)
Theorem generate_report_never_generates (download : Type)
    (rest_of_try : value -> dict -> (list string * (response + download)) + string)
    (post : option ReportPost) :
  generate_report download rest_of_try post
  = Returns (match post with
             | Some data =>
                 if report_fields_valid data && range_in_order data
                 then ["Error generating report: 'report_type'"]
                 else []
             | None => []
             end,
             inl (Render GENERATE_TEMPLATE)).
Proof.
  destruct post as [data|]; [|reflexivity].
  unfold generate_report.
  rewrite report_is_valid_value. cbn [bind].
  destruct (report_fields_valid data && range_in_order data); [|reflexivity].
  destruct (fields_clean_lookup data) as (_ & Hkey & _). rewrite Hkey.
  reflexivity.
Qed.

(** ** The admin filter ([AppointmentFilterForm], [appointment_management]) *)








(** ** Medical records ([upload_medical_record], [add_medical_record],
    [delete_medical_record]) *)



Example medical_record_of_a_doctor :
  add_medical_record (Sample.june 10) 1 [7] []
    (mk_RequestUser 4 "doctor" None (Some 3) None) 7
    (Some (mk_MedicalRecordData "scan.pdf" "imaging" "" true))
  = ([], Answer (Render RECORD_TEMPLATE)) /\
  upload_medical_record (Sample.june 10) 1 []
    (mk_RequestUser 2 "patient" None None (Some 7))
    (Some (mk_MedicalRecordData "scan.pdf" "imaging" "" true))
  = ([(1, mk_MedicalRecord 7 "scan.pdf" "imaging" (Sample.june 10) "")],
     Answer (Redirect "patient_dashboard")) /\
  delete_medical_record
    [(1, mk_MedicalRecord 7 "scan.pdf" "imaging" (Sample.june 10) "")]
    (mk_RequestUser 4 "doctor" None (Some 3) None) 1 true
  = ([(1, mk_MedicalRecord 7 "scan.pdf" "imaging" (Sample.june 10) "")],
     AttributeError "doctor").
Proof. repeat split. Qed.

(** ** Time spans ([format_timespan]) *)

Lemma timespan_loop_step (name : string) (count : Z) (rest : list (string * Z))
    (seconds : Z) (result : list string) :
  count <> 0 ->
  timespan_loop ((name, count) :: rest) seconds result
  = timespan_loop rest (seconds mod count)
      (result ++ if seconds / count =? 0 then []
                 else [String.append (str_int (seconds / count))
                         (String.append " " name)]).
Proof.
  intros Hcount. cbn [timespan_loop].
  pose proof (Z.div_mod seconds count Hcount) as Hdm.
  destruct (Z.eqb_spec (seconds / count) 0) as [Hzero|_].
  - rewrite app_nil_r. f_equal. rewrite Hzero in Hdm. lia.
  - f_equal. lia.
Qed.

(** [format_timespan] on an integer number of seconds: of the weeks, the
    days of the week, the hours of the day, the minutes of the hour and
    the seconds of the minute, it writes the first two that are not 0,
    always in the plural, and [0 seconds] when all are 0.  What is below
    the second unit written is dropped; a negative number of seconds is
    written as a negative number of weeks followed by what brings it back
    up. *)
Theorem format_timespan_two_largest_units (seconds : Z) :
  format_timespan seconds
  = two_largest [(seconds / 604800, "weeks");
                 (seconds mod 604800 / 86400, "days");
                 (seconds mod 86400 / 3600, "hours");
                 (seconds mod 3600 / 60, "minutes");
                 (seconds mod 60, "seconds")].
Proof.
  unfold format_timespan, intervals.
  rewrite !timespan_loop_step by lia. cbn [timespan_loop].
  assert (H1 : (seconds mod 604800) mod 86400 = seconds mod 86400).
  { apply Z.mod_mod_divide. exists 7. reflexivity. }
  assert (H2 : (seconds mod 86400) mod 3600 = seconds mod 3600).
  { apply Z.mod_mod_divide. exists 24. reflexivity. }
  assert (H3 : (seconds mod 3600) mod 60 = seconds mod 60).
  { apply Z.mod_mod_divide. exists 60. reflexivity. }
  rewrite H1, H2, H3, Z.div_1_r.
  unfold two_largest. cbn [filter fst snd app].
  destruct (seconds / 604800 =? 0), (seconds mod 604800 / 86400 =? 0),
    (seconds mod 86400 / 3600 =? 0), (seconds mod 3600 / 60 =? 0),
    (seconds mod 60 =? 0); reflexivity.
Qed.

Example format_timespan_samples :
  format_timespan 0 = "0 seconds" /\
  format_timespan 59 = "59 seconds" /\
  format_timespan 3661 = "1 hours, 1 minutes" /\
  format_timespan 694861 = "1 weeks, 1 days" /\
  format_timespan 604801 = "1 weeks, 1 seconds" /\
  format_timespan (-1) = "-1 weeks, 6 days".
Proof. repeat split; vm_compute; reflexivity. Qed.

(** ** File extensions ([validate_file_extension]) *)

Lemma rfind_from_spec (c : ascii) (p : list ascii) :
  forall i last,
    (~ In c p /\ rfind_from c p i last = last) \/
    (exists a b, p = a ++ c :: b /\ ~ In c b /\
                 rfind_from c p i last = i + Z.of_nat (List.length a)).
Proof.
  induction p as [|a0 rest IH]; intros i last.
  - left. split; [intros []|reflexivity].
  - cbn [rfind_from].
    destruct (IH (i + 1) (if Ascii.eqb a0 c then i else last))
      as [[Hno Hr]|(a & b & Hp & Hb & Hr)].
    + destruct (Ascii.eqb_spec a0 c) as [->|Hne].
      * right. exists [], rest. split; [reflexivity|]. split; [exact Hno|].
        rewrite Hr. cbn [List.length]. lia.
      * left. split; [|exact Hr]. intros [H|H]; [exact (Hne H)|exact (Hno H)].
    + right. exists (a0 :: a), b. split; [rewrite Hp; reflexivity|].
      split; [exact Hb|]. rewrite Hr. cbn [List.length]. lia.
Qed.

Lemma rfind_spec (p : list ascii) (c : ascii) :
  (~ In c p /\ rfind p c = -1) \/
  (exists a b, p = a ++ c :: b /\ ~ In c b /\ rfind p c = Z.of_nat (List.length a)).
Proof.
  unfold rfind. destruct (rfind_from_spec c p 0 (-1)) as [H|(a & b & H1 & H2 & H3)].
  - left. exact H.
  - right. exists a, b. split; [exact H1|]. split; [exact H2|]. rewrite H3. lia.
Qed.

Lemma firstn_length_app {A : Type} (a b : list A) :
  firstn (List.length a) (a ++ b) = a.
Proof.
  induction a as [|x a IH].
  - reflexivity.
  - cbn [List.length app firstn]. rewrite IH. reflexivity.
Qed.

Lemma skipn_length_app {A : Type} (a b : list A) :
  skipn (List.length a) (a ++ b) = b.
Proof.
  induction a as [|x a IH].
  - reflexivity.
  - cbn [List.length app skipn]. exact IH.
Qed.

(** Two ways to cut the same list: the shorter prefix is a prefix of the
    longer one. *)
Lemma app_cut {A : Type} (a b a' b' : list A) :
  a ++ b = a' ++ b' -> (List.length a <= List.length a')%nat ->
  exists m, a' = a ++ m /\ b = m ++ b'.
Proof.
  revert a'. induction a as [|x a IH]; intros a' Heq Hlen.
  - exists a'. split; [reflexivity|exact Heq].
  - destruct a' as [|x' a']; [cbn in Hlen; lia|].
    cbn [app] in Heq. injection Heq as -> Heq.
    destruct (IH a' Heq) as (m & -> & ->); [cbn in Hlen; lia|].
    exists m. split; reflexivity.
Qed.

Lemma skip_leading_dots_true (n : nat) (p : list ascii) :
  forall i, 0 <= i ->
    skip_leading_dots n p i = true ->
    exists k, (k < n)%nat /\
      is_dot (slice_one p (i + Z.of_nat k)) = false.
Proof.
  induction n as [|n IH]; intros i Hi H; [discriminate|].
  cbn [skip_leading_dots] in H.
  destruct (is_dot (slice_one p i)) eqn:E; cbn [negb] in H.
  - destruct (IH (i + 1) ltac:(lia) H) as (k & Hk & Hd).
    exists (S k). split; [lia|].
    replace (i + Z.of_nat (S k)) with (i + 1 + Z.of_nat k) by lia. exact Hd.
  - exists O. split; [lia|]. rewrite Z.add_0_r. exact E.
Qed.

Lemma skip_leading_dots_found (n : nat) (p : list ascii) :
  forall i k, 0 <= i -> (k < n)%nat ->
    is_dot (slice_one p (i + Z.of_nat k)) = false ->
    skip_leading_dots n p i = true.
Proof.
  induction n as [|n IH]; intros i k Hi Hk Hd; [lia|].
  cbn [skip_leading_dots].
  destruct (is_dot (slice_one p i)) eqn:E; cbn [negb]; [|reflexivity].
  destruct k as [|k].
  - rewrite Z.add_0_r in Hd. congruence.
  - apply (IH (i + 1) k); [lia|lia|].
    replace (i + 1 + Z.of_nat k) with (i + Z.of_nat (S k)) by lia. exact Hd.
Qed.

Lemma slice_one_app (a b : list ascii) (c : ascii) :
  slice_one (a ++ c :: b) (Z.of_nat (List.length a)) = [c].
Proof.
  unfold slice_one. rewrite Nat2Z.id, skipn_length_app. reflexivity.
Qed.

Lemma slice_one_cut (p : list ascii) (i : nat) :
  (i < List.length p)%nat ->
  exists a c b, p = a ++ c :: b /\ List.length a = i /\
                slice_one p (Z.of_nat i) = [c].
Proof.
  intros Hi. exists (firstn i p).
  destruct (skipn i p) as [|c b] eqn:E.
  - exfalso. pose proof (f_equal (@List.length _) E) as H.
    rewrite length_skipn in H. cbn in H. lia.
  - exists c, b. split; [|split].
    + rewrite <- E. symmetry. apply firstn_skipn.
    + rewrite length_firstn. lia.
    + unfold slice_one. rewrite Nat2Z.id, E. reflexivity.
Qed.

Lemma last_occurrence_unique (c : ascii) (a b a' b' : list ascii) :
  a ++ c :: b = a' ++ c :: b' -> ~ In c b -> ~ In c b' -> a = a' /\ b = b'.
Proof.
  intros Heq Hb Hb'.
  destruct (Nat.le_ge_cases (List.length a) (List.length a')) as [Hle|Hle].
  - destruct (app_cut a (c :: b) a' (c :: b') Heq Hle) as (m & -> & Hm).
    destruct m as [|x m].
    + cbn [app] in Hm. injection Hm as ->. rewrite app_nil_r. auto.
    + cbn [app] in Hm. injection Hm as <- ->. exfalso. apply Hb.
      apply in_or_app. right. left. reflexivity.
  - destruct (app_cut a' (c :: b') a (c :: b) (eq_sym Heq) Hle) as (m & -> & Hm).
    destruct m as [|x m].
    + cbn [app] in Hm. injection Hm as ->. rewrite app_nil_r. auto.
    + cbn [app] in Hm. injection Hm as <- ->. exfalso. apply Hb'.
      apply in_or_app. right. left. reflexivity.
Qed.

(** Where [splitext] cuts: a name that ends with a dot and characters that
    are neither dots nor slashes is cut at that dot, provided that what is
    before it names a file. *)
Lemma splitext_found (root x : list ascii) :
  names_a_file root -> ~ In "."%char x -> ~ In "/"%char x ->
  splitext (root ++ "."%char :: x) = (root, "."%char :: x).
Proof.
  intros (ra & c & rb & -> & Hdot & Hsep & Hrb) Hx Hx'.
  set (p := (ra ++ c :: rb) ++ "."%char :: x).
  assert (Hd : rfind p "." = Z.of_nat (List.length (ra ++ c :: rb))).
  { destruct (rfind_spec p ".") as [[Hno _]|(a & b & Hp & Hb & ->)].
    - exfalso. apply Hno. unfold p. apply in_or_app. right. left. reflexivity.
    - f_equal. f_equal.
      exact (eq_sym (proj1 (last_occurrence_unique _ _ _ _ _ Hp Hx Hb))). }
  assert (Hs : rfind p "/" + 1 <= Z.of_nat (List.length ra)).
  { destruct (rfind_spec p "/") as [[_ ->]|(a' & b' & Hp & Hb' & ->)]; [lia|].
    destruct (Nat.lt_ge_cases (List.length a') (List.length ra)) as [Hlt|Hge]; [lia|].
    exfalso. unfold p in Hp. rewrite <- app_assoc in Hp.
    destruct (app_cut ra _ a' _ Hp Hge) as (m & _ & Hm).
    assert (Hin : In "/"%char ((c :: rb) ++ "."%char :: x)).
    { rewrite Hm. apply in_or_app. right. left. reflexivity. }
    apply in_app_or in Hin. destruct Hin as [[Hin|Hin]|[Hin|Hin]].
    - exact (Hsep Hin).
    - exact (Hrb Hin).
    - discriminate Hin.
    - exact (Hx' Hin). }
  unfold splitext. fold p. rewrite Hd.
  rewrite length_app in *. cbn [List.length] in *.
  destruct (Z.ltb_spec (rfind p "/") (Z.of_nat (List.length ra + S (List.length rb))));
    [|lia].
  cbn [andb].
  rewrite (skip_leading_dots_found _ p (rfind p "/" + 1)
             (Z.to_nat (Z.of_nat (List.length ra) - (rfind p "/" + 1)))).
  - unfold slice_to, slice_from. rewrite Nat2Z.id.
    replace (List.length ra + S (List.length rb))%nat
      with (List.length (ra ++ c :: rb)) by (rewrite length_app; reflexivity).
    unfold p. rewrite firstn_length_app, skipn_length_app. reflexivity.
  - destruct (rfind_spec p "/") as [[_ ->]|(a' & b' & _ & _ & ->)]; lia.
  - destruct (rfind_spec p "/") as [[_ Hr]|(a' & b' & _ & _ & Hr)]; rewrite Hr in *; lia.
  - replace (rfind p "/" + 1
             + Z.of_nat (Z.to_nat (Z.of_nat (List.length ra) - (rfind p "/" + 1))))
      with (Z.of_nat (List.length ra))
      by (destruct (rfind_spec p "/") as [[_ Hr]|(a' & b' & _ & _ & Hr)];
          rewrite Hr in *; lia).
    unfold p. rewrite <- app_assoc. cbn [app]. rewrite slice_one_app.
    cbn [is_dot]. destruct (Ascii.eqb_spec c "."); [contradiction|reflexivity].
Qed.

Lemma splitext_cases (p root ext : list ascii) :
  splitext p = (root, ext) ->
  root ++ ext = p /\
  (ext = [] \/
   exists x, ext = "."%char :: x /\ ~ In "."%char x /\ ~ In "/"%char x /\
             names_a_file root).
Proof.
  unfold splitext.
  destruct ((rfind p "/" <? rfind p ".")
            && skip_leading_dots (Z.to_nat (rfind p "." - (rfind p "/" + 1))) p
                 (rfind p "/" + 1)) eqn:Hcond.
  2:{ intros H. injection H as <- <-. split; [apply app_nil_r|left; reflexivity]. }
  apply andb_true_iff in Hcond. destruct Hcond as [Hlt Hloop].
  apply Z.ltb_lt in Hlt.
  assert (Hsep_lo : -1 <= rfind p "/").
  { destruct (rfind_spec p "/") as [[_ ->]|(a' & b' & _ & _ & ->)]; lia. }
  destruct (rfind_spec p ".") as [[_ Hd]|(a & b & Hp & Hb & Hd)]; [lia|].
  rewrite Hd in *. unfold slice_to, slice_from. rewrite Nat2Z.id.
  intros H. injection H as <- <-.
  rewrite firstn_skipn. split; [reflexivity|]. right.
  rewrite Hp, firstn_length_app, skipn_length_app.
  exists b. split; [reflexivity|]. split; [exact Hb|].
  destruct (skip_leading_dots_true _ p (rfind p "/" + 1) ltac:(lia) Hloop)
    as (k & Hk & Hnot).
  set (idx := Z.to_nat (rfind p "/" + 1 + Z.of_nat k)) in *.
  assert (Hidx : rfind p "/" + 1 + Z.of_nat k = Z.of_nat idx) by (unfold idx; lia).
  assert (Hidx_lt : (idx < List.length a)%nat) by lia.
  rewrite Hidx in Hnot.
  destruct (slice_one_cut p idx) as (a1 & c & b1 & Hp1 & Hlen1 & Hone).
  { rewrite Hp, length_app. cbn [List.length]. lia. }
  rewrite Hone in Hnot. cbn [is_dot] in Hnot.
  assert (Hc : c <> "."%char).
  { intros ->. discriminate Hnot. }
  assert (Hcut : exists m', a = a1 ++ c :: m' /\ b1 = m' ++ "."%char :: b).
  { rewrite Hp in Hp1.
    destruct (app_cut a1 (c :: b1) a ("."%char :: b) (eq_sym Hp1) ltac:(lia))
      as (m & -> & Hm).
    destruct m as [|y m'].
    - rewrite app_nil_r in Hidx_lt. lia.
    - cbn [app] in Hm. injection Hm as <- ->. exists m'. auto. }
  destruct Hcut as (m' & Ha & Hb1).
  destruct (rfind_spec p "/") as [[Hno _]|(a' & b' & Hp' & Hb' & Hs)].
  - split.
    + intros Hin. apply Hno. rewrite Hp. apply in_or_app. right. right. exact Hin.
    + exists a1, c, m'. split; [exact Ha|]. split; [exact Hc|]. split.
      * intros ->. apply Hno. rewrite Hp1. apply in_or_app. right. left. reflexivity.
      * intros Hin. apply Hno. rewrite Hp1, Hb1. apply in_or_app. right. right.
        apply in_or_app. left. exact Hin.
  - assert (Hcut' : exists m2, b' = m2 ++ c :: b1).
    { rewrite Hp1 in Hp'.
      destruct (app_cut a' ("/"%char :: b') a1 (c :: b1) (eq_sym Hp') ltac:(lia))
        as (m & -> & Hm).
      destruct m as [|y m2].
      - rewrite app_nil_r in Hlen1. lia.
      - cbn [app] in Hm. injection Hm as _ ->. exists m2. reflexivity. }
    destruct Hcut' as (m2 & Hb2).
    assert (Hfree : ~ In "/"%char (c :: b1)).
    { intros Hin. apply Hb'. rewrite Hb2. apply in_or_app. right. exact Hin. }
    split.
    + intros Hin. apply Hfree. right. rewrite Hb1. apply in_or_app. right. right.
      exact Hin.
    + exists a1, c, m'. split; [exact Ha|]. split; [exact Hc|]. split.
      * intros ->. apply Hfree. left. reflexivity.
      * intros Hin. apply Hfree. right. rewrite Hb1. apply in_or_app. left. exact Hin.
Qed.

Lemma chars_eqb_in (s : list ascii) (l : list (list ascii)) :
  existsb (chars_eqb s) l = true <-> In s l.
Proof.
  rewrite existsb_exists. unfold chars_eqb. split.
  - intros (t & Hin & Heq). destruct (list_eq_dec ascii_dec s t); [subst; exact Hin|discriminate].
  - intros Hin. exists s. split; [exact Hin|].
    destruct (list_eq_dec ascii_dec s s); [reflexivity|contradiction].
Qed.

Lemma lower_keeps_separators (x target : list ascii) :
  lower x = target ->
  ~ In "."%char target -> ~ In "/"%char target ->
  ~ In "."%char x /\ ~ In "/"%char x.
Proof.
  intros <- Hdot Hsep. split; intros Hin.
  - apply Hdot. apply (in_map lower_char) in Hin. exact Hin.
  - apply Hsep. apply (in_map lower_char) in Hin. exact Hin.
Qed.

Lemma valid_extension_shape (e : list ascii) :
  In (lower e) valid_extensions ->
  exists x, e = "."%char :: x /\ ~ In "."%char x /\ ~ In "/"%char x.
Proof.
  intros Hin. destruct e as [|d x].
  { cbn in Hin. intuition discriminate. }
  assert (Hd : lower_char d = "."%char /\
               (lower x = name_of "jpg" \/ lower x = name_of "jpeg"
                \/ lower x = name_of "png")).
  { cbn [lower map] in Hin. unfold valid_extensions, name_of in Hin.
    cbn [list_ascii_of_string In] in Hin. cbn [lower].
    unfold lower, name_of. cbn [list_ascii_of_string].
    destruct Hin as [H|[H|[H|[]]]]; injection H as H0 H1;
      (split; [symmetry; exact H0|]); rewrite <- H1; auto. }
  destruct Hd as [Hd Hx].
  assert (d = "."%char).
  { unfold lower_char in Hd.
    destruct ((65 <=? N_of_ascii d) && (N_of_ascii d <=? 90))%N eqn:E; [|exact Hd].
    exfalso. apply (f_equal N_of_ascii) in Hd.
    rewrite N_ascii_embedding in Hd.
    - cbn in Hd. apply andb_true_iff in E. destruct E as [E1 E2].
      apply N.leb_le in E1. lia.
    - apply andb_true_iff in E. destruct E as [E1 E2]. apply N.leb_le in E2. lia. }
  subst d. exists x. split; [reflexivity|].
  destruct Hx as [Hx|[Hx|Hx]];
    apply (lower_keeps_separators x _ Hx); cbn; intuition discriminate.
Qed.

(** The names [validate_file_extension] accepts: those that end with
    [.jpg], [.jpeg] or [.png], in capitals or not, after a last path
    component that has a character other than a dot.  A name that is only
    the extension, as [.png], is refused; one with two extensions, as
    [report.pdf.png], is accepted. *)
Theorem validate_file_extension_accepts (name : list ascii) :
  validate_file_extension name = Returns tt
  <-> exists root e,
        name = root ++ e /\ names_a_file root /\ In (lower e) valid_extensions.
Proof.
  unfold validate_file_extension. split.
  - destruct (splitext name) as [root ext] eqn:Hsplit. cbn [snd].
    destruct (existsb (chars_eqb (lower ext)) valid_extensions) eqn:Hvalid;
      [|discriminate].
    intros _. apply chars_eqb_in in Hvalid.
    destruct (splitext_cases name root ext Hsplit) as [Hname [->|(x & -> & _ & _ & Hroot)]].
    + cbn in Hvalid. intuition discriminate.
    + exists root, ("."%char :: x). auto.
  - intros (root & e & -> & Hroot & Hvalid).
    destruct (valid_extension_shape e Hvalid) as (x & -> & Hx & Hx').
    rewrite (splitext_found root x Hroot Hx Hx'). cbn [snd].
    rewrite (proj2 (chars_eqb_in _ _) Hvalid). reflexivity.
Qed.

Example validate_file_extension_samples :
  validate_file_extension (name_of "photo.PNG") = Returns tt /\
  validate_file_extension (name_of "report.pdf.png") = Returns tt /\
  validate_file_extension (name_of ".png")
    = Raises (ValidationError UNSUPPORTED_EXTENSION) /\
  validate_file_extension (name_of "scans/...jpg")
    = Raises (ValidationError UNSUPPORTED_EXTENSION) /\
  validate_file_extension (name_of "photo.gif")
    = Raises (ValidationError UNSUPPORTED_EXTENSION).
Proof. repeat split; vm_compute; reflexivity. Qed.
